(** * Codility API client and completed-session export: a shallow embedding

    The two Python sources are embedded as executable Gallina:
    - [api-calls.py]                  -> module [api_calls]
    - [export-completed-sessions.py]  -> module [export_completed_sessions]

    The Python values the scripts handle are the ones [response.json()]
    yields, so the value universe is JSON ([Py.json]).  The pieces of the
    Python runtime and of [requests] that the two files call ([str], [repr],
    truthiness, [dict] access, [json.dumps], [raise_for_status], ...) are
    modelled in [Py], [Requests] and [Effects] after their documented
    behaviour.

    Effects are explicit: a computation reads a [World] (environment,
    HTTP session, terminal input, file system) and logs what it does
    ([Called], [Printed], [Opened], ...), and it returns a value or raises.

    Boundaries of the model:
    - a [str] holds code points below 256;
    - the client's code ends where it calls [session.get], [session.post]
      or [session.delete].  What [requests] does inside such a call is not
      modelled: it may refuse the call and send nothing (a header value, a
      URL or a payload it rejects), send one request, or send several
      (it follows redirections).  The model has the call, logged as one
      [Called] event, and its outcome: the response handed back, which is
      the last one received, or the exception raised;
    - within one run the same call has the same outcome;
    - [print] succeeds and [input] reads a line or meets the end of input;
      an interrupt, or an output stream that cannot be written, is not
      modelled;
    - the CSV file is the sequence of rows handed to the writer, each a list
      of cell values; the text the [csv] module makes of a cell is not
      modelled;
    - [main] is one Python function; it is embedded in phases ([main],
      [select_and_export], [list_and_prompt], [export_matched],
      [collect_records], [write_csv]) and loop bodies, each marked with the
      lines it covers. *)

From Stdlib Require Import List String Ascii ZArith Lia Bool.
From Stdlib Require Import DecimalString Sorted Permutation.
From Corelib Require Import PrimFloat SpecFloat FloatOps.
Import ListNotations.
#[local] Set Warnings "-inexact-float,-register-all".
Open Scope string_scope.
Open Scope Z_scope.

(* ================================================================== *)
(** * The Python runtime *)
(* ================================================================== *)

Module Py.

(** A Python [str] is a sequence of code points; the model keeps the code
    points below 256, one per [ascii]. *)

(** Values as [response.json()] builds them.  A [dict] keeps its items in
    insertion order, as Python's does. *)
Inductive json : Type :=
| JNull
| JBool (b : bool)
| JInt (n : Z)
| JFloat (x : float)
| JStr (s : string)
| JList (l : list json)
| JDict (d : list (string * json)).

Definition dict := list (string * json).

(** ** Text helpers *)

Fixpoint str_repeat (c : ascii) (n : nat) : string :=
  match n with
  | O => ""
  | S k => String c (str_repeat c k)
  end.

Fixpoint str_contains (c : ascii) (s : string) : bool :=
  match s with
  | EmptyString => false
  | String a r => Ascii.eqb a c || str_contains c r
  end.

Definition hex_digit (n : N) : ascii :=
  if (n <? 10)%N then ascii_of_N (48 + n) else ascii_of_N (87 + n).

(** [int.__repr__]: decimal digits, a minus sign for negatives. *)
Definition int_repr (n : Z) : string := NilZero.string_of_int (Z.to_int n).

(** ** [float.__repr__]

    CPython prints the shortest decimal string that reads back as the same
    binary64 value and, among those, the one closest to it. *)

Fixpoint strip_zeros_rev (s : list ascii) : list ascii :=
  match s with
  | "0"%char :: r => strip_zeros_rev r
  | _ => s
  end.

Definition strip_trailing_zeros (s : string) : string :=
  string_of_list_ascii (rev (strip_zeros_rev (rev (list_ascii_of_string s)))).

(** [10^k] as a fraction [(numerator, denominator)]. *)
Definition pow10 (k : Z) : Z * Z :=
  if 0 <=? k then (10 ^ k, 1) else (1, 10 ^ (- k)).

(** The value [m * 2^e] is [4m] units of [2^(e-2)]; its rounding interval
    ends at the midpoints to the neighbouring floats. *)
Definition float_unit (e : Z) : Z * Z :=
  if 2 <=? e then (2 ^ (e - 2), 1) else (1, 2 ^ (2 - e)).

Definition float_low (m e : Z) : Z :=
  if (m =? 2 ^ 52) && (-1074 <? e) then 4 * m - 1 else 4 * m - 2.

Definition float_high (m : Z) : Z := 4 * m + 2.

Fixpoint decpt_up (fuel : nat) (fn fd p : Z) : Z :=
  match fuel with
  | O => p
  | S k =>
      let '(pn, pd) := pow10 p in
      if fn * pd <? pn * fd then p else decpt_up k fn fd (p + 1)
  end.

Fixpoint decpt_down (fuel : nat) (fn fd p : Z) : Z :=
  match fuel with
  | O => p
  | S k =>
      let '(pn, pd) := pow10 (p - 1) in
      if pn * fd <=? fn * pd then p else decpt_down k fn fd (p - 1)
  end.

(** The [p] with [10^(p-1) <= m * 2^e < 10^p]. *)
Definition float_decpt (m e : Z) : Z :=
  let '(un, ud) := float_unit e in
  let fn := 4 * m * un in
  let p0 := ((Z.log2 m + e) * 30103) / 100000 in
  decpt_down 4 fn ud (decpt_up 4 fn ud p0).

(** Try [n], [n+1], ... significant digits; the result is the digit value
    [d] and the exponent [k] of the decimal [d * 10^k]. *)
Fixpoint shortest_from (fuel : nat) (m e decpt n : Z) : Z * Z :=
  let '(un, ud) := float_unit e in
  let k := decpt - n in
  let '(pn, pd) := pow10 k in
  let f := 4 * m * un * pd in
  let lo := float_low m e * un * pd in
  let hi := float_high m * un * pd in
  let q := pn * ud in
  let d0 := f / q in
  let d1 := d0 + 1 in
  let inside d :=
    if Z.even m then (lo <=? d * q) && (d * q <=? hi)
    else (lo <? d * q) && (d * q <? hi) in
  match fuel with
  | O => (d0, k)
  | S fuel' =>
      match inside d0, inside d1 with
      | true, true =>
          if f - d0 * q <? d1 * q - f then (d0, k)
          else if d1 * q - f <? f - d0 * q then (d1, k)
          else if Z.even d0 then (d0, k) else (d1, k)
      | true, false => (d0, k)
      | false, true => (d1, k)
      | false, false => shortest_from fuel' m e decpt (n + 1)
      end
  end.

(** Digits without trailing zeros and the position of the decimal point. *)
Definition float_digits (m e : Z) : string * Z :=
  let '(d, k) := shortest_from 17 m e (float_decpt m e) 1 in
  let ds := int_repr d in
  (strip_trailing_zeros ds, k + Z.of_nat (String.length ds)).

Definition exponent_text (x : Z) : string :=
  let a := int_repr (Z.abs x) in
  (if x <? 0 then "-" else "+") ++ (if Z.abs x <? 10 then "0" ++ a else a).

(** The layout of format code ['r']: positional for [-4 < decpt <= 16],
    exponent form otherwise. *)
Definition float_layout (ds : string) (decpt : Z) : string :=
  let nd := Z.of_nat (String.length ds) in
  if (-4 <? decpt) && (decpt <=? 16) then
    if decpt <=? 0 then "0." ++ str_repeat "0" (Z.to_nat (- decpt)) ++ ds
    else if nd <=? decpt then ds ++ str_repeat "0" (Z.to_nat (decpt - nd)) ++ ".0"
    else substring 0 (Z.to_nat decpt) ds ++ "."
         ++ substring (Z.to_nat decpt) (Z.to_nat (nd - decpt)) ds
  else
    substring 0 1 ds
    ++ (if 1 <? nd then "." ++ substring 1 (Z.to_nat (nd - 1)) ds else "")
    ++ "e" ++ exponent_text (decpt - 1).

Definition float_repr (x : float) : string :=
  match Prim2SF x with
  | S754_nan => "nan"
  | S754_infinity s => if s then "-inf" else "inf"
  | S754_zero s => if s then "-0.0" else "0.0"
  | S754_finite s m e =>
      let '(ds, decpt) := float_digits (Zpos m) e in
      (if s then "-" else "") ++ float_layout ds decpt
  end.

(** ** [str] and [repr] *)

Definition dquote : ascii := "034"%char.
Definition squote : ascii := "039"%char.
Definition backslash : ascii := "092"%char.

(** [str.isprintable] on one code point below 256. *)
Definition is_printable (c : ascii) : bool :=
  let n := N_of_ascii c in
  ((32 <=? n) && (n <? 127) || (161 <=? n) && negb (n =? 173))%N.

Definition hex2 (n : N) : string :=
  String (hex_digit (n / 16)) (String (hex_digit (n mod 16)) "").

Definition repr_char (quote c : ascii) : string :=
  let n := N_of_ascii c in
  if Ascii.eqb c quote || Ascii.eqb c backslash then String backslash (String c "")
  else if (n =? 9)%N then String backslash "t"
  else if (n =? 10)%N then String backslash "n"
  else if (n =? 13)%N then String backslash "r"
  else if is_printable c then String c ""
  else String backslash ("x" ++ hex2 n).

Fixpoint repr_chars (quote : ascii) (s : string) : string :=
  match s with
  | EmptyString => ""
  | String c r => repr_char quote c ++ repr_chars quote r
  end.

(** [str.__repr__]: single quotes, unless the text has a single quote and
    no double quote. *)
Definition str_repr (s : string) : string :=
  let quote :=
    if str_contains squote s && negb (str_contains dquote s) then dquote else squote in
  String quote (repr_chars quote s ++ String quote "").

Fixpoint py_repr (v : json) : string :=
  match v with
  | JNull => "None"
  | JBool b => if b then "True" else "False"
  | JInt n => int_repr n
  | JFloat x => float_repr x
  | JStr s => str_repr s
  | JList l =>
      "[" ++ (fix items (l : list json) : string :=
                match l with
                | [] => ""
                | x :: r =>
                    py_repr x ++ match r with [] => "" | _ => ", " ++ items r end
                end) l ++ "]"
  | JDict d =>
      "{" ++ (fix items (d : list (string * json)) : string :=
                match d with
                | [] => ""
                | (k, x) :: r =>
                    str_repr k ++ ": " ++ py_repr x
                    ++ match r with [] => "" | _ => ", " ++ items r end
                end) d ++ "}"
  end.

(** [str(v)], which is also what an f-string field [{v}] inserts. *)
Definition py_str (v : json) : string :=
  match v with
  | JStr s => s
  | _ => py_repr v
  end.

(** ** Truthiness, [==] against a [str], iteration *)

Definition py_truthy (v : json) : bool :=
  match v with
  | JNull => false
  | JBool b => b
  | JInt n => negb (n =? 0)
  | JFloat x => negb (PrimFloat.eqb x 0%float)
  | JStr s => negb (String.eqb s "")
  | JList l => match l with [] => false | _ => true end
  | JDict d => match d with [] => false | _ => true end
  end.

(** [a or b]. *)
Definition py_or (a b : json) : json := if py_truthy a then a else b.

(** [v == s] for a [str] [s]: only an equal [str] compares equal. *)
Definition eq_str (v : json) (s : string) : bool :=
  match v with
  | JStr s' => String.eqb s' s
  | _ => false
  end.

Definition is_container (v : json) : bool :=
  match v with
  | JList _ | JDict _ => true
  | _ => false
  end.

(** ** [dict] *)

Fixpoint dict_get (k : string) (d : dict) : option json :=
  match d with
  | [] => None
  | (k', v) :: r => if String.eqb k' k then Some v else dict_get k r
  end.

(** [d[k] = v]: an existing key keeps its place, a new one goes last. *)
Fixpoint dict_set (k : string) (v : json) (d : dict) : dict :=
  match d with
  | [] => [(k, v)]
  | (k', v') :: r =>
      if String.eqb k' k then (k', v) :: r else (k', v') :: dict_set k v r
  end.

Definition dict_keys (d : dict) : list string := map fst d.

(** [d.get(k, default)]. *)
Definition dict_get_default (k : string) (default : json) (d : dict) : json :=
  match dict_get k d with
  | Some v => v
  | None => default
  end.

(** A [dict] holds each key once. *)
Definition dict_ok (d : dict) : Prop := NoDup (dict_keys d).

(** ** [json.dumps] with its defaults

    [ensure_ascii=True], separators [", "] and [": "], [allow_nan=True]. *)

Definition hex4 (n : N) : string :=
  String (hex_digit (n / 4096)) (String (hex_digit ((n / 256) mod 16)) (hex2 (n mod 256))).

Definition json_escape_char (c : ascii) : string :=
  let n := N_of_ascii c in
  if Ascii.eqb c dquote || Ascii.eqb c backslash then String backslash (String c "")
  else if (n =? 8)%N then String backslash "b"
  else if (n =? 12)%N then String backslash "f"
  else if (n =? 10)%N then String backslash "n"
  else if (n =? 13)%N then String backslash "r"
  else if (n =? 9)%N then String backslash "t"
  else if ((32 <=? n) && (n <? 127))%N then String c ""
  else String backslash ("u" ++ hex4 n).

Fixpoint json_escape (s : string) : string :=
  match s with
  | EmptyString => ""
  | String c r => json_escape_char c ++ json_escape r
  end.

Definition json_string (s : string) : string :=
  String dquote (json_escape s ++ String dquote "").

Definition json_float (x : float) : string :=
  if PrimFloat.is_nan x then "NaN"
  else if PrimFloat.eqb x infinity then "Infinity"
  else if PrimFloat.eqb x neg_infinity then "-Infinity"
  else float_repr x.

Fixpoint json_dumps (v : json) : string :=
  match v with
  | JNull => "null"
  | JBool b => if b then "true" else "false"
  | JInt n => int_repr n
  | JFloat x => json_float x
  | JStr s => json_string s
  | JList l =>
      "[" ++ (fix items (l : list json) : string :=
                match l with
                | [] => ""
                | x :: r =>
                    json_dumps x ++ match r with [] => "" | _ => ", " ++ items r end
                end) l ++ "]"
  | JDict d =>
      "{" ++ (fix items (d : list (string * json)) : string :=
                match d with
                | [] => ""
                | (k, x) :: r =>
                    json_string k ++ ": " ++ json_dumps x
                    ++ match r with [] => "" | _ => ", " ++ items r end
                end) d ++ "}"
  end.

(** ** [str] methods *)

(** [str.isspace] on one code point below 256. *)
Definition is_space (c : ascii) : bool :=
  let n := N_of_ascii c in
  ((9 <=? n) && (n <=? 13) || (28 <=? n) && (n <=? 32) || (n =? 133) || (n =? 160))%N.

Fixpoint lstrip_by (p : ascii -> bool) (s : string) : string :=
  match s with
  | EmptyString => ""
  | String c r => if p c then lstrip_by p r else s
  end.

(** Drops the longest suffix whose characters all satisfy [p]. *)
Fixpoint rstrip_by (p : ascii -> bool) (s : string) : string :=
  match s with
  | EmptyString => ""
  | String c r =>
      match rstrip_by p r with
      | EmptyString => if p c then "" else String c ""
      | r' => String c r'
      end
  end.

(** [s.strip()]. *)
Definition str_strip (s : string) : string := rstrip_by is_space (lstrip_by is_space s).

(** [s.rstrip(chars)] for a one-character [chars]. *)
Definition str_rstrip (c : ascii) (s : string) : string := rstrip_by (Ascii.eqb c) s.

(** [s.replace(a, b)] for one-character [a] and [b]. *)
Fixpoint str_replace (a b : ascii) (s : string) : string :=
  match s with
  | EmptyString => ""
  | String c r => String (if Ascii.eqb c a then b else c) (str_replace a b r)
  end.

(** ** [sorted] on a list of [str]: code-point order *)

Fixpoint insert_sorted (x : string) (l : list string) : list string :=
  match l with
  | [] => [x]
  | y :: r => if String.leb x y then x :: l else y :: insert_sorted x r
  end.

Fixpoint sorted (l : list string) : list string :=
  match l with
  | [] => []
  | x :: r => insert_sorted x (sorted r)
  end.

(** ** Exceptions and call outcomes *)

Inductive exn : Type :=
| HTTPError (status : Z) (body : string)   (* requests.exceptions.HTTPError *)
| JSONDecodeError                          (* the body is not JSON *)
| SessionError (what : string)             (* raised by the session call itself *)
| AttributeError
| KeyError (key : string)
| TypeError
| ValueError
| OSError
| EOFError
| SystemExit (code : Z).

Inductive result (A : Type) : Type :=
| Ok (a : A)
| Raise (e : exn).

Arguments Ok {A} a.
Arguments Raise {A} e.

End Py.

Import Py.

(* ================================================================== *)
(** * The [requests] library, as far as the client uses it *)
(* ================================================================== *)

Module Requests.

Inductive Method : Type := GET | POST | DELETE.

(** The arguments of one call of [session.get], [session.post] or
    [session.delete]: the verb, the URL passed, the headers set on the
    session, the payload passed as [json=]. *)
Record Request : Type := {
  method : Method;
  url : string;
  headers : list (string * string);
  json_body : option json          (* the [json=] keyword argument *)
}.

(** The response a call hands back: [parsed] is what [response.json()]
    yields, [None] when the body is not JSON. *)
Record Response : Type := {
  status_code : Z;
  content : string;
  parsed : option json
}.

(** [requests.Session], with the headers set on it.  The headers the library
    adds on its own (User-Agent, Accept, ...) are left out. *)
Record Session : Type := { session_headers : list (string * string) }.

End Requests.

Import Requests.

(* ================================================================== *)
(** * Effects: environment, network, terminal, file *)
(* ================================================================== *)

Module Effects.

(** The outcome of one call of [session.get], [session.post] or
    [session.delete], as the caller sees it.
    - [Answered r]: the call returns the response [r].  [requests] follows
      redirections by default (an answer with status 301, 302, 303, 307 or
      308 that names a Location), so [r] is the last response received,
      not always the answer to the request the call started with.
    - [Failed what]: the call raises, [what] naming the exception.  That is
      a call [requests] refuses before it sends anything (InvalidHeader,
      MissingSchema, InvalidURL, InvalidJSONError for a payload that
      [json.dumps] rejects), a transfer that fails (ConnectionError,
      Timeout), or redirections that do not end (TooManyRedirects). *)
Inductive Reply : Type :=
| Answered (r : Response)
| Failed (what : string).

(** What a run can observe from outside.  [session_request] stands for
    [requests] and the network behind it: it gives the outcome of a call by
    the call's method, URL, session headers and payload, the same outcome
    when the same call is made again. *)
Record World : Type := {
  getenv : string -> option string;          (* os.getenv *)
  session_request : Request -> Reply;        (* requests.Session.request *)
  stdin : option string;                     (* the line input() reads *)
  writable : string -> bool                  (* open(name, 'w') succeeds *)
}.

(** What a run does to the outside, in order.  [Called r] is one call of
    [session.get], [session.post] or [session.delete]: the client sends the
    request [r] through its session.  What [requests] puts on the wire for
    the call (nothing when it refuses it, further requests when it follows
    redirections) is not an event of the client. *)
Inductive Event : Type :=
| Called (r : Request)
| Printed (line : string)
| Prompted (prompt : string)
| Opened (filename : string)
| WroteRow (cells : list json).

(** A computation reads the world, logs its events, and returns or raises. *)
Definition M (A : Type) : Type := World -> result A * list Event.

Definition ret {A} (a : A) : M A := fun _ => (Ok a, []).

Definition raise {A} (e : exn) : M A := fun _ => (Raise e, []).

Definition bind {A B} (m : M A) (f : A -> M B) : M B := fun w =>
  match m w with
  | (Ok a, l1) => let (r, l2) := f a w in (r, (l1 ++ l2)%list)
  | (Raise e, l1) => (Raise e, l1)
  end.

Definition emit (e : Event) : M unit := fun _ => (Ok tt, [e]).

Declare Scope monad_scope.
Delimit Scope monad_scope with monad.
Notation "x <- m ;; k" := (bind m (fun x => k))
  (at level 61, m at next level, right associativity) : monad_scope.
Notation "' pat <- m ;; k" := (bind m (fun x => match x with pat => k end))
  (at level 61, pat pattern, m at next level, right associativity) : monad_scope.
Notation "m ;; k" := (bind m (fun _ => k))
  (at level 61, right associativity) : monad_scope.
Open Scope monad_scope.

(** [for x in l: acc = body x acc]. *)
Fixpoint for_each {A S} (l : list A) (body : A -> S -> M S) (acc : S) : M S :=
  match l with
  | [] => ret acc
  | x :: r => acc' <- body x acc ;; for_each r body acc'
  end.

(** ** Built-ins with effects *)

Definition print (line : string) : M unit := emit (Printed line).

Definition input (prompt : string) : M string := fun w =>
  match stdin w with
  | Some line => (Ok line, [Prompted prompt])
  | None => (Raise EOFError, [Prompted prompt])
  end.

Definition os_getenv (name : string) : M (option string) := fun w => (Ok (getenv w name), []).

Definition sys_exit {A} (code : Z) : M A := raise (SystemExit code).

(** [open(filename, 'w')]. *)
Definition open_w (filename : string) : M unit := fun w =>
  if writable w filename then (Ok tt, [Opened filename]) else (Raise OSError, []).

(** ** Attribute and item access on values *)

(** [v.get(k, default)]: only a [dict] has [get]. *)
Definition py_get (v : json) (k : string) (default : json) : M json :=
  match v with
  | JDict d => ret (dict_get_default k default d)
  | _ => raise AttributeError
  end.

(** [v[k]] for a [str] key. *)
Definition py_getitem (v : json) (k : string) : M json :=
  match v with
  | JDict d => match dict_get k d with Some x => ret x | None => raise (KeyError k) end
  | _ => raise TypeError
  end.

(** [v.items()] and [v.keys()]: only a [dict] has them. *)
Definition py_items (v : json) : M dict :=
  match v with
  | JDict d => ret d
  | _ => raise AttributeError
  end.

(** The elements [for x in v] visits. *)
Definition py_iter (v : json) : M (list json) :=
  match v with
  | JList l => ret l
  | JDict d => ret (map JStr (dict_keys d))
  | JStr s => ret (map (fun c => JStr (String c "")) (list_ascii_of_string s))
  | _ => raise TypeError
  end.

(** ** [requests] calls

    [session.get(url)], [session.post(url, json=payload)] and
    [session.delete(url)] all go through [Session.request]: the call is
    logged, and it returns the response or raises, as the world has it. *)

Definition send (s : Session) (m : Method) (u : string) (body : option json) : M Response :=
  fun w =>
    let r := {| method := m; url := u; headers := session_headers s; json_body := body |} in
    match session_request w r with
    | Answered response => (Ok response, [Called r])
    | Failed what => (Raise (SessionError what), [Called r])
    end.

Definition session_get (s : Session) (u : string) : M Response := send s GET u None.

Definition session_post (s : Session) (u : string) (payload : json) : M Response :=
  send s POST u (Some payload).

Definition session_delete (s : Session) (u : string) : M Response := send s DELETE u None.

(** [Response.raise_for_status]: raises for the client and server error
    classes, 400 to 599. *)
Definition raise_for_status (r : Response) : M unit :=
  if (400 <=? status_code r) && (status_code r <? 600)
  then raise (HTTPError (status_code r) (content r))
  else ret tt.

(** [Response.json]. *)
Definition response_json (r : Response) : M json :=
  match parsed r with
  | Some v => ret v
  | None => raise JSONDecodeError
  end.

End Effects.

Import Effects.

(* ================================================================== *)
(** * api-calls.py *)
(* ================================================================== *)

Module api_calls.

Record CodilityAPIClient : Type := {
  base_url : string;
  session : Session
}.

Definition default_base_url : string := "https://codility.com/api".

Definition __init__ (api_key : string) (base_url : string) : M CodilityAPIClient :=
  ret {| base_url := str_rstrip "/" base_url;
         session := {| session_headers :=
                         [("Authorization", "Bearer " ++ api_key);
                          ("Content-Type", "application/json")] |} |}.

Definition get_user_details (self : CodilityAPIClient) : M json :=
  let url := base_url self ++ "/account/user" in
  response <- session_get (session self) url ;;
  raise_for_status response ;;
  response_json response.

Definition get_available_credits (self : CodilityAPIClient) : M json :=
  let url := base_url self ++ "/account/credits" in
  response <- session_get (session self) url ;;
  raise_for_status response ;;
  response_json response.

Definition list_user_logins (self : CodilityAPIClient) : M json :=
  let url := base_url self ++ "/account/logins" in
  response <- session_get (session self) url ;;
  raise_for_status response ;;
  response_json response.

Definition list_codelive_templates (self : CodilityAPIClient) : M json :=
  let url := base_url self ++ "/codelive/templates" in
  response <- session_get (session self) url ;;
  raise_for_status response ;;
  response_json response.

(** [{'template_id': template_id, **candidate_info}]. *)
Definition create_codelive_session (self : CodilityAPIClient)
    (template_id : json) (candidate_info : dict) : M json :=
  let url := base_url self ++ "/codelive/sessions" in
  let payload :=
    fold_left (fun d kv => dict_set (fst kv) (snd kv) d) candidate_info
              [("template_id", template_id)] in
  response <- session_post (session self) url (JDict payload) ;;
  raise_for_status response ;;
  response_json response.

Definition create_whiteboard (self : CodilityAPIClient) (session_id : json) : M json :=
  let url := base_url self ++ "/codelive/whiteboards" in
  let payload := [("session_id", session_id)] in
  response <- session_post (session self) url (JDict payload) ;;
  raise_for_status response ;;
  response_json response.

Definition list_email_templates (self : CodilityAPIClient) : M json :=
  let url := base_url self ++ "/email/templates" in
  response <- session_get (session self) url ;;
  raise_for_status response ;;
  response_json response.

Definition get_default_email_template (self : CodilityAPIClient) : M json :=
  let url := base_url self ++ "/email/templates/default" in
  response <- session_get (session self) url ;;
  raise_for_status response ;;
  response_json response.

Definition create_email_template (self : CodilityAPIClient)
    (name subject body : json) : M json :=
  let url := base_url self ++ "/email/templates" in
  let payload := [("name", name); ("subject", subject); ("body", body)] in
  response <- session_post (session self) url (JDict payload) ;;
  raise_for_status response ;;
  response_json response.

Definition list_sessions (self : CodilityAPIClient) : M json :=
  let url := base_url self ++ "/sessions" in
  response <- session_get (session self) url ;;
  raise_for_status response ;;
  response_json response.

Definition get_session_data (self : CodilityAPIClient) (session_id : json) : M json :=
  let url := base_url self ++ "/sessions/" ++ py_str session_id in
  response <- session_get (session self) url ;;
  raise_for_status response ;;
  response_json response.

Definition get_pdf_report (self : CodilityAPIClient) (session_id : json) : M string :=
  let url := base_url self ++ "/sessions/" ++ py_str session_id ++ "/report/pdf" in
  response <- session_get (session self) url ;;
  raise_for_status response ;;
  ret (content response).

Definition get_similarity_results (self : CodilityAPIClient) (session_id : json) : M json :=
  let url := base_url self ++ "/sessions/" ++ py_str session_id ++ "/similarity" in
  response <- session_get (session self) url ;;
  raise_for_status response ;;
  response_json response.

Definition email_candidates (self : CodilityAPIClient)
    (session_id email_template_id : json) : M json :=
  let url := base_url self ++ "/sessions/" ++ py_str session_id ++ "/email" in
  let payload := [("template_id", email_template_id)] in
  response <- session_post (session self) url (JDict payload) ;;
  raise_for_status response ;;
  response_json response.

Definition cancel_session (self : CodilityAPIClient) (session_id : json) : M unit :=
  let url := base_url self ++ "/sessions/" ++ py_str session_id in
  response <- session_delete (session self) url ;;
  raise_for_status response.

Definition embed_candidate_report (self : CodilityAPIClient) (session_id : json) : M json :=
  let url := base_url self ++ "/sessions/" ++ py_str session_id ++ "/embed" in
  response <- session_get (session self) url ;;
  raise_for_status response ;;
  response_json response.

Definition list_tests (self : CodilityAPIClient) : M json :=
  let url := base_url self ++ "/tests" in
  response <- session_get (session self) url ;;
  raise_for_status response ;;
  response_json response.

Definition get_test_details (self : CodilityAPIClient) (test_id : json) : M json :=
  let url := base_url self ++ "/tests/" ++ py_str test_id in
  response <- session_get (session self) url ;;
  raise_for_status response ;;
  response_json response.

Definition list_test_sessions (self : CodilityAPIClient) (test_id : json) : M json :=
  let url := base_url self ++ "/tests/" ++ py_str test_id ++ "/sessions" in
  response <- session_get (session self) url ;;
  raise_for_status response ;;
  response_json response.

Definition add_candidates (self : CodilityAPIClient) (test_id candidates : json) : M json :=
  let url := base_url self ++ "/tests/" ++ py_str test_id ++ "/candidates" in
  let payload := [("candidates", candidates)] in
  response <- session_post (session self) url (JDict payload) ;;
  raise_for_status response ;;
  response_json response.

End api_calls.

Import api_calls.

(* ================================================================== *)
(** * export-completed-sessions.py *)
(* ================================================================== *)

Module export_completed_sessions.

(** [json.dumps(value) if isinstance(value, (dict, list)) else value]. *)
Definition dumps_if_nested (value : json) : json :=
  if is_container value then JStr (json_dumps value) else value.

Definition flatten_data (session_data similarity_data : dict) : dict :=
  let record : dict := [] in
  (* Session fields (excluding candidate) *)
  let record :=
    fold_left
      (fun (record : dict) '(key, value) =>
         if String.eqb key "candidate" then record
         else dict_set ("session_" ++ key) (dumps_if_nested value) record)
      session_data record in
  (* Similarity fields *)
  let record :=
    fold_left
      (fun (record : dict) '(key, value) =>
         dict_set ("similarity_" ++ key) (dumps_if_nested value) record)
      similarity_data record in
  record.

(** The body of [for t in tests:] that prints the listing. *)
Definition print_test (t : json) (_ : unit) : M unit :=
  title <- py_get t "title" JNull ;;
  name <- (if py_truthy title then ret title
           else name <- py_get t "name" JNull ;;
                ret (py_or name (JStr "<unnamed>"))) ;;
  id <- py_getitem t "id" ;;
  print ("  " ++ py_str id ++ ": " ++ py_str name).

(** The condition of the comprehension that builds [matches]. *)
Definition name_matches (test_name : string) (t : json) : M bool :=
  title <- py_get t "title" JNull ;;
  if eq_str title test_name then ret true
  else name <- py_get t "name" JNull ;;
       ret (eq_str name test_name).

Definition select_match (test_name : string) (t : json) (matches : list json)
  : M (list json) :=
  b <- name_matches test_name t ;;
  ret (if b then matches ++ [t] else matches)%list.

(** The row built for a completed session, after the [end_time] test. *)
Definition build_record (client : CodilityAPIClient) (session_id data : json) : M dict :=
  similarity <- get_similarity_results client session_id ;;
  candidate <- py_get data "candidate" (JDict []) ;;
  (* Flatten *)
  session_data <- py_items data ;;
  similarity_data <- py_items similarity ;;
  let record := flatten_data session_data similarity_data in
  (* Add candidate fields *)
  first_name <- py_get candidate "firstName" (JStr "") ;;
  let record := dict_set "first_name" first_name record in
  last_name <- py_get candidate "lastName" (JStr "") ;;
  let record := dict_set "last_name" last_name record in
  email <- py_get candidate "email" (JStr "") ;;
  let record := dict_set "email" email record in
  ret record.

(** The body of [for sess in sessions:]. *)
Definition export_session (client : CodilityAPIClient) (sess : json)
    (completed_records : list dict) : M (list dict) :=
  session_id <- py_get sess "id" JNull ;;
  data <- get_session_data client session_id ;;
  (* Only include sessions with an end_time (completed) *)
  end_time <- py_get data "end_time" JNull ;;
  if negb (py_truthy end_time) then ret completed_records
  else
    record <- build_record client session_id data ;;
    ret (completed_records ++ [record])%list.

(** [csv.DictWriter._dict_to_list] with [extrasaction='raise'] and
    [restval='']. *)
Definition dict_to_list (fieldnames : list string) (rowdict : dict) : M (list json) :=
  if forallb (fun k => existsb (String.eqb k) fieldnames) (dict_keys rowdict)
  then ret (map (fun k => dict_get_default k (JStr "") rowdict) fieldnames)
  else raise ValueError.

Definition write_record (fieldnames : list string) (rowdict : dict) (_ : unit) : M unit :=
  cells <- dict_to_list fieldnames rowdict ;;
  emit (WroteRow cells).

(** Lines 94-107 of [main]: the columns, the file name, the file. *)
Definition write_csv (test_name : string) (first_record : dict)
    (completed_records : list dict) : M unit :=
  (* Determine CSV columns from record keys *)
  let fieldnames := sorted (dict_keys first_record) in
  (* Safe filename *)
  let safe_name := str_replace " " "_" test_name in
  let filename := safe_name ++ "_completed_sessions.csv" in
  (* Write to CSV *)
  open_w filename ;;
  emit (WroteRow (map JStr fieldnames)) ;;
  for_each completed_records (write_record fieldnames) tt ;;
  print ("Exported " ++ int_repr (Z.of_nat (List.length completed_records))
         ++ " records to '" ++ filename ++ "'").

(** Lines 64-88 of [main]: the sessions of the matched test, and the loop
    that collects the completed ones. *)
Definition collect_records (client : CodilityAPIClient) (first_match : json)
  : M (list dict) :=
  test_id <- py_getitem first_match "id" ;;
  (* Retrieve all sessions for the selected test *)
  sessions_resp <- list_test_sessions client test_id ;;
  sessions <- py_get sessions_resp "sessions" (JList []) ;;
  sessions <- py_iter sessions ;;
  for_each sessions (export_session client) [].

(** Lines 64-107 of [main]: everything after a match was found. *)
Definition export_matched (client : CodilityAPIClient) (test_name : string)
    (first_match : json) : M unit :=
  completed_records <- collect_records client first_match ;;
  match completed_records with
  | [] =>
      print "No completed sessions found for this test." ;;
      sys_exit 0
  | first_record :: _ => write_csv test_name first_record completed_records
  end.

(** Lines 54-59 of [main]: the listing and the prompt.  The result is the
    tests as the loops visit them, and [test_name]. *)
Definition list_and_prompt (tests : json) : M (list json * string) :=
  print "Available tests:" ;;
  tests <- py_iter tests ;;
  for_each tests print_test tt ;;
  line <- input (String "010" "Enter the exact name of the test to export: ") ;;
  let test_name := str_strip line in
  ret (tests, test_name).

(** Lines 54-107 of [main]: the listing, the prompt, the name resolution. *)
Definition select_and_export (client : CodilityAPIClient) (tests : json) : M unit :=
  '(tests, test_name) <- list_and_prompt tests ;;
  matches <- for_each tests (select_match test_name) [] ;;
  match matches with
  | [] =>
      print ("No test found with name '" ++ test_name ++ "'") ;;
      sys_exit 1
  | first_match :: _ => export_matched client test_name first_match
  end.

Definition main : M unit :=
  api_key <- os_getenv "CODILITY_API_KEY" ;;
  match api_key with
  | None | Some "" =>
      print "Error: Please set the CODILITY_API_KEY environment variable." ;;
      sys_exit 1
  | Some api_key =>
      client <- __init__ api_key default_base_url ;;
      (* List available tests *)
      tests_resp <- list_tests client ;;
      tests <- py_get tests_resp "tests" (JList []) ;;
      if negb (py_truthy tests) then
        print "No tests found in your account." ;;
        sys_exit 0
      else select_and_export client tests
  end.

(** The exit status of the interpreter for an outcome of [main]: 0 when it
    returns, the code given to [sys.exit], 1 for any other exception that
    is not caught. *)
Definition exit_code (r : result unit) : Z :=
  match r with
  | Ok _ => 0
  | Raise (SystemExit code) => code
  | Raise _ => 1
  end.

Definition files_opened (log : list Event) : list string :=
  flat_map (fun e => match e with Opened f => [f] | _ => [] end) log.

Definition printed (log : list Event) : list string :=
  flat_map (fun e => match e with Printed s => [s] | _ => [] end) log.

Definition rows_written (log : list Event) : list (list json) :=
  flat_map (fun e => match e with WroteRow c => [c] | _ => [] end) log.

End export_completed_sessions.

Import export_completed_sessions.

(* ================================================================== *)
(** * Sample responses and worlds *)
(* ================================================================== *)

Module Scenario.

Definition json_response (v : json) : Response :=
  {| status_code := 200; content := json_dumps v; parsed := Some v |}.

Definition not_found : Response :=
  {| status_code := 404; content := "Not Found"; parsed := None |}.

(** The JSON text of the nested value [{"a": 1}]. *)
Definition nested_text : string :=
  "{" ++ String dquote "a" ++ String dquote ": 1}".

Definition session_A : dict :=
  [("end_time", JStr "2024-02-02");
   ("nested", JDict [("a", JInt 1)]);
   ("candidate", JDict [("firstName", JStr "Ann"); ("lastName", JStr "Lee");
                        ("email", JStr "a@x.com")])].

Definition session_B : dict := [("end_time", JNull); ("candidate", JDict [])].

Definition similarity_A : dict := [("score", JFloat 0.2)].

(** Completed sessions of another test: C has no candidate sub-record, D
    has one with the first name only. *)
Definition session_C : dict := [("end_time", JStr "2024-03-03")].

Definition session_D : dict :=
  [("end_time", JStr "2024-04-04"); ("candidate", JDict [("firstName", JStr "Dee")])].

(** The test "Backend Role" has two sessions: A is completed, B is not.
    The test "Idle Role" has session B only. *)
Definition serve (r : Request) : Reply :=
  let u := url r in
  if String.eqb u "https://codility.com/api/tests" then
    Answered (json_response
          (JDict [("tests", JList [JDict [("id", JInt 7); ("title", JStr "Backend Role")];
                                   JDict [("id", JInt 8); ("name", JStr "Idle Role")]])]))
  else if String.eqb u "https://codility.com/api/tests/7/sessions" then
    Answered (json_response
          (JDict [("sessions", JList [JDict [("id", JStr "A")]; JDict [("id", JStr "B")]])]))
  else if String.eqb u "https://codility.com/api/tests/8/sessions" then
    Answered (json_response (JDict [("sessions", JList [JDict [("id", JStr "B")]])]))
  else if String.eqb u "https://codility.com/api/sessions/A" then
    Answered (json_response (JDict session_A))
  else if String.eqb u "https://codility.com/api/sessions/B" then
    Answered (json_response (JDict session_B))
  else if String.eqb u "https://codility.com/api/sessions/A/similarity" then
    Answered (json_response (JDict similarity_A))
  else if String.eqb u "https://codility.com/api/sessions/C" then
    Answered (json_response (JDict session_C))
  else if String.eqb u "https://codility.com/api/sessions/D" then
    Answered (json_response (JDict session_D))
  else if String.eqb u "https://codility.com/api/sessions/C/similarity" then
    Answered (json_response (JDict []))
  else if String.eqb u "https://codility.com/api/sessions/D/similarity" then
    Answered (json_response (JDict []))
  else Answered not_found.

Definition world (key : option string) (line : string) : World :=
  {| getenv := fun n => if String.eqb n "CODILITY_API_KEY" then key else None;
     session_request := serve;
     stdin := Some line;
     writable := fun _ => true |}.

Definition backend : World := world (Some "secret") "Backend Role".

Definition idle : World := world (Some "secret") "Idle Role".

Definition frontend : World := world (Some "secret") "Frontend Role".

(** An account without tests. *)
Definition empty_account : World :=
  {| getenv := fun n => if String.eqb n "CODILITY_API_KEY" then Some "secret" else None;
     session_request := fun _ => Answered (json_response (JDict [("tests", JList [])]));
     stdin := None;
     writable := fun _ => true |}.

Definition client : CodilityAPIClient :=
  {| base_url := default_base_url;
     session := {| session_headers :=
                     [("Authorization", "Bearer secret");
                      ("Content-Type", "application/json")] |} |}.

End Scenario.

(* ================================================================== *)
(** * Vocabulary of the statements *)
(* ================================================================== *)

(** The item a session field becomes, and the one a similarity field
    becomes. *)
Definition session_item (kv : string * json) : string * json :=
  ("session_" ++ fst kv, dumps_if_nested (snd kv)).

Definition similarity_item (kv : string * json) : string * json :=
  ("similarity_" ++ fst kv, dumps_if_nested (snd kv)).

Definition not_candidate (kv : string * json) : bool :=
  negb (String.eqb (fst kv) "candidate").

Definition session_step (record : dict) (kv : string * json) : dict :=
  let '(key, value) := kv in
  if String.eqb key "candidate" then record
  else dict_set ("session_" ++ key) (dumps_if_nested value) record.

Definition similarity_step (record : dict) (kv : string * json) : dict :=
  let '(key, value) := kv in
  dict_set ("similarity_" ++ key) (dumps_if_nested value) record.

(** The completion marker: a truthy 'end_time'. *)
Definition has_completion_marker (d : dict) : bool :=
  match dict_get "end_time" d with
  | Some end_time => py_truthy end_time
  | None => false
  end.

(** The session [sess] has id [session_id], its detail record was fetched as
    the dict [d], and [d] passes the completion filter. *)
Definition included (client : CodilityAPIClient) (w : World)
    (sess session_id : json) (d : dict) : Prop :=
  exists s,
    sess = JDict s
    /\ session_id = dict_get_default "id" JNull s
    /\ fst (get_session_data client session_id w) = Ok (JDict d)
    /\ has_completion_marker d = true.

(** [s] starts with [p]. *)
Definition starts_with (p s : string) : Prop := exists r, s = p ++ r.

(** The three candidate columns, set after flattening. *)
Definition promote (candidate : dict) (record : dict) : dict :=
  dict_set "email" (dict_get_default "email" (JStr "") candidate)
    (dict_set "last_name" (dict_get_default "lastName" (JStr "") candidate)
       (dict_set "first_name" (dict_get_default "firstName" (JStr "") candidate) record)).

(** The loop body appends [record] for [sess]. *)
Definition produces (client : CodilityAPIClient) (w : World)
    (sess : json) (record : dict) : Prop :=
  forall completed_records,
    fst (export_session client sess completed_records w)
    = Ok (completed_records ++ [record])%list.

Definition prefixed (key : string) : Prop :=
  starts_with "session_" key \/ starts_with "similarity_" key.

(** The id requested for a session and the detail record fetched for it,
    when the fetch yields a dict. *)
Definition fetched_detail (client : CodilityAPIClient) (w : World) (sess : json)
  : option (json * dict) :=
  match sess with
  | JDict s =>
      let session_id := dict_get_default "id" JNull s in
      match fst (get_session_data client session_id w) with
      | Ok (JDict d) => Some (session_id, d)
      | _ => None
      end
  | _ => None
  end.

Definition completed (client : CodilityAPIClient) (w : World) (sess : json) : bool :=
  match fetched_detail client w sess with
  | Some (_, d) => has_completion_marker d
  | None => false
  end.

(** [record] is the row built from the detail fetched for [sess]. *)
Definition row_for (client : CodilityAPIClient) (w : World) (sess : json)
    (record : dict) : Prop :=
  exists session_id d,
    fetched_detail client w sess = Some (session_id, d)
    /\ fst (build_record client session_id (JDict d) w) = Ok record.

(** Every fetch the loop body makes for [sess] succeeds. *)
Definition fetches_ok (client : CodilityAPIClient) (w : World) (sess : json) : Prop :=
  exists session_id d,
    fetched_detail client w sess = Some (session_id, d)
    /\ (has_completion_marker d = true ->
        exists record, fst (build_record client session_id (JDict d) w) = Ok record).

(** The sessions the loop visits for the matched test [t]: the test has an
    'id', the session list for it arrives as a dict, and iterating its
    'sessions' gives [sessions]; [log] is the request made. *)
Definition sessions_of (client : CodilityAPIClient) (w : World) (t : json)
    (sessions : list json) (log : list Event) : Prop :=
  exists td test_id resp,
    t = JDict td
    /\ dict_get "id" td = Some test_id
    /\ list_test_sessions client test_id w = (Ok (JDict resp), log)
    /\ py_iter (dict_get_default "sessions" (JList []) resp) w = (Ok sessions, []).

(** The status classes [raise_for_status] raises for. *)
Definition is_error_status (status : Z) : bool := (400 <=? status) && (status <? 600).

Definition is_2xx (status : Z) : bool := (200 <=? status) && (status <? 300).

(** What a method that calls the session once with [req] gives back: the
    exception the call raised, the HTTP failure for an error status of the
    response handed back, or what [extract] makes of that response. *)
Definition exchange {A : Type} (extract : Response -> result A) (req : Request)
    (w : World) : result A * list Event :=
  (match session_request w req with
   | Failed what => Raise (SessionError what)
   | Answered response =>
       if is_error_status (status_code response)
       then Raise (HTTPError (status_code response) (content response))
       else extract response
   end,
   [Called req]).

Definition body_json (response : Response) : result json :=
  match parsed response with
  | Some v => Ok v
  | None => Raise JSONDecodeError
  end.

Definition body_bytes (response : Response) : result string := Ok (content response).

Definition body_ignored (response : Response) : result unit := Ok tt.

Definition request (client : CodilityAPIClient) (m : Method) (path : string)
    (payload : option json) : Request :=
  {| method := m;
     url := base_url client ++ path;
     headers := session_headers (session client);
     json_body := payload |}.

(** The methods of [CodilityAPIClient] with their arguments. *)
Inductive Operation : Type :=
| GetUserDetails
| GetAvailableCredits
| ListUserLogins
| ListCodeliveTemplates
| CreateCodeliveSession (template_id : json) (candidate_info : dict)
| CreateWhiteboard (session_id : json)
| ListEmailTemplates
| GetDefaultEmailTemplate
| CreateEmailTemplate (name subject body : json)
| ListSessions
| GetSessionData (session_id : json)
| GetPdfReport (session_id : json)
| GetSimilarityResults (session_id : json)
| EmailCandidates (session_id email_template_id : json)
| CancelSession (session_id : json)
| EmbedCandidateReport (session_id : json)
| ListTests
| GetTestDetails (test_id : json)
| ListTestSessions (test_id : json)
| AddCandidates (test_id candidates : json).

(** What a method hands back: parsed JSON, bytes, or [None]. *)
Inductive Returned : Type :=
| ReturnedJson (v : json)
| ReturnedBytes (b : string)
| ReturnedNone.

Definition returning {A : Type} (wrap : A -> Returned) (m : M A) : M Returned :=
  a <- m ;; ret (wrap a).

Definition perform (client : CodilityAPIClient) (op : Operation) : M Returned :=
  match op with
  | GetUserDetails => returning ReturnedJson (get_user_details client)
  | GetAvailableCredits => returning ReturnedJson (get_available_credits client)
  | ListUserLogins => returning ReturnedJson (list_user_logins client)
  | ListCodeliveTemplates => returning ReturnedJson (list_codelive_templates client)
  | CreateCodeliveSession template_id candidate_info =>
      returning ReturnedJson (create_codelive_session client template_id candidate_info)
  | CreateWhiteboard session_id =>
      returning ReturnedJson (create_whiteboard client session_id)
  | ListEmailTemplates => returning ReturnedJson (list_email_templates client)
  | GetDefaultEmailTemplate => returning ReturnedJson (get_default_email_template client)
  | CreateEmailTemplate name subject body =>
      returning ReturnedJson (create_email_template client name subject body)
  | ListSessions => returning ReturnedJson (list_sessions client)
  | GetSessionData session_id => returning ReturnedJson (get_session_data client session_id)
  | GetPdfReport session_id => returning ReturnedBytes (get_pdf_report client session_id)
  | GetSimilarityResults session_id =>
      returning ReturnedJson (get_similarity_results client session_id)
  | EmailCandidates session_id email_template_id =>
      returning ReturnedJson (email_candidates client session_id email_template_id)
  | CancelSession session_id =>
      returning (fun _ : unit => ReturnedNone) (cancel_session client session_id)
  | EmbedCandidateReport session_id =>
      returning ReturnedJson (embed_candidate_report client session_id)
  | ListTests => returning ReturnedJson (list_tests client)
  | GetTestDetails test_id => returning ReturnedJson (get_test_details client test_id)
  | ListTestSessions test_id => returning ReturnedJson (list_test_sessions client test_id)
  | AddCandidates test_id candidates =>
      returning ReturnedJson (add_candidates client test_id candidates)
  end.

(** The request each operation stands for: verb, path under the base URL,
    JSON payload. *)
Definition request_of (client : CodilityAPIClient) (op : Operation) : Request :=
  match op with
  | GetUserDetails => request client GET "/account/user" None
  | GetAvailableCredits => request client GET "/account/credits" None
  | ListUserLogins => request client GET "/account/logins" None
  | ListCodeliveTemplates => request client GET "/codelive/templates" None
  | CreateCodeliveSession template_id candidate_info =>
      request client POST "/codelive/sessions"
        (Some (JDict (fold_left (fun d kv => dict_set (fst kv) (snd kv) d) candidate_info
                                [("template_id", template_id)])))
  | CreateWhiteboard session_id =>
      request client POST "/codelive/whiteboards" (Some (JDict [("session_id", session_id)]))
  | ListEmailTemplates => request client GET "/email/templates" None
  | GetDefaultEmailTemplate => request client GET "/email/templates/default" None
  | CreateEmailTemplate name subject body =>
      request client POST "/email/templates"
        (Some (JDict [("name", name); ("subject", subject); ("body", body)]))
  | ListSessions => request client GET "/sessions" None
  | GetSessionData session_id => request client GET ("/sessions/" ++ py_str session_id) None
  | GetPdfReport session_id =>
      request client GET ("/sessions/" ++ py_str session_id ++ "/report/pdf") None
  | GetSimilarityResults session_id =>
      request client GET ("/sessions/" ++ py_str session_id ++ "/similarity") None
  | EmailCandidates session_id email_template_id =>
      request client POST ("/sessions/" ++ py_str session_id ++ "/email")
        (Some (JDict [("template_id", email_template_id)]))
  | CancelSession session_id =>
      request client DELETE ("/sessions/" ++ py_str session_id) None
  | EmbedCandidateReport session_id =>
      request client GET ("/sessions/" ++ py_str session_id ++ "/embed") None
  | ListTests => request client GET "/tests" None
  | GetTestDetails test_id => request client GET ("/tests/" ++ py_str test_id) None
  | ListTestSessions test_id =>
      request client GET ("/tests/" ++ py_str test_id ++ "/sessions") None
  | AddCandidates test_id candidates =>
      request client POST ("/tests/" ++ py_str test_id ++ "/candidates")
        (Some (JDict [("candidates", candidates)]))
  end.

(** What each operation returns for a response it does not raise on. *)
Definition returned_of (op : Operation) (response : Response) : result Returned :=
  match op with
  | GetPdfReport _ => Ok (ReturnedBytes (content response))
  | CancelSession _ => Ok ReturnedNone
  | _ =>
      match parsed response with
      | Some v => Ok (ReturnedJson v)
      | None => Raise JSONDecodeError
      end
  end.

(** Every call is answered with status 300 and a JSON body.  300 is not
    among the statuses [requests] follows as redirections, so this is the
    response the call hands back. *)
Definition multiple_choices : World :=
  {| getenv := fun _ => None;
     session_request := fun _ =>
       Answered {| status_code := 300; content := "{}"; parsed := Some (JDict []) |};
     stdin := None;
     writable := fun _ => false |}.

(** Every call is answered with status 200 and a body that is not JSON. *)
Definition not_json : World :=
  {| getenv := fun _ => None;
     session_request := fun _ =>
       Answered {| status_code := 200; content := "OK"; parsed := None |};
     stdin := None;
     writable := fun _ => false |}.

(** The operator types the title of test 7 followed by a space. *)
Definition trailing_space : World := Scenario.world (Some "secret") "Backend Role ".

(** An account whose only test has a title that begins with a space; the
    operator types that title as it is. *)
Definition padded_title : World :=
  {| getenv := fun n => if String.eqb n "CODILITY_API_KEY" then Some "secret" else None;
     session_request := fun _ =>
       Answered (Scenario.json_response
                   (JDict [("tests",
                            JList [JDict [("id", JInt 9);
                                          ("title", JStr " Backend Role")]])]));
     stdin := Some " Backend Role";
     writable := fun _ => true |}.

(** An account in which tests 2 and 3 share the name the operator types. *)
Definition twins : World :=
  {| getenv := fun n => if String.eqb n "CODILITY_API_KEY" then Some "secret" else None;
     session_request := fun r =>
       if String.eqb (url r) "https://codility.com/api/tests" then
         Answered (Scenario.json_response
                     (JDict [("tests",
                              JList [JDict [("id", JInt 1); ("title", JStr "Other")];
                                     JDict [("id", JInt 2); ("title", JStr "Twin")];
                                     JDict [("id", JInt 3); ("name", JStr "Twin")]])]))
       else Scenario.serve r;
     stdin := Some "Twin";
     writable := fun _ => true |}.

(** [s] ends with the character [c]. *)
Definition ends_with (c : ascii) (s : string) : Prop := exists r, s = r ++ String c "".

(** The client [main] constructs from the credential. *)
Definition client_of (api_key : string) : CodilityAPIClient :=
  {| base_url := "https://codility.com/api";
     session := {| session_headers :=
                     [("Authorization", "Bearer " ++ api_key);
                      ("Content-Type", "application/json")] |} |}.

(** [t == test_name] on the title or on the name, as the comprehension
    tests it. *)
Definition name_is (test_name : string) (t : json) : bool :=
  match t with
  | JDict d =>
      eq_str (dict_get_default "title" JNull d) test_name
      || eq_str (dict_get_default "name" JNull d) test_name
  | _ => false
  end.

(** A test the listing can print: a dict with an 'id'. *)
Definition listed_test (t : json) : Prop :=
  exists d id, t = JDict d /\ dict_get "id" d = Some id.

(** The log has no file event. *)
Definition no_file_events (l : list Event) : Prop :=
  Forall (fun e => match e with Opened _ | WroteRow _ => False | _ => True end) l.

(** The run gets as far as the name resolution: the credential is set, the
    test list arrives as a dict whose 'tests' is truthy, and [log] is what
    happened so far. *)
Definition reaches_selection (w : World) (client : CodilityAPIClient) (tests : json)
    (log : list Event) : Prop :=
  exists api_key resp,
    getenv w "CODILITY_API_KEY" = Some api_key
    /\ api_key <> ""
    /\ client = client_of api_key
    /\ list_tests client w = (Ok (JDict resp), log)
    /\ tests = dict_get_default "tests" (JList []) resp
    /\ py_truthy tests = true.

(** The run gets as far as the export of the matched test [t]. *)
Definition reaches_export (w : World) (client : CodilityAPIClient) (test_name : string)
    (t : json) (log : list Event) : Prop :=
  exists tests ts l1 l2,
    reaches_selection w client tests l1
    /\ list_and_prompt tests w = (Ok (ts, test_name), l2)
    /\ find (name_is test_name) ts = Some t
    /\ log = (l1 ++ l2)%list.

(** A computation whose log never has a file event. *)
Definition file_free {A : Type} (w : World) (m : M A) : Prop :=
  no_file_events (snd (m w)).

(** The file [main] writes for [test_name]. *)
Definition csv_name (test_name : string) : string :=
  str_replace " " "_" test_name ++ "_completed_sessions.csv".

(** Code-point order on [str], the order [sorted] uses. *)
Definition str_le (a b : string) : Prop := String.leb a b = true.

(* ================================================================== *)
(** * Running a computation *)
(* ================================================================== *)

Section MonadFacts.

Context {A B : Type}.

Lemma bind_ret (a : A) (f : A -> M B) (w : World) : bind (ret a) f w = f a w.
Proof. unfold bind, ret. now destruct (f a w). Qed.

Lemma bind_raise (e : exn) (f : A -> M B) (w : World) :
  bind (raise e) f w = (Raise e, []).
Proof. reflexivity. Qed.

Lemma bind_ok (m : M A) (f : A -> M B) (w : World) (a : A) (l1 : list Event) :
  m w = (Ok a, l1) -> bind m f w = (fst (f a w), (l1 ++ snd (f a w))%list).
Proof. intros E. unfold bind. rewrite E. now destruct (f a w). Qed.

Lemma bind_fail (m : M A) (f : A -> M B) (w : World) (e : exn) (l1 : list Event) :
  m w = (Raise e, l1) -> bind m f w = (Raise e, l1).
Proof. intros E. unfold bind. now rewrite E. Qed.

End MonadFacts.

(* ================================================================== *)
(** * Facts about [dict] *)
(* ================================================================== *)

Section DictFacts.

Lemma dict_get_cons (k k' : string) (v : json) (r : dict) :
  dict_get k ((k', v) :: r) = if String.eqb k' k then Some v else dict_get k r.
Proof. reflexivity. Qed.

Lemma dict_get_in (k : string) (d : dict) (v : json) :
  dict_get k d = Some v -> In (k, v) d.
Proof.
  induction d as [|[k' v'] r IH]; simpl; [discriminate|].
  destruct (String.eqb_spec k' k) as [->|Hne].
  - intros [= ->]. now left.
  - intros H. right. auto.
Qed.

Lemma dict_get_none (k : string) (d : dict) :
  dict_get k d = None <-> ~ In k (dict_keys d).
Proof.
  induction d as [|[k' v'] r IH]; simpl.
  - tauto.
  - destruct (String.eqb_spec k' k) as [->|Hne].
    + split; [discriminate|]. intros H. exfalso. apply H. now left.
    + rewrite IH. tauto.
Qed.

Lemma dict_get_some_key (k : string) (d : dict) (v : json) :
  dict_get k d = Some v -> In k (dict_keys d).
Proof.
  intros H. apply dict_get_in in H. now apply (in_map fst) in H.
Qed.

Lemma dict_get_app (k : string) (d1 d2 : dict) :
  dict_get k (d1 ++ d2)%list =
  match dict_get k d1 with Some v => Some v | None => dict_get k d2 end.
Proof.
  induction d1 as [|[k' v'] r IH]; simpl; [reflexivity|].
  now destruct (String.eqb k' k).
Qed.

Lemma dict_set_fresh (k : string) (v : json) (d : dict) :
  ~ In k (dict_keys d) -> dict_set k v d = (d ++ [(k, v)])%list.
Proof.
  induction d as [|[k' v'] r IH]; simpl; intros H; [reflexivity|].
  destruct (String.eqb_spec k' k) as [->|Hne].
  - exfalso. apply H. now left.
  - f_equal. apply IH. tauto.
Qed.

Lemma dict_set_keys_incl (k : string) (v : json) (d : dict) (x : string) :
  In x (dict_keys (dict_set k v d)) -> x = k \/ In x (dict_keys d).
Proof.
  induction d as [|[k' v'] r IH]; simpl.
  - intros [<-|[]]. now left.
  - destruct (String.eqb_spec k' k) as [->|Hne]; simpl.
    + intros [<-|H]; auto.
    + intros [<-|H]; auto. destruct (IH H); auto.
Qed.

Lemma dict_get_set_same (k : string) (v : json) (d : dict) :
  dict_get k (dict_set k v d) = Some v.
Proof.
  induction d as [|[k' v'] r IH]; simpl.
  - now rewrite String.eqb_refl.
  - destruct (String.eqb_spec k' k) as [->|Hne]; simpl.
    + now rewrite String.eqb_refl.
    + apply String.eqb_neq in Hne. now rewrite Hne.
Qed.

Lemma dict_get_set_other (k k' : string) (v : json) (d : dict) :
  k' <> k -> dict_get k' (dict_set k v d) = dict_get k' d.
Proof.
  intros Hne. induction d as [|[k0 v0] r IH]; simpl.
  - apply not_eq_sym in Hne. apply String.eqb_neq in Hne. now rewrite Hne.
  - destruct (String.eqb_spec k0 k) as [->|Hk]; simpl.
    + apply not_eq_sym in Hne. apply String.eqb_neq in Hne. now rewrite Hne.
    + now rewrite IH.
Qed.

Lemma has_completion_marker_truthy (d : dict) :
  has_completion_marker d = py_truthy (dict_get_default "end_time" JNull d).
Proof.
  unfold has_completion_marker, dict_get_default.
  now destruct (dict_get "end_time" d).
Qed.

End DictFacts.

(* ================================================================== *)
(** * [flatten_data] *)
(* ================================================================== *)

Section Flatten.

Lemma flatten_data_fold (s m : dict) :
  flatten_data s m = fold_left similarity_step m (fold_left session_step s []).
Proof. reflexivity. Qed.

Lemma session_fold_fresh (s acc : dict) :
  NoDup (dict_keys s) ->
  (forall k, In k (dict_keys s) -> ~ In ("session_" ++ k) (dict_keys acc)) ->
  fold_left session_step s acc = (acc ++ map session_item (filter not_candidate s))%list.
Proof.
  revert acc. induction s as [|[k v] r IH]; intros acc Hnd Hfresh; simpl.
  - now rewrite app_nil_r.
  - inversion Hnd as [|? ? Hk Hr]; subst.
    unfold not_candidate at 1. simpl fst.
    destruct (String.eqb k "candidate"); simpl negb; cbv iota.
    + apply IH; [assumption|]. intros k' Hk'. apply Hfresh. now right.
    + rewrite IH; [| assumption |].
      * rewrite dict_set_fresh by (apply Hfresh; now left).
        now rewrite <- app_assoc.
      * intros k' Hk' Hin. apply dict_set_keys_incl in Hin.
        destruct Hin as [Heq|Hin].
        -- simpl in Heq. injection Heq as ->. contradiction.
        -- revert Hin. apply Hfresh. now right.
Qed.

Lemma similarity_fold_fresh (m acc : dict) :
  NoDup (dict_keys m) ->
  (forall k, In k (dict_keys m) -> ~ In ("similarity_" ++ k) (dict_keys acc)) ->
  fold_left similarity_step m acc = (acc ++ map similarity_item m)%list.
Proof.
  revert acc. induction m as [|[k v] r IH]; intros acc Hnd Hfresh; simpl.
  - now rewrite app_nil_r.
  - inversion Hnd as [|? ? Hk Hr]; subst.
    rewrite IH; [| assumption |].
    + rewrite dict_set_fresh by (apply Hfresh; now left).
      now rewrite <- app_assoc.
    + intros k' Hk' Hin. apply dict_set_keys_incl in Hin.
      destruct Hin as [Heq|Hin].
      * simpl in Heq. injection Heq as ->. contradiction.
      * revert Hin. apply Hfresh. now right.
Qed.

Lemma session_item_key_not_similarity (l : dict) (k : string) :
  ~ In ("similarity_" ++ k) (dict_keys (map session_item l)).
Proof.
  unfold dict_keys. rewrite map_map. intros H. apply in_map_iff in H.
  destruct H as [[k' v'] [Heq _]]. simpl in Heq. discriminate.
Qed.

(** A [dict] with distinct keys flattens item by item, in order. *)
Lemma flatten_data_items (s m : dict) :
  dict_ok s -> dict_ok m ->
  flatten_data s m =
  (map session_item (filter not_candidate s) ++ map similarity_item m)%list.
Proof.
  intros Hs Hm. rewrite flatten_data_fold.
  rewrite (session_fold_fresh s []); [| assumption | intros k _ []].
  simpl app. apply similarity_fold_fresh; [assumption|].
  intros k _. apply session_item_key_not_similarity.
Qed.

End Flatten.

Section FlattenLookup.

Lemma dumps_if_nested_scalar (v : json) : is_container (dumps_if_nested v) = false.
Proof. destruct v; reflexivity. Qed.

Lemma dict_get_session_items (k : string) (s : dict) :
  k <> "candidate" ->
  dict_get ("session_" ++ k) (map session_item (filter not_candidate s)) =
  option_map dumps_if_nested (dict_get k s).
Proof.
  intros Hk. induction s as [|[k' v'] r IH]; [reflexivity|].
  simpl filter. unfold not_candidate at 1. simpl fst.
  destruct (String.eqb_spec k' "candidate") as [->|Hc]; simpl negb; cbv iota.
  - rewrite IH, dict_get_cons.
    apply not_eq_sym, String.eqb_neq in Hk. now rewrite Hk.
  - rewrite map_cons. unfold session_item at 1. simpl fst. simpl snd.
    rewrite !dict_get_cons.
    destruct (String.eqb_spec k' k) as [->|Hne].
    + now rewrite String.eqb_refl.
    + assert (H : "session_" ++ k' <> "session_" ++ k)
        by (simpl; intros [= E]; contradiction).
      apply String.eqb_neq in H. rewrite H. exact IH.
Qed.

Lemma dict_get_similarity_items (k : string) (m : dict) :
  dict_get ("similarity_" ++ k) (map similarity_item m) =
  option_map dumps_if_nested (dict_get k m).
Proof.
  induction m as [|[k' v'] r IH]; [reflexivity|].
  rewrite map_cons. unfold similarity_item at 1. simpl fst. simpl snd.
  rewrite !dict_get_cons.
  destruct (String.eqb_spec k' k) as [->|Hne].
  - now rewrite String.eqb_refl.
  - assert (H : "similarity_" ++ k' <> "similarity_" ++ k)
      by (simpl; intros [= E]; contradiction).
    apply String.eqb_neq in H. rewrite H. exact IH.
Qed.

Lemma dict_get_session_items_similarity (k : string) (l : dict) :
  dict_get ("similarity_" ++ k) (map session_item l) = None.
Proof. apply dict_get_none, session_item_key_not_similarity. Qed.

Lemma session_items_keys (s : dict) :
  dict_keys (map session_item (filter not_candidate s)) =
  map (String.append "session_")
      (filter (fun k => negb (String.eqb k "candidate")) (dict_keys s)).
Proof.
  induction s as [|[k v] r IH]; [reflexivity|].
  simpl. unfold not_candidate at 1. simpl fst.
  destruct (String.eqb k "candidate"); simpl; [exact IH|]. f_equal. exact IH.
Qed.

Lemma similarity_items_keys (m : dict) :
  dict_keys (map similarity_item m) = map (String.append "similarity_") (dict_keys m).
Proof.
  induction m as [|[k v] r IH]; [reflexivity|]. simpl. f_equal. exact IH.
Qed.

End FlattenLookup.

(** C1.  For session and similarity mappings (dicts, so each key once),
    [flatten_data] returns a single-level mapping: no value is a dict or a
    list; every session field other than 'candidate' is found under
    'session_' + key and every similarity field under 'similarity_' + key,
    a dict or list value replaced by its [json.dumps] text and any other
    value unchanged; there are no other keys.  On the session fields
    {"end_time": "2024-01-01", "nested": {"a": 1}} and the similarity fields
    {"score": 0.2} the result is exactly {"session_end_time": "2024-01-01",
    "session_nested": "{\"a\": 1}", "similarity_score": 0.2}. *)
Theorem flatten_data_namespaces (session_data similarity_data : dict) :
  dict_ok session_data ->
  dict_ok similarity_data ->
  let record := flatten_data session_data similarity_data in
  (forall key value, In (key, value) record -> is_container value = false)
  /\ (forall key value,
        key <> "candidate" ->
        dict_get key session_data = Some value ->
        dict_get ("session_" ++ key) record =
        Some (if is_container value then JStr (json_dumps value) else value))
  /\ (forall key value,
        dict_get key similarity_data = Some value ->
        dict_get ("similarity_" ++ key) record =
        Some (if is_container value then JStr (json_dumps value) else value))
  /\ dict_keys record =
     (map (String.append "session_")
          (filter (fun k => negb (String.eqb k "candidate")) (dict_keys session_data))
      ++ map (String.append "similarity_") (dict_keys similarity_data))%list
  /\ flatten_data
       [("end_time", JStr "2024-01-01"); ("nested", JDict [("a", JInt 1)])]
       [("score", JFloat 0.2)]
     = [("session_end_time", JStr "2024-01-01");
        ("session_nested", JStr ("{" ++ String dquote "a" ++ String dquote ": 1}"));
        ("similarity_score", JFloat 0.2)].
Proof.
  intros Hs Hm record. subst record.
  rewrite (flatten_data_items _ _ Hs Hm).
  repeat split.
  - intros key value Hin. apply in_app_or in Hin.
    destruct Hin as [Hin|Hin]; apply in_map_iff in Hin;
      destruct Hin as [[k v] [[= _ <-] _]]; apply dumps_if_nested_scalar.
  - intros key value Hk Hget. rewrite dict_get_app.
    rewrite (dict_get_session_items _ _ Hk), Hget. reflexivity.
  - intros key value Hget. rewrite dict_get_app.
    rewrite dict_get_session_items_similarity, dict_get_similarity_items, Hget.
    reflexivity.
  - unfold dict_keys at 1. rewrite map_app.
    fold (dict_keys (map session_item (filter not_candidate session_data))).
    fold (dict_keys (map similarity_item similarity_data)).
    now rewrite session_items_keys, similarity_items_keys.
Qed.

Lemma flatten_data_namespaces_witness :
  dict_get "session_nested" (flatten_data Scenario.session_A Scenario.similarity_A)
  = Some (JStr Scenario.nested_text)
  /\ dict_get "similarity_score" (flatten_data Scenario.session_A Scenario.similarity_A)
     = Some (JFloat 0.2).
Proof.
  assert (Hs : dict_ok Scenario.session_A).
  { repeat constructor; simpl; intuition discriminate. }
  assert (Hm : dict_ok Scenario.similarity_A).
  { repeat constructor; simpl; intuition discriminate. }
  destruct (flatten_data_namespaces _ _ Hs Hm) as (_ & Hsess & Hsim & _).
  split.
  - apply (Hsess "nested" (JDict [("a", JInt 1)])); [discriminate | reflexivity].
  - apply (Hsim "score" (JFloat 0.2)). reflexivity.
Defined.

(* ================================================================== *)
(** * The row of a completed session *)
(* ================================================================== *)

Section Row.

Lemma build_record_eq (client : CodilityAPIClient) (session_id : json) (d : dict) (w : World) :
  build_record client session_id (JDict d) w =
  match get_similarity_results client session_id w with
  | (Ok similarity, log) =>
      match similarity, dict_get_default "candidate" (JDict []) d with
      | JDict sim, JDict candidate => (Ok (promote candidate (flatten_data d sim)), log)
      | _, _ => (Raise AttributeError, log)
      end
  | (Raise e, log) => (Raise e, log)
  end.
Proof.
  unfold build_record, bind, py_get, py_items, ret, raise.
  destruct (get_similarity_results client session_id w) as [[similarity|e] log];
    [|reflexivity].
  destruct similarity; destruct (dict_get_default "candidate" (JDict []) d);
    cbn [app]; rewrite ?app_nil_r; reflexivity.
Qed.

Lemma export_session_eq (client : CodilityAPIClient) (sess : json)
    (completed_records : list dict) (w : World) :
  export_session client sess completed_records w =
  match sess with
  | JDict s =>
      let session_id := dict_get_default "id" JNull s in
      match get_session_data client session_id w with
      | (Ok (JDict d), l1) =>
          if py_truthy (dict_get_default "end_time" JNull d) then
            match build_record client session_id (JDict d) w with
            | (Ok record, l2) => (Ok (completed_records ++ [record])%list, (l1 ++ l2)%list)
            | (Raise e, l2) => (Raise e, (l1 ++ l2)%list)
            end
          else (Ok completed_records, l1)
      | (Ok _, l1) => (Raise AttributeError, l1)
      | (Raise e, l1) => (Raise e, l1)
      end
  | _ => (Raise AttributeError, [])
  end.
Proof.
  unfold export_session.
  destruct sess as [|b|n|x|str|l|s]; cbn [py_get]; try apply bind_raise.
  rewrite bind_ret. cbv zeta.
  destruct (get_session_data client (dict_get_default "id" JNull s) w)
    as [[data|e] l1] eqn:E; [|now apply bind_fail].
  rewrite (bind_ok _ _ _ _ _ E).
  destruct data as [|b|n|x|str|l|d]; cbn [py_get];
    rewrite ?bind_raise; cbn [fst snd]; rewrite ?app_nil_r; try reflexivity.
  rewrite bind_ret.
  destruct (py_truthy (dict_get_default "end_time" JNull d)); cbn [negb].
  - destruct (build_record client (dict_get_default "id" JNull s) (JDict d) w)
      as [[record|e] l2] eqn:E2.
    + rewrite (bind_ok _ _ _ _ _ E2). cbn. now rewrite app_nil_r.
    + rewrite (bind_fail _ _ _ _ _ E2). reflexivity.
  - cbn. now rewrite app_nil_r.
Qed.

(** ** Keys of a flattened record *)

Lemma dict_set_keys_forall (P : string -> Prop) (k : string) (v : json) (d : dict) :
  P k -> Forall P (dict_keys d) -> Forall P (dict_keys (dict_set k v d)).
Proof.
  intros Hk Hd. apply Forall_forall. intros x Hx.
  apply dict_set_keys_incl in Hx. destruct Hx as [->|Hx]; [assumption|].
  revert x Hx. now apply Forall_forall.
Qed.

Lemma session_fold_keys (P : string -> Prop) (s acc : dict) :
  (forall k, k <> "candidate" -> P ("session_" ++ k)) ->
  Forall P (dict_keys acc) -> Forall P (dict_keys (fold_left session_step s acc)).
Proof.
  intros HP. revert acc. induction s as [|[k v] r IH]; intros acc Hacc; [assumption|].
  cbn [fold_left]. apply IH. unfold session_step.
  destruct (String.eqb_spec k "candidate") as [->|Hne]; [assumption|].
  apply dict_set_keys_forall; auto.
Qed.

Lemma similarity_fold_keys (P : string -> Prop) (m acc : dict) :
  (forall k, P ("similarity_" ++ k)) ->
  Forall P (dict_keys acc) -> Forall P (dict_keys (fold_left similarity_step m acc)).
Proof.
  intros HP. revert acc. induction m as [|[k v] r IH]; intros acc Hacc; [assumption|].
  cbn [fold_left]. apply IH. unfold similarity_step.
  apply dict_set_keys_forall; auto.
Qed.

Lemma flatten_data_keys (P : string -> Prop) (s m : dict) :
  (forall k, k <> "candidate" -> P ("session_" ++ k)) ->
  (forall k, P ("similarity_" ++ k)) ->
  Forall P (dict_keys (flatten_data s m)).
Proof.
  intros Hs Hm. rewrite flatten_data_fold.
  apply similarity_fold_keys; [assumption|].
  apply session_fold_keys; [assumption|constructor].
Qed.

Lemma flatten_data_prefixed (s m : dict) (key : string) :
  In key (dict_keys (flatten_data s m)) -> prefixed key.
Proof.
  revert key. apply Forall_forall. apply flatten_data_keys.
  - intros k _. left. now exists k.
  - intros k. right. now exists k.
Qed.

Lemma flatten_data_no_session_candidate (s m : dict) :
  ~ In "session_candidate" (dict_keys (flatten_data s m)).
Proof.
  assert (H : Forall (fun key => key <> "session_candidate")
                     (dict_keys (flatten_data s m))).
  { apply flatten_data_keys.
    - intros k Hk E. simpl in E. injection E as E. now subst k.
    - intros k E. simpl in E. discriminate. }
  intros Hin. now apply (proj1 (Forall_forall _ _) H "session_candidate").
Qed.

Lemma not_prefixed_promoted (key : string) :
  In key ["first_name"; "last_name"; "email"] -> ~ prefixed key.
Proof.
  intros [<-|[<-|[<-|[]]]] [[r E]|[r E]]; simpl in E; discriminate.
Qed.

(** The promoted columns are new keys: they go after the flattened items. *)
Lemma promote_appends (candidate s m : dict) :
  promote candidate (flatten_data s m) =
  (flatten_data s m
   ++ [("first_name", dict_get_default "firstName" (JStr "") candidate);
       ("last_name", dict_get_default "lastName" (JStr "") candidate);
       ("email", dict_get_default "email" (JStr "") candidate)])%list.
Proof.
  unfold promote.
  assert (Hfresh : forall key, In key ["first_name"; "last_name"; "email"] ->
                               ~ In key (dict_keys (flatten_data s m))).
  { intros key Hkey Hin. apply (not_prefixed_promoted key Hkey).
    now apply flatten_data_prefixed in Hin. }
  rewrite (dict_set_fresh "first_name") by (apply Hfresh; simpl; auto).
  rewrite (dict_set_fresh "last_name").
  2:{ unfold dict_keys. rewrite map_app, in_app_iff. intros [H|[H|[]]].
      - revert H. apply Hfresh. simpl; auto.
      - discriminate. }
  rewrite (dict_set_fresh "email").
  2:{ unfold dict_keys. rewrite !map_app, !in_app_iff.
      intros [[H|[H|[]]]|[H|[]]]; try discriminate.
      revert H. apply Hfresh. simpl; auto. }
  now rewrite <- !app_assoc.
Qed.

Lemma build_record_dict (client : CodilityAPIClient) (session_id data : json)
    (w : World) (record : dict) :
  fst (build_record client session_id data w) = Ok record ->
  exists d sim candidate,
    data = JDict d
    /\ fst (get_similarity_results client session_id w) = Ok (JDict sim)
    /\ dict_get_default "candidate" (JDict []) d = JDict candidate
    /\ record = promote candidate (flatten_data d sim).
Proof.
  destruct data as [|b|n|x|str|l|d];
    try (unfold build_record; cbn [py_get]; intros H;
         destruct (get_similarity_results client session_id w) as [[sim|e] l1] eqn:E;
         [ rewrite (bind_ok _ _ _ _ _ E) in H; cbv beta in H;
           rewrite bind_raise in H
         | rewrite (bind_fail _ _ _ _ _ E) in H ];
         discriminate H).
  rewrite build_record_eq.
  destruct (get_similarity_results client session_id w) as [[sim|e] l1];
    [|discriminate].
  destruct sim as [|b|n|x|str|l|sim]; try discriminate.
  destruct (dict_get_default "candidate" (JDict []) d) as [|b|n|x|str|l|candidate]
    eqn:Hc; try discriminate.
  intros [= <-]. exists d, sim, candidate. repeat split; auto.
Qed.

(** An included session whose similarity record arrives as a dict and whose
    candidate is a dict produces the promoted, flattened row. *)
Lemma included_produces (client : CodilityAPIClient) (w : World)
    (sess session_id : json) (d sim candidate : dict) :
  included client w sess session_id d ->
  fst (get_similarity_results client session_id w) = Ok (JDict sim) ->
  dict_get_default "candidate" (JDict []) d = JDict candidate ->
  produces client w sess (promote candidate (flatten_data d sim)).
Proof.
  intros (s & -> & -> & Hdata & Hend) Hsim Hcand acc.
  rewrite has_completion_marker_truthy in Hend.
  rewrite export_session_eq. cbv zeta.
  destruct (get_session_data client (dict_get_default "id" JNull s) w)
    as [r1 l1]. simpl in Hdata. subst r1.
  rewrite Hend, build_record_eq.
  destruct (get_similarity_results client (dict_get_default "id" JNull s) w)
    as [r2 l2]. simpl in Hsim. subst r2.
  now rewrite Hcand.
Qed.

Lemma dict_get_promote (candidate record : dict) :
  dict_get "first_name" (promote candidate record)
  = Some (dict_get_default "firstName" (JStr "") candidate)
  /\ dict_get "last_name" (promote candidate record)
     = Some (dict_get_default "lastName" (JStr "") candidate)
  /\ dict_get "email" (promote candidate record)
     = Some (dict_get_default "email" (JStr "") candidate).
Proof.
  unfold promote. repeat split.
  - rewrite !dict_get_set_other by discriminate. apply dict_get_set_same.
  - rewrite dict_get_set_other by discriminate. apply dict_get_set_same.
  - apply dict_get_set_same.
Qed.

End Row.

(** C9.  Every key of the mapping [flatten_data] returns starts with
    'session_' or 'similarity_'.  So the candidate columns set afterwards
    are new keys: a produced row is the flattened mapping, untouched,
    followed by 'first_name', 'last_name' and 'email', and these three are
    exactly its keys without either prefix. *)
Theorem flatten_keys_prefixed_then_promoted :
  (forall session_data similarity_data key,
      In key (dict_keys (flatten_data session_data similarity_data)) ->
      starts_with "session_" key \/ starts_with "similarity_" key)
  /\ (forall client session_id data w record,
        fst (build_record client session_id data w) = Ok record ->
        exists session_data similarity_data first_name last_name email,
          data = JDict session_data
          /\ record =
             (flatten_data session_data similarity_data
              ++ [("first_name", first_name); ("last_name", last_name);
                  ("email", email)])%list
          /\ (forall key value,
                dict_get key (flatten_data session_data similarity_data) = Some value ->
                dict_get key record = Some value)
          /\ (forall key,
                In key (dict_keys record)
                /\ ~ (starts_with "session_" key \/ starts_with "similarity_" key)
                <-> In key ["first_name"; "last_name"; "email"])).
Proof.
  split.
  - intros s m key. apply flatten_data_prefixed.
  - intros client session_id data w record H.
    apply build_record_dict in H.
    destruct H as (d & sim & candidate & -> & _ & _ & ->).
    rewrite promote_appends.
    eexists d, sim, _, _, _. split; [reflexivity|]. split; [reflexivity|]. split.
    + intros key value Hget. rewrite dict_get_app, Hget. reflexivity.
    + intros key. unfold dict_keys. rewrite map_app, in_app_iff. split.
      * intros [[Hin|Hin] Hnp]; [|exact Hin].
        exfalso. apply Hnp. now apply flatten_data_prefixed in Hin.
      * intros Hin. split; [now right|]. now apply not_prefixed_promoted.
Qed.

Lemma flatten_keys_prefixed_then_promoted_witness :
  exists session_data similarity_data first_name last_name email,
    JDict Scenario.session_A = JDict session_data
    /\ promote [("firstName", JStr "Ann"); ("lastName", JStr "Lee");
                ("email", JStr "a@x.com")]
               (flatten_data Scenario.session_A Scenario.similarity_A)
       = (flatten_data session_data similarity_data
          ++ [("first_name", first_name); ("last_name", last_name);
              ("email", email)])%list.
Proof.
  destruct (proj2 flatten_keys_prefixed_then_promoted
              Scenario.client (JStr "A") (JDict Scenario.session_A) Scenario.backend
              (promote [("firstName", JStr "Ann"); ("lastName", JStr "Lee");
                        ("email", JStr "a@x.com")]
                       (flatten_data Scenario.session_A Scenario.similarity_A))
              eq_refl)
    as (sd & md & fn & ln & em & Hd & Hr & _).
  exists sd, md, fn, ln, em. split; assumption.
Defined.

(** C7.  An included session whose detail record has the candidate
    sub-record {"firstName": "Ann", "lastName": "Lee", "email": "a@x.com"}
    produces a row with first_name = "Ann", last_name = "Lee",
    email = "a@x.com" and without a 'session_candidate' column. *)
Theorem candidate_promotion (client : CodilityAPIClient) (w : World)
    (sess session_id : json) (d similarity : dict) :
  included client w sess session_id d ->
  dict_get "candidate" d
  = Some (JDict [("firstName", JStr "Ann"); ("lastName", JStr "Lee");
                 ("email", JStr "a@x.com")]) ->
  fst (get_similarity_results client session_id w) = Ok (JDict similarity) ->
  exists record,
    produces client w sess record
    /\ dict_get "first_name" record = Some (JStr "Ann")
    /\ dict_get "last_name" record = Some (JStr "Lee")
    /\ dict_get "email" record = Some (JStr "a@x.com")
    /\ ~ In "session_candidate" (dict_keys record).
Proof.
  intros Hinc Hcand Hsim.
  set (candidate := [("firstName", JStr "Ann"); ("lastName", JStr "Lee");
                     ("email", JStr "a@x.com")]) in *.
  assert (Hc : dict_get_default "candidate" (JDict []) d = JDict candidate)
    by (unfold dict_get_default; now rewrite Hcand).
  exists (promote candidate (flatten_data d similarity)).
  split; [exact (included_produces _ _ _ _ _ _ _ Hinc Hsim Hc)|].
  destruct (dict_get_promote candidate (flatten_data d similarity)) as (H1 & H2 & H3).
  repeat split; try assumption.
  rewrite promote_appends. unfold dict_keys. rewrite map_app, in_app_iff.
  intros [Hin|[Hin|[Hin|[Hin|[]]]]]; try discriminate.
  revert Hin. apply flatten_data_no_session_candidate.
Qed.

Lemma candidate_promotion_witness :
  exists record,
    produces Scenario.client Scenario.backend (JDict [("id", JStr "A")]) record
    /\ dict_get "first_name" record = Some (JStr "Ann")
    /\ dict_get "last_name" record = Some (JStr "Lee")
    /\ dict_get "email" record = Some (JStr "a@x.com")
    /\ ~ In "session_candidate" (dict_keys record).
Proof.
  apply (candidate_promotion Scenario.client Scenario.backend
           (JDict [("id", JStr "A")]) (JStr "A")
           Scenario.session_A Scenario.similarity_A).
  - exists [("id", JStr "A")]. repeat split; reflexivity.
  - reflexivity.
  - reflexivity.
Defined.

(** C10.  For an included session (similarity record fetched), when the
    detail record has no 'candidate' key the row has first_name, last_name
    and email all equal to the empty string; when the candidate sub-record
    is a dict, each of 'firstName', 'lastName', 'email' that it lacks gives
    the empty string in the corresponding column.  The column is present
    with the value [''], not missing and not None. *)
Theorem candidate_defaults (client : CodilityAPIClient) (w : World)
    (sess session_id : json) (d similarity : dict) :
  included client w sess session_id d ->
  fst (get_similarity_results client session_id w) = Ok (JDict similarity) ->
  (dict_get "candidate" d = None ->
   exists record,
     produces client w sess record
     /\ dict_get "first_name" record = Some (JStr "")
     /\ dict_get "last_name" record = Some (JStr "")
     /\ dict_get "email" record = Some (JStr ""))
  /\ (forall candidate,
        dict_get "candidate" d = Some (JDict candidate) ->
        exists record,
          produces client w sess record
          /\ (dict_get "firstName" candidate = None ->
              dict_get "first_name" record = Some (JStr ""))
          /\ (dict_get "lastName" candidate = None ->
              dict_get "last_name" record = Some (JStr ""))
          /\ (dict_get "email" candidate = None ->
              dict_get "email" record = Some (JStr ""))).
Proof.
  intros Hinc Hsim. split.
  - intros Hnone.
    assert (Hc : dict_get_default "candidate" (JDict []) d = JDict [])
      by (unfold dict_get_default; now rewrite Hnone).
    exists (promote [] (flatten_data d similarity)).
    split; [exact (included_produces _ _ _ _ _ _ _ Hinc Hsim Hc)|].
    apply dict_get_promote.
  - intros candidate Hsome.
    assert (Hc : dict_get_default "candidate" (JDict []) d = JDict candidate)
      by (unfold dict_get_default; now rewrite Hsome).
    exists (promote candidate (flatten_data d similarity)).
    split; [exact (included_produces _ _ _ _ _ _ _ Hinc Hsim Hc)|].
    destruct (dict_get_promote candidate (flatten_data d similarity)) as (H1 & H2 & H3).
    rewrite H1, H2, H3. unfold dict_get_default.
    repeat split; intros ->; reflexivity.
Qed.

Lemma candidate_defaults_witness :
  (exists record,
      produces Scenario.client Scenario.backend (JDict [("id", JStr "C")]) record
      /\ dict_get "first_name" record = Some (JStr "")
      /\ dict_get "last_name" record = Some (JStr "")
      /\ dict_get "email" record = Some (JStr ""))
  /\ (exists record,
        produces Scenario.client Scenario.backend (JDict [("id", JStr "D")]) record
        /\ dict_get "last_name" record = Some (JStr "")).
Proof.
  split.
  - apply (candidate_defaults Scenario.client Scenario.backend
             (JDict [("id", JStr "C")]) (JStr "C") Scenario.session_C []).
    + exists [("id", JStr "C")]. repeat split; reflexivity.
    + reflexivity.
    + reflexivity.
  - destruct (candidate_defaults Scenario.client Scenario.backend
                (JDict [("id", JStr "D")]) (JStr "D") Scenario.session_D []) as [_ H].
    + exists [("id", JStr "D")]. repeat split; reflexivity.
    + reflexivity.
    + destruct (H [("firstName", JStr "Dee")] eq_refl) as (record & Hp & _ & Hl & _).
      exists record. split; [exact Hp|]. apply Hl. reflexivity.
Defined.

(* ================================================================== *)
(** * The completion filter *)
(* ================================================================== *)

Section Filter.

Variable client : CodilityAPIClient.
Variable w : World.

(** One pass of the loop body, when it returns. *)
Lemma export_session_step (sess : json) (acc acc' : list dict) (l : list Event) :
  export_session client sess acc w = (Ok acc', l) ->
  (completed client w sess = false /\ acc' = acc)
  \/ (completed client w sess = true
      /\ exists record, row_for client w sess record /\ acc' = (acc ++ [record])%list).
Proof.
  rewrite export_session_eq. unfold completed, row_for, fetched_detail.
  destruct sess as [|b|n|x|str|li|s]; try discriminate.
  cbv zeta.
  destruct (get_session_data client (dict_get_default "id" JNull s) w) as [[data|e] l1];
    [|discriminate].
  destruct data as [|b|n|x|str|li|d]; try discriminate.
  cbn [fst]. rewrite has_completion_marker_truthy.
  destruct (py_truthy (dict_get_default "end_time" JNull d)).
  - destruct (build_record client (dict_get_default "id" JNull s) (JDict d) w)
      as [[record|e] l2] eqn:E; [|discriminate].
    intros [= <- _]. right. split; [reflexivity|].
    exists record. split; [|reflexivity].
    exists (dict_get_default "id" JNull s), d. rewrite E. auto.
  - intros [= <- _]. left. auto.
Qed.

Lemma export_session_progress (sess : json) (acc : list dict) :
  fetches_ok client w sess ->
  exists acc' l, export_session client sess acc w = (Ok acc', l).
Proof.
  intros (session_id & d & Hf & Hb). rewrite export_session_eq.
  unfold fetched_detail in Hf.
  destruct sess as [|b|n|x|str|li|s]; try discriminate.
  cbv zeta in *.
  destruct (get_session_data client (dict_get_default "id" JNull s) w) as [[data|e] l1];
    [|discriminate].
  destruct data as [|b|n|x|str|li|d']; try discriminate.
  cbn [fst] in Hf. injection Hf as <- <-.
  rewrite has_completion_marker_truthy in Hb.
  destruct (py_truthy (dict_get_default "end_time" JNull d')).
  - destruct (Hb eq_refl) as [record Hr].
    destruct (build_record client (dict_get_default "id" JNull s) (JDict d') w)
      as [r2 l2]. cbn [fst] in Hr. subst r2. eauto.
  - eauto.
Qed.

Lemma for_each_cons {A S : Type} (x : A) (r : list A) (body : A -> S -> M S) (acc : S) :
  for_each (x :: r) body acc w
  = bind (body x acc) (fun acc' => for_each r body acc') w.
Proof. reflexivity. Qed.

Lemma loop_records (sessions : list json) (acc records : list dict) (log : list Event) :
  for_each sessions (export_session client) acc w = (Ok records, log) ->
  exists rows,
    records = (acc ++ rows)%list
    /\ Forall2 (row_for client w) (filter (completed client w) sessions) rows.
Proof.
  revert acc log. induction sessions as [|sess rest IH]; intros acc log H.
  - injection H as <- _. exists []. rewrite app_nil_r. split; [reflexivity|constructor].
  - rewrite for_each_cons in H.
    destruct (export_session client sess acc w) as [[acc'|e] l1] eqn:E.
    + rewrite (bind_ok _ _ _ _ _ E) in H.
      destruct (for_each rest (export_session client) acc' w) as [r2 l2] eqn:E2.
      cbn [fst snd] in H. injection H as -> _.
      destruct (IH _ _ E2) as (rows & -> & HF).
      apply export_session_step in E. cbn [filter].
      destruct E as [[Hc ->]|[Hc (record & Hrow & ->)]]; rewrite Hc.
      * exists rows. auto.
      * exists (record :: rows). rewrite <- app_assoc. split; [reflexivity|].
        now constructor.
    + rewrite (bind_fail _ _ _ _ _ E) in H. discriminate.
Qed.

Lemma loop_progress (sessions : list json) (acc : list dict) :
  (forall sess, In sess sessions -> fetches_ok client w sess) ->
  exists records log,
    for_each sessions (export_session client) acc w = (Ok records, log).
Proof.
  revert acc. induction sessions as [|sess rest IH]; intros acc H.
  - exists acc, []. reflexivity.
  - rewrite for_each_cons.
    destruct (export_session_progress sess acc (H sess (or_introl eq_refl)))
      as (acc' & l1 & E).
    rewrite (bind_ok _ _ _ _ _ E).
    destruct (IH acc' (fun s Hs => H s (or_intror Hs))) as (records & l2 & E2).
    rewrite E2. cbn [fst snd]. eauto.
Qed.

Lemma collect_records_eq (t : json) (sessions : list json) (ls : list Event) :
  sessions_of client w t sessions ls ->
  collect_records client t w
  = (fst (for_each sessions (export_session client) [] w),
     (ls ++ snd (for_each sessions (export_session client) [] w))%list).
Proof.
  intros (td & test_id & resp & -> & Hid & Hlist & Hiter).
  unfold collect_records. cbn [py_getitem]. rewrite Hid, bind_ret.
  rewrite (bind_ok _ _ _ _ _ Hlist). cbn [py_get]. rewrite bind_ret.
  rewrite (bind_ok _ _ _ _ _ Hiter). reflexivity.
Qed.

(** With every fetch succeeding and no session completed, the loop ends
    with no record. *)
Lemma collect_records_none (t : json) (sessions : list json) (ls : list Event) :
  sessions_of client w t sessions ls ->
  (forall sess, In sess sessions -> fetches_ok client w sess) ->
  filter (completed client w) sessions = [] ->
  exists l3, collect_records client t w = (Ok [], l3).
Proof.
  intros Hs Hok Hnone. rewrite (collect_records_eq _ _ _ Hs).
  destruct (loop_progress sessions [] Hok) as (records & log & E).
  destruct (loop_records _ _ _ _ E) as (rows & -> & HF).
  rewrite Hnone in HF. inversion HF; subst. rewrite E. cbn. eauto.
Qed.

End Filter.

(** C2.  When the loop over the sessions returns, its records are, in
    order, the rows of exactly the sessions whose fetched detail record has
    a truthy 'end_time'; and it does return whenever every fetch it makes
    succeeds.  A detail record whose 'end_time' is absent, null or the
    empty string has no completion marker and leaves the records as they
    were; one whose 'end_time' is "2024-02-02" has it and adds its row.
    The same holds of the records [main] collects for the matched test,
    whose sessions the loop visits. *)
Theorem completed_sessions_only (client : CodilityAPIClient) (w : World)
    (sessions : list json) :
  (forall records log,
      for_each sessions (export_session client) [] w = (Ok records, log) ->
      Forall2 (row_for client w) (filter (completed client w) sessions) records)
  /\ ((forall sess, In sess sessions -> fetches_ok client w sess) ->
      exists records log,
        for_each sessions (export_session client) [] w = (Ok records, log))
  /\ (forall d,
        dict_get "end_time" d = None
        \/ dict_get "end_time" d = Some JNull
        \/ dict_get "end_time" d = Some (JStr "") ->
        has_completion_marker d = false)
  /\ (forall d,
        dict_get "end_time" d = Some (JStr "2024-02-02") ->
        has_completion_marker d = true)
  /\ (forall sess session_id d completed_records,
        fetched_detail client w sess = Some (session_id, d) ->
        has_completion_marker d = false ->
        fst (export_session client sess completed_records w) = Ok completed_records)
  /\ (forall sess session_id d completed_records record,
        fetched_detail client w sess = Some (session_id, d) ->
        has_completion_marker d = true ->
        fst (build_record client session_id (JDict d) w) = Ok record ->
        fst (export_session client sess completed_records w)
        = Ok (completed_records ++ [record])%list)
  /\ (forall t ls records log,
        sessions_of client w t sessions ls ->
        collect_records client t w = (Ok records, log) ->
        Forall2 (row_for client w) (filter (completed client w) sessions) records).
Proof.
  split; [|split; [|split; [|split; [|split; [|split]]]]].
  - intros records log H. apply loop_records in H.
    destruct H as (rows & -> & HF). exact HF.
  - apply loop_progress.
  - intros d [H|[H|H]]; unfold has_completion_marker; now rewrite H.
  - intros d H. unfold has_completion_marker. now rewrite H.
  - intros sess session_id d acc Hf Hm. rewrite export_session_eq.
    unfold fetched_detail in Hf.
    destruct sess as [|b|n|x|str|li|s]; try discriminate. cbv zeta in *.
    destruct (get_session_data client (dict_get_default "id" JNull s) w)
      as [[data|e] l1]; [|discriminate].
    destruct data as [|b|n|x|str|li|d']; try discriminate.
    cbn [fst] in Hf. injection Hf as <- <-.
    rewrite has_completion_marker_truthy in Hm. now rewrite Hm.
  - intros sess session_id d acc record Hf Hm Hb. rewrite export_session_eq.
    unfold fetched_detail in Hf.
    destruct sess as [|b|n|x|str|li|s]; try discriminate. cbv zeta in *.
    destruct (get_session_data client (dict_get_default "id" JNull s) w)
      as [[data|e] l1]; [|discriminate].
    destruct data as [|b|n|x|str|li|d']; try discriminate.
    cbn [fst] in Hf. injection Hf as <- <-.
    rewrite has_completion_marker_truthy in Hm. rewrite Hm.
    destruct (build_record client (dict_get_default "id" JNull s) (JDict d') w)
      as [r2 l2]. cbn [fst] in Hb. now subst r2.
  - intros t ls records log Hs Hc.
    rewrite (collect_records_eq _ _ _ _ _ Hs) in Hc.
    destruct (for_each sessions (export_session client) [] w) as [r l'] eqn:E.
    cbn [fst snd] in Hc. injection Hc as -> _.
    destruct (loop_records _ _ _ _ _ _ E) as (rows & -> & HF). exact HF.
Qed.

Lemma completed_sessions_only_witness :
  Forall2 (row_for Scenario.client Scenario.backend)
          (filter (completed Scenario.client Scenario.backend)
                  [JDict [("id", JStr "A")]; JDict [("id", JStr "B")]])
          [promote [("firstName", JStr "Ann"); ("lastName", JStr "Lee");
                    ("email", JStr "a@x.com")]
                   (flatten_data Scenario.session_A Scenario.similarity_A)].
Proof.
  eapply (proj1 (completed_sessions_only Scenario.client Scenario.backend
                   [JDict [("id", JStr "A")]; JDict [("id", JStr "B")]])).
  vm_compute. reflexivity.
Defined.

(* ================================================================== *)
(** * One call of the session *)
(* ================================================================== *)

Section Exchange.

Variable w : World.

Lemma send_then_json (s : Session) (m : Method) (u : string) (payload : option json) :
  (response <- send s m u payload ;;
   raise_for_status response ;;
   response_json response) w
  = exchange body_json
      {| method := m; url := u; headers := session_headers s; json_body := payload |} w.
Proof.
  unfold bind, send, exchange, raise_for_status, response_json, body_json,
    is_error_status, ret, raise.
  destruct (session_request w _) as [response|what]; [|reflexivity].
  destruct ((400 <=? status_code response) && (status_code response <? 600));
    [reflexivity|].
  now destruct (parsed response).
Qed.

Lemma send_then_bytes (s : Session) (m : Method) (u : string) (payload : option json) :
  (response <- send s m u payload ;;
   raise_for_status response ;;
   ret (content response)) w
  = exchange body_bytes
      {| method := m; url := u; headers := session_headers s; json_body := payload |} w.
Proof.
  unfold bind, send, exchange, raise_for_status, body_bytes, is_error_status, ret, raise.
  destruct (session_request w _) as [response|what]; [|reflexivity].
  now destruct ((400 <=? status_code response) && (status_code response <? 600)).
Qed.

Lemma send_then_nothing (s : Session) (m : Method) (u : string) (payload : option json) :
  (response <- send s m u payload ;;
   raise_for_status response) w
  = exchange body_ignored
      {| method := m; url := u; headers := session_headers s; json_body := payload |} w.
Proof.
  unfold bind, send, exchange, raise_for_status, body_ignored, is_error_status, ret, raise.
  destruct (session_request w _) as [response|what]; [|reflexivity].
  now destruct ((400 <=? status_code response) && (status_code response <? 600)).
Qed.

Lemma get_session_data_eq (client : CodilityAPIClient) (session_id : json) :
  get_session_data client session_id w
  = exchange body_json (request client GET ("/sessions/" ++ py_str session_id) None) w.
Proof. apply send_then_json. Qed.

Lemma get_similarity_results_eq (client : CodilityAPIClient) (session_id : json) :
  get_similarity_results client session_id w
  = exchange body_json
      (request client GET ("/sessions/" ++ py_str session_id ++ "/similarity") None) w.
Proof. apply send_then_json. Qed.

Lemma list_test_sessions_eq (client : CodilityAPIClient) (test_id : json) :
  list_test_sessions client test_id w
  = exchange body_json
      (request client GET ("/tests/" ++ py_str test_id ++ "/sessions") None) w.
Proof. apply send_then_json. Qed.

Lemma list_tests_eq (client : CodilityAPIClient) :
  list_tests client w = exchange body_json (request client GET "/tests" None) w.
Proof. apply send_then_json. Qed.

End Exchange.

(* ================================================================== *)
(** * Every client operation *)
(* ================================================================== *)

Section Perform.

Variable w : World.

Lemma returning_exchange {A : Type} (wrap : A -> Returned) (m : M A)
    (extract : Response -> result A) (req : Request) :
  m w = exchange extract req w ->
  returning wrap m w
  = exchange (fun response =>
                match extract response with
                | Ok a => Ok (wrap a)
                | Raise e => Raise e
                end) req w.
Proof.
  intros E. unfold returning, bind. rewrite E. unfold exchange, ret.
  destruct (session_request w req) as [response|what]; [|reflexivity].
  destruct (is_error_status (status_code response)); [reflexivity|].
  now destruct (extract response).
Qed.

Lemma exchange_ext {A : Type} (f g : Response -> result A) (req : Request) :
  (forall response, f response = g response) -> exchange f req w = exchange g req w.
Proof.
  intros H. unfold exchange. destruct (session_request w req); [|reflexivity].
  now rewrite H.
Qed.

Lemma perform_exchange (client : CodilityAPIClient) (op : Operation) :
  perform client op w = exchange (returned_of op) (request_of client op) w.
Proof.
  destruct op; cbn [perform];
    (eapply eq_trans;
     [ apply returning_exchange;
       first [ apply send_then_json | apply send_then_bytes | apply send_then_nothing ]
     | apply exchange_ext; intros response; cbn [returned_of];
       unfold body_json, body_bytes, body_ignored;
       try destruct (parsed response); reflexivity ]).
Qed.

End Perform.

(** C3, as the code has it.  Every operation calls the session once and
    does nothing else: there is no retry.  When the call raises, the
    operation raises the same exception.  When the call hands back a
    response, the operation raises the HTTP failure carrying status and
    body if and only if the status of that response is in 400..599 (the
    classes [raise_for_status] raises for); for every other status, each
    2xx among them, it gives what [returned_of] reads off the response,
    unmodified: the parsed body, or the JSON decode error when the body is
    not JSON; the raw bytes for the PDF report and nothing for a
    cancellation, whatever the body.  No outcome is retried or caught. *)
Theorem client_call_outcome (client : CodilityAPIClient) (op : Operation) (w : World) :
  snd (perform client op w) = [Called (request_of client op)]
  /\ (forall what,
        session_request w (request_of client op) = Failed what ->
        fst (perform client op w) = Raise (SessionError what))
  /\ (forall response,
        session_request w (request_of client op) = Answered response ->
        (fst (perform client op w)
         = Raise (HTTPError (status_code response) (content response))
         <-> is_error_status (status_code response) = true)
        /\ ((exists status body, fst (perform client op w) = Raise (HTTPError status body))
            <-> (400 <= status_code response < 600))
        /\ (is_error_status (status_code response) = false ->
            fst (perform client op w) = returned_of op response)
        /\ (is_2xx (status_code response) = true ->
            fst (perform client op w) = returned_of op response)).
Proof.
  rewrite perform_exchange. unfold exchange. cbn [fst snd].
  split; [reflexivity|]. split.
  { intros what ->. reflexivity. }
  { intros response ->.
    assert (Hnot : forall status body, returned_of op response <> Raise (HTTPError status body)).
    { intros status body. unfold returned_of.
      destruct op; try destruct (parsed response); discriminate. }
    assert (Hrange : is_error_status (status_code response) = true
                     <-> 400 <= status_code response < 600).
    { unfold is_error_status. rewrite andb_true_iff, Z.leb_le, Z.ltb_lt. tauto. }
    assert (H2xx : is_2xx (status_code response) = true ->
                   is_error_status (status_code response) = false).
    { unfold is_error_status, is_2xx.
      rewrite andb_true_iff, andb_false_iff, Z.leb_le, Z.ltb_lt, Z.leb_gt. lia. }
    destruct (is_error_status (status_code response)) eqn:E.
    - split; [tauto|]. split; [|split].
      + split; [intros _; now apply Hrange | intros _; eauto].
      + discriminate.
      + intros H. apply H2xx in H. discriminate.
    - split; [|split; [|split]].
      + split; [|discriminate]. intros H. exfalso. exact (Hnot _ _ H).
      + split.
        * intros (status & body & H). exfalso. exact (Hnot _ _ H).
        * intros H. apply Hrange in H. discriminate.
      + reflexivity.
      + reflexivity. }
Qed.

Lemma client_call_outcome_witness :
  fst (perform Scenario.client (GetSessionData (JStr "A")) Scenario.backend)
  = Ok (ReturnedJson (JDict Scenario.session_A))
  /\ fst (perform Scenario.client (GetSessionData (JStr "Z")) Scenario.backend)
     = Raise (HTTPError 404 "Not Found").
Proof.
  split.
  - destruct (client_call_outcome Scenario.client (GetSessionData (JStr "A"))
                Scenario.backend) as (_ & _ & H).
    destruct (H (Scenario.json_response (JDict Scenario.session_A)) eq_refl)
      as (_ & _ & _ & H2).
    rewrite (H2 eq_refl). reflexivity.
  - destruct (client_call_outcome Scenario.client (GetSessionData (JStr "Z"))
                Scenario.backend) as (_ & _ & H).
    destruct (H Scenario.not_found eq_refl) as (H1 & _).
    apply H1. reflexivity.
Defined.

(** C3 as stated fails.  A response with status 300, which is not 2xx,
    does not make the call fail: its parsed body is returned.  And a
    response with status 200 whose body is not JSON does not give a parsed
    body back: the call raises the decode error. *)
Lemma non_2xx_status_returns :
  (is_2xx 300 = false
   /\ session_request multiple_choices
        (request_of Scenario.client (GetSessionData (JStr "A")))
      = Answered {| status_code := 300; content := "{}"; parsed := Some (JDict []) |}
   /\ get_session_data Scenario.client (JStr "A") multiple_choices
      = (Ok (JDict []),
         [Called (request_of Scenario.client (GetSessionData (JStr "A")))]))
  /\ (is_2xx 200 = true
      /\ session_request not_json
           (request_of Scenario.client (GetSessionData (JStr "A")))
         = Answered {| status_code := 200; content := "OK"; parsed := None |}
      /\ get_session_data Scenario.client (JStr "A") not_json
         = (Raise JSONDecodeError,
            [Called (request_of Scenario.client (GetSessionData (JStr "A")))])).
Proof. repeat split. Qed.

(* ================================================================== *)
(** * Constructing the client *)
(* ================================================================== *)

Section Construction.

Lemma str_rstrip_suffix (c : ascii) (s : string) :
  exists n, s = str_rstrip c s ++ str_repeat c n.
Proof.
  unfold str_rstrip. induction s as [|a r [n IH]].
  - exists 0%nat. reflexivity.
  - cbn [rstrip_by]. destruct (rstrip_by (Ascii.eqb c) r) as [|x R].
    + simpl in IH. destruct (Ascii.eqb_spec c a) as [<-|Hne].
      * exists (S n). simpl. now rewrite <- IH.
      * exists n. simpl. now rewrite <- IH.
    + exists n. simpl. simpl in IH. now rewrite <- IH.
Qed.

Lemma rstrip_by_last (p : ascii -> bool) (s r : string) (a : ascii) :
  rstrip_by p s = r ++ String a "" -> p a = false.
Proof.
  revert r. induction s as [|x t IH]; intros r H.
  - destruct r; discriminate.
  - cbn [rstrip_by] in H. destruct (rstrip_by p t) as [|y R].
    + destruct (p x) eqn:Hx.
      * destruct r; discriminate.
      * destruct r as [|z r']; simpl in H.
        -- now injection H as <-.
        -- injection H as _ H. destruct r'; discriminate.
    + destruct r as [|z r']; simpl in H; [discriminate|].
      injection H as _ H. now apply (IH r').
Qed.

Lemma str_rstrip_clean (c : ascii) (s : string) : ~ ends_with c (str_rstrip c s).
Proof.
  intros [r H]. apply rstrip_by_last in H. now rewrite Ascii.eqb_refl in H.
Qed.

Lemma main_without_credential (w : World) :
  getenv w "CODILITY_API_KEY" = None \/ getenv w "CODILITY_API_KEY" = Some "" ->
  main w
  = (Raise (SystemExit 1),
     [Printed "Error: Please set the CODILITY_API_KEY environment variable."]).
Proof.
  intros H. unfold main, bind, os_getenv. destruct H as [-> | ->]; reflexivity.
Qed.

End Construction.

(** C4, as the code has it.  The constructor accepts every credential, the
    empty one too, and does nothing but build the client: the session
    carries 'Authorization: Bearer ' + credential and the JSON content
    type, and the base URL is stored with all its trailing '/' removed.
    The empty or missing credential is turned away by the export script
    before it constructs a client: it prints the error and exits with
    status 1, having sent nothing. *)
Theorem construction_accepts_any_credential (api_key base_url : string) (w : World) :
  (exists client,
      __init__ api_key base_url w = (Ok client, [])
      /\ session_headers (session client)
         = [("Authorization", "Bearer " ++ api_key);
            ("Content-Type", "application/json")]
      /\ api_calls.base_url client = str_rstrip "/" base_url
      /\ (exists n, base_url = api_calls.base_url client ++ str_repeat "/" n)
      /\ ~ ends_with "/" (api_calls.base_url client))
  /\ (getenv w "CODILITY_API_KEY" = None \/ getenv w "CODILITY_API_KEY" = Some "" ->
      main w
      = (Raise (SystemExit 1),
         [Printed "Error: Please set the CODILITY_API_KEY environment variable."])).
Proof.
  split.
  - eexists. split; [reflexivity|]. cbn [session session_headers api_calls.base_url].
    repeat split.
    + apply str_rstrip_suffix.
    + apply str_rstrip_clean.
  - apply main_without_credential.
Qed.

Lemma construction_accepts_any_credential_witness :
  main (Scenario.world (Some "") "Backend Role")
  = (Raise (SystemExit 1),
     [Printed "Error: Please set the CODILITY_API_KEY environment variable."]).
Proof.
  apply (proj2 (construction_accepts_any_credential
                  "" default_base_url (Scenario.world (Some "") "Backend Role"))).
  right. reflexivity.
Defined.

(** C4 as stated fails: constructing the client with the empty credential
    is not rejected. *)
Lemma empty_credential_constructs :
  __init__ "" "https://codility.com/api/" multiple_choices
  = (Ok {| base_url := "https://codility.com/api";
           session := {| session_headers :=
                           [("Authorization", "Bearer ");
                            ("Content-Type", "application/json")] |} |},
     []).
Proof. reflexivity. Qed.

(* ================================================================== *)
(** * The run of [main], phase by phase *)
(* ================================================================== *)

Section Logs.

Variable w : World.

Lemma bind_inv_ok {A B : Type} (m : M A) (f : A -> M B) (b : B) (l : list Event) :
  bind m f w = (Ok b, l) ->
  exists a l1 l2, m w = (Ok a, l1) /\ f a w = (Ok b, l2) /\ l = (l1 ++ l2)%list.
Proof.
  unfold bind. destruct (m w) as [[a|e] l1]; [|discriminate].
  destruct (f a w) as [r l2] eqn:E. intros [= -> <-]. exists a, l1, l2. auto.
Qed.

Lemma no_file_events_app (l1 l2 : list Event) :
  no_file_events l1 -> no_file_events l2 -> no_file_events (l1 ++ l2).
Proof. unfold no_file_events. intros H1 H2. apply Forall_app. auto. Qed.

Lemma no_file_events_quiet (l : list Event) :
  no_file_events l -> files_opened l = [] /\ rows_written l = [].
Proof.
  induction 1 as [|e l He _ [IH1 IH2]]; [split; reflexivity|].
  destruct e; try contradiction; simpl; auto.
Qed.

Lemma files_opened_app (l1 l2 : list Event) :
  files_opened (l1 ++ l2) = (files_opened l1 ++ files_opened l2)%list.
Proof. apply flat_map_app. Qed.

Lemma rows_written_app (l1 l2 : list Event) :
  rows_written (l1 ++ l2) = (rows_written l1 ++ rows_written l2)%list.
Proof. apply flat_map_app. Qed.

Lemma file_free_bind {A B : Type} (m : M A) (f : A -> M B) :
  file_free w m -> (forall a, file_free w (f a)) -> file_free w (bind m f).
Proof.
  unfold file_free, bind. intros Hm Hf.
  destruct (m w) as [[a|e] l1]; [|exact Hm].
  specialize (Hf a). destruct (f a w) as [r l2]. cbn [snd] in *.
  now apply no_file_events_app.
Qed.

Lemma file_free_ret {A : Type} (a : A) : file_free w (ret a).
Proof. constructor. Qed.

Lemma file_free_raise {A : Type} (e : exn) : file_free w (@raise A e).
Proof. constructor. Qed.

Lemma file_free_print (line : string) : file_free w (print line).
Proof. repeat constructor. Qed.

Lemma file_free_input (prompt : string) : file_free w (input prompt).
Proof. unfold file_free, input. destruct (stdin w); repeat constructor. Qed.

Lemma file_free_py_get (v : json) (k : string) (default : json) :
  file_free w (py_get v k default).
Proof. destruct v; constructor. Qed.

Lemma file_free_py_getitem (v : json) (k : string) : file_free w (py_getitem v k).
Proof.
  destruct v; try constructor. unfold file_free. cbn [py_getitem].
  destruct (dict_get k d); constructor.
Qed.

Lemma file_free_py_items (v : json) : file_free w (py_items v).
Proof. destruct v; constructor. Qed.

Lemma file_free_py_iter (v : json) : file_free w (py_iter v).
Proof. destruct v; constructor. Qed.

Lemma file_free_exchange {A : Type} (m : M A) (extract : Response -> result A)
    (req : Request) :
  m w = exchange extract req w -> file_free w m.
Proof. unfold file_free. intros ->. repeat constructor. Qed.

Lemma file_free_for_each {A S : Type} (l : list A) (body : A -> S -> M S) (acc : S) :
  (forall x acc, file_free w (body x acc)) -> file_free w (for_each l body acc).
Proof.
  intros Hbody. revert acc. induction l as [|x r IH]; intros acc.
  - apply file_free_ret.
  - cbn [for_each]. apply file_free_bind; auto.
Qed.

End Logs.

Create HintDb file_free.

#[local] Hint Resolve file_free_bind file_free_ret file_free_raise file_free_print
  file_free_input file_free_py_get file_free_py_getitem file_free_py_items
  file_free_py_iter file_free_for_each : file_free.

Section Phases.

Variable w : World.

Lemma file_free_build_record (client : CodilityAPIClient) (session_id data : json) :
  file_free w (build_record client session_id data).
Proof.
  unfold build_record.
  apply file_free_bind;
    [exact (file_free_exchange w _ _ _ (get_similarity_results_eq w _ _))|].
  intros similarity. repeat (apply file_free_bind; [auto with file_free|]; intros ?).
  auto with file_free.
Qed.

Lemma file_free_export_session (client : CodilityAPIClient) (sess : json)
    (acc : list dict) :
  file_free w (export_session client sess acc).
Proof.
  unfold export_session.
  apply file_free_bind; [auto with file_free|]. intros session_id.
  apply file_free_bind;
    [exact (file_free_exchange w _ _ _ (get_session_data_eq w _ _))|].
  intros data. apply file_free_bind; [auto with file_free|]. intros end_time.
  destruct (negb (py_truthy end_time)); [auto with file_free|].
  apply file_free_bind; [apply file_free_build_record|]. auto with file_free.
Qed.

Lemma file_free_collect_records (client : CodilityAPIClient) (first_match : json) :
  file_free w (collect_records client first_match).
Proof.
  unfold collect_records.
  apply file_free_bind; [auto with file_free|]. intros test_id.
  apply file_free_bind;
    [exact (file_free_exchange w _ _ _ (list_test_sessions_eq w _ _))|].
  intros sessions_resp. apply file_free_bind; [auto with file_free|]. intros sessions.
  apply file_free_bind; [auto with file_free|]. intros sessions'.
  apply file_free_for_each. intros. apply file_free_export_session.
Qed.

Lemma file_free_print_test (t : json) (u : unit) : file_free w (print_test t u).
Proof.
  unfold print_test.
  apply file_free_bind; [auto with file_free|]. intros title.
  apply file_free_bind.
  - destruct (py_truthy title); auto with file_free.
  - intros name. auto with file_free.
Qed.

Lemma file_free_list_and_prompt (tests : json) : file_free w (list_and_prompt tests).
Proof.
  unfold list_and_prompt.
  apply file_free_bind; [auto with file_free|]. intros _.
  apply file_free_bind; [auto with file_free|]. intros ts.
  apply file_free_bind;
    [apply file_free_for_each; intros; apply file_free_print_test|]. intros _.
  auto with file_free.
Qed.

(** ** The listing *)

Lemma print_test_listed (t : json) (u u' : unit) (l : list Event) :
  print_test t u w = (Ok u', l) -> listed_test t.
Proof.
  unfold print_test.
  destruct t as [|b|n|x|str|li|d]; cbn [py_get]; try (rewrite bind_raise; discriminate).
  rewrite bind_ret.
  assert (Hname : exists name,
             (if py_truthy (dict_get_default "title" JNull d)
              then ret (dict_get_default "title" JNull d)
              else name <- ret (dict_get_default "name" JNull d) ;;
                   ret (py_or name (JStr "<unnamed>"))) w = (Ok name, [])).
  { destruct (py_truthy (dict_get_default "title" JNull d)); eexists; reflexivity. }
  destruct Hname as [name Hname]. rewrite (bind_ok _ _ _ _ _ Hname).
  cbn [py_getitem]. destruct (dict_get "id" d) as [id|] eqn:Hid.
  - intros _. now exists d, id.
  - rewrite bind_raise. discriminate.
Qed.

Lemma print_loop_listed (ts : list json) (u u' : unit) (l : list Event) :
  for_each ts print_test u w = (Ok u', l) -> Forall listed_test ts.
Proof.
  revert u l. induction ts as [|t r IH]; intros u l H; [constructor|].
  rewrite for_each_cons in H. apply bind_inv_ok in H.
  destruct H as (a & l1 & l2 & H1 & H2 & _).
  constructor; [exact (print_test_listed _ _ _ _ H1) | exact (IH _ _ H2)].
Qed.

Lemma list_and_prompt_ok (tests : json) (ts : list json) (test_name : string)
    (l : list Event) :
  list_and_prompt tests w = (Ok (ts, test_name), l) ->
  Forall listed_test ts
  /\ py_iter tests w = (Ok ts, [])
  /\ exists line, stdin w = Some line /\ test_name = str_strip line.
Proof.
  unfold list_and_prompt. intros H.
  apply bind_inv_ok in H. destruct H as (u0 & l0 & l0' & _ & H & _).
  apply bind_inv_ok in H. destruct H as (ts' & l1 & l1' & Hiter & H & _).
  apply bind_inv_ok in H. destruct H as (u1 & l2 & l2' & Hloop & H & _).
  apply bind_inv_ok in H. destruct H as (line & l3 & l3' & Hin & H & _).
  injection H as Hts Hname _. subst ts test_name.
  split; [exact (print_loop_listed _ _ _ _ Hloop)|]. split.
  - destruct tests; try discriminate Hiter; cbn in *; injection Hiter as <- _; reflexivity.
  - exists line. split; [|reflexivity].
    unfold input in Hin. destruct (stdin w); [|discriminate]. now injection Hin as ->.
Qed.

(** ** The name resolution *)

Lemma select_loop (test_name : string) (ts acc : list json) :
  Forall listed_test ts ->
  for_each ts (select_match test_name) acc w
  = (Ok (acc ++ filter (name_is test_name) ts)%list, []).
Proof.
  intros H. revert acc. induction H as [|t r (d & id & -> & _) _ IH]; intros acc.
  - cbn. now rewrite app_nil_r.
  - rewrite for_each_cons.
    assert (E : select_match test_name (JDict d) acc w
                = (Ok (if name_is test_name (JDict d) then acc ++ [JDict d] else acc)%list,
                   [])).
    { unfold select_match, name_matches, bind, py_get, ret. cbn [name_is].
      destruct (eq_str (dict_get_default "title" JNull d) test_name);
        [reflexivity|]. cbn [orb].
      now destruct (eq_str (dict_get_default "name" JNull d) test_name). }
    rewrite (bind_ok _ _ _ _ _ E), IH. cbn [fst snd app filter].
    destruct (name_is test_name (JDict d)); [|reflexivity].
    now rewrite <- app_assoc.
Qed.

Lemma filter_find {A : Type} (f : A -> bool) (l : list A) :
  match filter f l with
  | [] => find f l = None
  | x :: _ => find f l = Some x
  end.
Proof.
  induction l as [|a r IH]; [reflexivity|]. cbn. now destruct (f a).
Qed.

Lemma select_and_export_eq (client : CodilityAPIClient) (tests : json)
    (ts : list json) (test_name : string) (l : list Event) :
  list_and_prompt tests w = (Ok (ts, test_name), l) ->
  select_and_export client tests w =
  match find (name_is test_name) ts with
  | Some t =>
      (fst (export_matched client test_name t w),
       (l ++ snd (export_matched client test_name t w))%list)
  | None =>
      (Raise (SystemExit 1),
       (l ++ [Printed ("No test found with name '" ++ test_name ++ "'")])%list)
  end.
Proof.
  intros H. destruct (list_and_prompt_ok _ _ _ _ H) as (Hts & _ & _).
  unfold select_and_export. rewrite (bind_ok _ _ _ _ _ H).
  rewrite (bind_ok _ _ _ _ _ (select_loop test_name ts [] Hts)).
  cbn [app fst snd].
  pose proof (filter_find (name_is test_name) ts) as Hf.
  destruct (filter (name_is test_name) ts) as [|t r]; rewrite Hf; reflexivity.
Qed.

Lemma main_eq (client : CodilityAPIClient) (tests : json) (l : list Event) :
  reaches_selection w client tests l ->
  main w = (fst (select_and_export client tests w),
            (l ++ snd (select_and_export client tests w))%list).
Proof.
  intros (api_key & resp & Hkey & Hne & -> & Hlist & -> & Htruthy).
  assert (E0 : os_getenv "CODILITY_API_KEY" w = (Ok (Some api_key), []))
    by (unfold os_getenv; now rewrite Hkey).
  unfold main. rewrite (bind_ok _ _ _ _ _ E0). cbn [app].
  rewrite <- surjective_pairing.
  destruct api_key as [|c s]; [contradiction|].
  change (__init__ (String c s) default_base_url)
    with (@ret CodilityAPIClient (client_of (String c s))).
  rewrite bind_ret. rewrite (bind_ok _ _ _ _ _ Hlist). cbn [py_get].
  rewrite bind_ret, Htruthy. reflexivity.
Qed.

Lemma main_reaches_export (client : CodilityAPIClient) (test_name : string) (t : json)
    (l : list Event) :
  reaches_export w client test_name t l ->
  main w = (fst (export_matched client test_name t w),
            (l ++ snd (export_matched client test_name t w))%list)
  /\ no_file_events l.
Proof.
  intros (tests & ts & l1 & l2 & Hsel & Hlp & Hfind & ->). split.
  - rewrite (main_eq _ _ _ Hsel), (select_and_export_eq _ _ _ _ _ Hlp), Hfind.
    cbn [fst snd]. now rewrite app_assoc.
  - apply no_file_events_app.
    + destruct Hsel as (api_key & resp & _ & _ & _ & Hlist & _).
      pose proof (file_free_exchange w _ _ _ (list_tests_eq w client)) as H.
      unfold file_free in H. now rewrite Hlist in H.
    + pose proof (file_free_list_and_prompt tests) as H.
      unfold file_free in H. now rewrite Hlp in H.
Qed.

End Phases.

Section Sorting.

Lemma insert_sorted_perm (x : string) (l : list string) :
  Permutation (x :: l) (insert_sorted x l).
Proof.
  induction l as [|y r IH]; cbn; [reflexivity|].
  destruct (String.leb x y); [reflexivity|].
  rewrite perm_swap. now constructor.
Qed.

Lemma sorted_perm (l : list string) : Permutation l (sorted l).
Proof.
  induction l as [|x r IH]; cbn; [constructor|].
  rewrite <- insert_sorted_perm. now constructor.
Qed.

Lemma insert_sorted_hd (a x : string) (l : list string) :
  str_le a x -> HdRel str_le a l -> HdRel str_le a (insert_sorted x l).
Proof.
  intros Hax Hal. destruct l as [|y r]; cbn; [now constructor|].
  destruct (String.leb x y); constructor; [assumption|].
  now inversion Hal.
Qed.

Lemma insert_sorted_sorted (x : string) (l : list string) :
  Sorted str_le l -> Sorted str_le (insert_sorted x l).
Proof.
  induction 1 as [|y r Hr IH Hy]; cbn; [repeat constructor|].
  destruct (String.leb x y) eqn:E.
  - constructor; [now constructor|]. now constructor.
  - constructor; [exact IH|]. apply insert_sorted_hd; [|exact Hy].
    unfold str_le. destruct (String.leb_total x y) as [H|H]; [congruence|exact H].
Qed.

Lemma sorted_sorted (l : list string) : Sorted str_le (sorted l).
Proof.
  induction l as [|x r IH]; cbn; [constructor|]. now apply insert_sorted_sorted.
Qed.

End Sorting.

Section ExportRun.

Variable w : World.

Lemma bind_log_prefix {A B : Type} (m : M A) (f : A -> M B) :
  exists l2, snd (bind m f w) = (snd (m w) ++ l2)%list.
Proof.
  unfold bind. destruct (m w) as [[a|e] l1].
  - destruct (f a w) as [r l2]. now exists l2.
  - exists []. cbn. now rewrite app_nil_r.
Qed.

Lemma export_matched_first_request (client : CodilityAPIClient) (test_name : string)
    (d : dict) (test_id : json) :
  dict_get "id" d = Some test_id ->
  exists rest,
    snd (export_matched client test_name (JDict d) w)
    = Called (request client GET ("/tests/" ++ py_str test_id ++ "/sessions") None) :: rest.
Proof.
  intros Hid. unfold export_matched.
  destruct (bind_log_prefix (collect_records client (JDict d))
              (fun completed_records =>
                 match completed_records with
                 | [] => print "No completed sessions found for this test." ;; sys_exit 0
                 | first_record :: _ => write_csv test_name first_record completed_records
                 end)) as [l2 ->].
  unfold collect_records. cbn [py_getitem]. rewrite Hid, bind_ret.
  destruct (bind_log_prefix (list_test_sessions client test_id)
              (fun sessions_resp =>
                 sessions <- py_get sessions_resp "sessions" (JList []) ;;
                 sessions0 <- py_iter sessions ;;
                 for_each sessions0 (export_session client) [])) as [l3 ->].
  rewrite list_test_sessions_eq. cbn. eauto.
Qed.

Lemma write_csv_eq (test_name : string) (first_record : dict) (records : list dict) :
  write_csv test_name first_record records w =
  if writable w (csv_name test_name) then
    let header := WroteRow (map JStr (sorted (dict_keys first_record))) in
    let rows := for_each records (write_record (sorted (dict_keys first_record))) tt w in
    match fst rows with
    | Ok _ =>
        (Ok tt,
         (Opened (csv_name test_name) :: header :: snd rows
          ++ [Printed ("Exported " ++ int_repr (Z.of_nat (List.length records))
                       ++ " records to '" ++ csv_name test_name ++ "'")])%list)
    | Raise e => (Raise e, Opened (csv_name test_name) :: header :: snd rows)
    end
  else (Raise OSError, []).
Proof.
  unfold write_csv. fold (csv_name test_name).
  unfold bind at 1, open_w.
  destruct (writable w (csv_name test_name)); [|reflexivity].
  unfold bind at 1, emit at 1. unfold bind at 1.
  destruct (for_each records (write_record (sorted (dict_keys first_record))) tt w)
    as [[u|e] l]; cbn; [|reflexivity].
  now destruct u.
Qed.

Lemma export_matched_eq (client : CodilityAPIClient) (test_name : string) (t : json)
    (records : list dict) (l : list Event) :
  collect_records client t w = (Ok records, l) ->
  export_matched client test_name t w =
  match records with
  | [] => (Raise (SystemExit 0), (l ++ [Printed "No completed sessions found for this test."])%list)
  | first_record :: _ =>
      (fst (write_csv test_name first_record records w),
       (l ++ snd (write_csv test_name first_record records w))%list)
  end.
Proof.
  intros H. unfold export_matched. rewrite (bind_ok _ _ _ _ _ H).
  destruct records; reflexivity.
Qed.

Lemma list_tests_log (client : CodilityAPIClient) (r : result json) (l : list Event) :
  list_tests client w = (r, l) -> no_file_events l.
Proof.
  intros H. pose proof (file_free_exchange w _ _ _ (list_tests_eq w client)) as Hf.
  unfold file_free in Hf. now rewrite H in Hf.
Qed.

Lemma list_and_prompt_log (tests : json) (r : result (list json * string))
    (l : list Event) :
  list_and_prompt tests w = (r, l) -> no_file_events l.
Proof.
  intros H. pose proof (file_free_list_and_prompt w tests) as Hf.
  unfold file_free in Hf. now rewrite H in Hf.
Qed.

Lemma collect_records_log (client : CodilityAPIClient) (t : json)
    (r : result (list dict)) (l : list Event) :
  collect_records client t w = (r, l) -> no_file_events l.
Proof.
  intros H. pose proof (file_free_collect_records w client t) as Hf.
  unfold file_free in Hf. now rewrite H in Hf.
Qed.

(** Writing rows opens nothing. *)
Lemma write_rows_log (fieldnames : list string) (records : list dict) (u : unit) :
  files_opened (snd (for_each records (write_record fieldnames) u w)) = [].
Proof.
  revert u. induction records as [|r rs IH]; intros u; [reflexivity|].
  rewrite for_each_cons. unfold bind at 1.
  destruct (write_record fieldnames r u w) as [[u'|e] l1] eqn:E.
  - specialize (IH u').
    destruct (for_each rs (write_record fieldnames) u' w) as [r2 l2].
    cbn [snd] in *. rewrite files_opened_app, IH, app_nil_r.
    unfold write_record, bind, dict_to_list, emit, ret, raise in E.
    destruct (forallb _ _); injection E as _ <-; reflexivity.
  - cbn [snd].
    unfold write_record, bind, dict_to_list, emit, ret, raise in E.
    destruct (forallb _ _); injection E as _ <-; reflexivity.
Qed.

Lemma find_first {A : Type} (f : A -> bool) (pre post : list A) (x : A) :
  (forall y, In y pre -> f y = false) -> f x = true ->
  find f (pre ++ x :: post) = Some x.
Proof.
  intros Hpre Hx. induction pre as [|y r IH]; cbn.
  - now rewrite Hx.
  - rewrite (Hpre y (or_introl eq_refl)). apply IH. intros z Hz. apply Hpre. now right.
Qed.

Lemma find_nothing {A : Type} (f : A -> bool) (l : list A) :
  (forall y, In y l -> f y = false) -> find f l = None.
Proof.
  intros H. induction l as [|y r IH]; cbn; [reflexivity|].
  rewrite (H y (or_introl eq_refl)). apply IH. intros z Hz. apply H. now right.
Qed.

Lemma eq_str_spec (v : json) (s : string) : eq_str v s = true <-> v = JStr s.
Proof.
  destruct v; cbn; try (split; [discriminate|intros [=]]).
  rewrite String.eqb_eq. split; [now intros ->|now intros [= ->]].
Qed.

Lemma name_is_spec (test_name : string) (d : dict) :
  name_is test_name (JDict d) = true
  <-> dict_get "title" d = Some (JStr test_name)
      \/ dict_get "name" d = Some (JStr test_name).
Proof.
  cbn [name_is]. rewrite orb_true_iff, !eq_str_spec. unfold dict_get_default.
  destruct (dict_get "title" d), (dict_get "name" d);
    split; intros [H|H]; try discriminate; try (injection H as ->); auto;
    try (left; congruence); try (right; congruence).
Qed.

End ExportRun.

(** C5, as the code has it.  The name compared is not the operator's line
    but that line without its leading and trailing whitespace.  Once the
    listing is printed and the line read, [test_name] is the stripped line,
    and a test matches when its 'title' or its 'name' is the string
    [test_name].  The run goes on with the first match in list order,
    whatever comes after it: the next request asks for the sessions of that
    test's 'id'.  When no test matches, the run prints the failure, exits
    with status 1 and opens no file. *)
Theorem name_resolution (w : World) (client : CodilityAPIClient) (tests : json)
    (ts : list json) (test_name : string) (l1 l2 : list Event) :
  reaches_selection w client tests l1 ->
  list_and_prompt tests w = (Ok (ts, test_name), l2) ->
  (exists line, stdin w = Some line /\ test_name = str_strip line)
  /\ (forall d,
        name_is test_name (JDict d) = true
        <-> dict_get "title" d = Some (JStr test_name)
            \/ dict_get "name" d = Some (JStr test_name))
  /\ (forall before t after,
        ts = (before ++ t :: after)%list ->
        (forall t', In t' before -> name_is test_name t' = false) ->
        name_is test_name t = true ->
        exists d test_id rest,
          t = JDict d
          /\ dict_get "id" d = Some test_id
          /\ main w
             = (fst (export_matched client test_name t w),
                (l1 ++ l2 ++ snd (export_matched client test_name t w))%list)
          /\ snd (export_matched client test_name t w)
             = Called (request client GET ("/tests/" ++ py_str test_id ++ "/sessions") None)
               :: rest)
  /\ ((forall t, In t ts -> name_is test_name t = false) ->
      main w
      = (Raise (SystemExit 1),
         (l1 ++ l2 ++ [Printed ("No test found with name '" ++ test_name ++ "'")])%list)
      /\ exit_code (fst (main w)) = 1
      /\ files_opened (snd (main w)) = []).
Proof.
  intros Hsel Hlp.
  destruct (list_and_prompt_ok w _ _ _ _ Hlp) as (Hlisted & _ & Hline).
  pose proof (main_eq w _ _ _ Hsel) as Hmain.
  rewrite (select_and_export_eq w _ _ _ _ _ Hlp) in Hmain.
  split; [exact Hline|]. split; [intros d; apply name_is_spec|]. split.
  - intros before t after -> Hbefore Ht.
    rewrite (find_first _ _ _ _ Hbefore Ht) in Hmain. cbn [fst snd] in Hmain.
    assert (Hin : In t (before ++ t :: after)) by (apply in_elt).
    destruct (proj1 (Forall_forall _ _) Hlisted t Hin) as (d & test_id & -> & Hid).
    destruct (export_matched_first_request w client test_name d test_id Hid) as [rest Hrest].
    exists d, test_id, rest. repeat split; assumption.
  - intros Hnone. rewrite (find_nothing _ _ Hnone) in Hmain. cbn [fst snd] in Hmain.
    rewrite Hmain. cbn [fst snd exit_code]. repeat split.
    rewrite !files_opened_app. cbn [files_opened flat_map app].
    rewrite !app_nil_r.
    destruct Hsel as (api_key & resp & _ & _ & _ & Hlist & _).
    destruct (no_file_events_quiet _ (list_tests_log w _ _ _ Hlist)) as [-> _].
    destruct (no_file_events_quiet _ (list_and_prompt_log w _ _ _ Hlp)) as [-> _].
    reflexivity.
Qed.

Lemma name_resolution_witness :
  (exists rest,
      main twins
      = (fst (export_matched Scenario.client "Twin"
                (JDict [("id", JInt 2); ("title", JStr "Twin")]) twins),
         ([Called (request Scenario.client GET "/tests" None);
           Printed "Available tests:"; Printed "  1: Other"; Printed "  2: Twin";
           Printed "  3: Twin";
           Prompted (String "010" "Enter the exact name of the test to export: ");
           Called (request Scenario.client GET "/tests/2/sessions" None)]
          ++ rest)%list))
  /\ exit_code (fst (main Scenario.frontend)) = 1
  /\ files_opened (snd (main Scenario.frontend)) = [].
Proof.
  split.
  - assert (Hsel : reaches_selection twins Scenario.client
                     (JList [JDict [("id", JInt 1); ("title", JStr "Other")];
                             JDict [("id", JInt 2); ("title", JStr "Twin")];
                             JDict [("id", JInt 3); ("name", JStr "Twin")]])
                     [Called (request Scenario.client GET "/tests" None)]).
    { exists "secret". eexists.
      split; [reflexivity|]. split; [discriminate|]. split; [reflexivity|].
      split; [vm_compute; reflexivity|]. split; reflexivity. }
    assert (Hlp : list_and_prompt
                    (JList [JDict [("id", JInt 1); ("title", JStr "Other")];
                            JDict [("id", JInt 2); ("title", JStr "Twin")];
                            JDict [("id", JInt 3); ("name", JStr "Twin")]])
                    twins
                  = (Ok ([JDict [("id", JInt 1); ("title", JStr "Other")];
                          JDict [("id", JInt 2); ("title", JStr "Twin")];
                          JDict [("id", JInt 3); ("name", JStr "Twin")]],
                         "Twin"),
                     [Printed "Available tests:"; Printed "  1: Other";
                      Printed "  2: Twin"; Printed "  3: Twin";
                      Prompted
                        (String "010" "Enter the exact name of the test to export: ")])).
    { vm_compute. reflexivity. }
    destruct (name_resolution _ _ _ _ _ _ _ Hsel Hlp) as (_ & _ & Hfirst & _).
    destruct (Hfirst [JDict [("id", JInt 1); ("title", JStr "Other")]]
                (JDict [("id", JInt 2); ("title", JStr "Twin")])
                [JDict [("id", JInt 3); ("name", JStr "Twin")]] eq_refl)
      as (d & test_id & rest & Ed & Hid & Hmain & Hreq).
    { intros t' [<-|[]]. reflexivity. }
    { reflexivity. }
    injection Ed as <-. injection Hid as <-.
    exists rest. rewrite Hmain, Hreq. reflexivity.
  - assert (Hsel : exists l1, reaches_selection Scenario.frontend Scenario.client
                     (JList [JDict [("id", JInt 7); ("title", JStr "Backend Role")];
                             JDict [("id", JInt 8); ("name", JStr "Idle Role")]]) l1).
    { eexists. exists "secret". eexists.
      split; [reflexivity|]. split; [discriminate|]. split; [reflexivity|].
      split; [vm_compute; reflexivity|]. split; reflexivity. }
    destruct Hsel as [l1 Hsel].
    assert (Hlp : exists l2,
               list_and_prompt
                 (JList [JDict [("id", JInt 7); ("title", JStr "Backend Role")];
                         JDict [("id", JInt 8); ("name", JStr "Idle Role")]])
                 Scenario.frontend
               = (Ok ([JDict [("id", JInt 7); ("title", JStr "Backend Role")];
                       JDict [("id", JInt 8); ("name", JStr "Idle Role")]],
                      "Frontend Role"), l2)).
    { eexists. vm_compute. reflexivity. }
    destruct Hlp as [l2 Hlp].
    destruct (name_resolution _ _ _ _ _ _ _ Hsel Hlp) as (_ & _ & _ & Hnone).
    destruct Hnone as (_ & Hcode & Hfiles); [|split; assumption].
    intros t [<-|[<-|[]]]; reflexivity.
Defined.

(** C5 as stated fails on a line with surrounding whitespace.  The line
    "Backend Role " equals no title and no name in the list, yet the run
    does not report a failure: it takes test 7 and exports its sessions.
    The line " Backend Role" equals the title of test 9, yet the run
    finds no test and exits with status 1. *)
Lemma stripped_input_resolution :
  (stdin trailing_space = Some "Backend Role "
   /\ fst (list_tests Scenario.client trailing_space)
      = Ok (JDict [("tests",
                    JList [JDict [("id", JInt 7); ("title", JStr "Backend Role")];
                           JDict [("id", JInt 8); ("name", JStr "Idle Role")]])])
   /\ existsb (name_is "Backend Role ")
              [JDict [("id", JInt 7); ("title", JStr "Backend Role")];
               JDict [("id", JInt 8); ("name", JStr "Idle Role")]]
      = false
   /\ fst (main trailing_space) = Ok tt
   /\ In (Called (request Scenario.client GET "/tests/7/sessions" None))
         (snd (main trailing_space))
   /\ files_opened (snd (main trailing_space)) = ["Backend_Role_completed_sessions.csv"])
  /\ (stdin padded_title = Some " Backend Role"
      /\ fst (list_tests Scenario.client padded_title)
         = Ok (JDict [("tests",
                       JList [JDict [("id", JInt 9); ("title", JStr " Backend Role")]])])
      /\ name_is " Backend Role" (JDict [("id", JInt 9); ("title", JStr " Backend Role")])
         = true
      /\ main padded_title
         = (Raise (SystemExit 1),
            [Called (request Scenario.client GET "/tests" None);
             Printed "Available tests:"; Printed "  9:  Backend Role";
             Prompted (String "010" "Enter the exact name of the test to export: ");
             Printed "No test found with name 'Backend Role'"])).
Proof.
  split.
  - split; [reflexivity|]. split; [vm_compute; reflexivity|].
    split; [reflexivity|]. split; [vm_compute; reflexivity|].
    split; [|vm_compute; reflexivity].
    vm_compute. repeat (first [left; reflexivity | right]).
  - split; [reflexivity|]. split; [vm_compute; reflexivity|].
    split; [reflexivity|]. vm_compute. reflexivity.
Qed.

(** C8.  An empty result is not an error.  When the fetched test list is
    empty (or missing), [main] prints "No tests found in your account." and
    exits with status 0 without opening a file; when the loop over the
    sessions ends with no completed record, it prints "No completed sessions
    found for this test." and exits with status 0 without opening a file
    (the loop ends so when every fetch succeeds and no session passes the
    completion filter).
    Status 0 is also the status of a run that returns after an export,
    which has opened the CSV file; the fatal exits, a missing credential
    and a name without a match, have status 1. *)
Theorem empty_results_exit_zero (w : World) :
  (forall api_key resp l,
      getenv w "CODILITY_API_KEY" = Some api_key ->
      api_key <> "" ->
      list_tests (client_of api_key) w = (Ok (JDict resp), l) ->
      dict_get "tests" resp = None \/ dict_get "tests" resp = Some (JList []) ->
      main w = (Raise (SystemExit 0), (l ++ [Printed "No tests found in your account."])%list)
      /\ exit_code (fst (main w)) = 0
      /\ files_opened (snd (main w)) = [])
  /\ (forall client test_name t l sessions ls,
        reaches_export w client test_name t l ->
        sessions_of client w t sessions ls ->
        (forall sess, In sess sessions -> fetches_ok client w sess) ->
        filter (completed client w) sessions = [] ->
        exists l3,
          main w
          = (Raise (SystemExit 0),
             (l ++ l3 ++ [Printed "No completed sessions found for this test."])%list)
          /\ exit_code (fst (main w)) = 0
          /\ files_opened (snd (main w)) = [])
  /\ (forall client test_name t l first_record rest l3,
        reaches_export w client test_name t l ->
        collect_records client t w = (Ok (first_record :: rest), l3) ->
        fst (main w) = Ok tt ->
        exit_code (fst (main w)) = 0
        /\ files_opened (snd (main w)) = [csv_name test_name])
  /\ (getenv w "CODILITY_API_KEY" = None \/ getenv w "CODILITY_API_KEY" = Some "" ->
      exit_code (fst (main w)) = 1)
  /\ (forall client tests ts test_name l1 l2,
        reaches_selection w client tests l1 ->
        list_and_prompt tests w = (Ok (ts, test_name), l2) ->
        find (name_is test_name) ts = None ->
        exit_code (fst (main w)) = 1).
Proof.
  split; [|split; [|split; [|split]]].
  - intros api_key resp l Hkey Hne Hlist Htests.
    assert (E0 : os_getenv "CODILITY_API_KEY" w = (Ok (Some api_key), []))
      by (unfold os_getenv; now rewrite Hkey).
    assert (Hmain : main w = (Raise (SystemExit 0),
                              (l ++ [Printed "No tests found in your account."])%list)).
    { unfold main. rewrite (bind_ok _ _ _ _ _ E0). cbn [app].
      rewrite <- surjective_pairing.
      destruct api_key as [|c s]; [contradiction|].
      change (__init__ (String c s) default_base_url)
        with (@ret CodilityAPIClient (client_of (String c s))).
      rewrite bind_ret. rewrite (bind_ok _ _ _ _ _ Hlist). cbn [py_get].
      rewrite bind_ret. unfold dict_get_default.
      destruct Htests as [-> | ->]; reflexivity. }
    rewrite Hmain. cbn [fst snd exit_code]. repeat split.
    rewrite files_opened_app.
    destruct (no_file_events_quiet _ (list_tests_log w _ _ _ Hlist)) as [-> _].
    reflexivity.
  - intros client test_name t l sessions ls Hreach Hs Hok Hnone.
    destruct (collect_records_none client w _ _ _ Hs Hok Hnone) as [l3 Hcollect].
    exists l3.
    destruct (main_reaches_export w _ _ _ _ Hreach) as [Hmain Hl].
    rewrite (export_matched_eq w _ _ _ _ _ Hcollect) in Hmain. cbn [fst snd] in Hmain.
    rewrite Hmain. cbn [fst snd exit_code]. repeat split.
    rewrite !files_opened_app.
    destruct (no_file_events_quiet _ Hl) as [-> _].
    destruct (no_file_events_quiet _ (collect_records_log w _ _ _ _ Hcollect)) as [-> _].
    reflexivity.
  - intros client test_name t l first_record rest l3 Hreach Hcollect Hok.
    split; [now rewrite Hok|].
    destruct (main_reaches_export w _ _ _ _ Hreach) as [Hmain Hl].
    rewrite (export_matched_eq w _ _ _ _ _ Hcollect) in Hmain.
    rewrite Hmain in Hok. cbn [fst] in Hok. rewrite Hmain. cbn [snd].
    rewrite !files_opened_app.
    destruct (no_file_events_quiet _ Hl) as [-> _].
    destruct (no_file_events_quiet _ (collect_records_log w _ _ _ _ Hcollect)) as [-> _].
    cbn [app]. rewrite write_csv_eq in Hok |- *.
    destruct (writable w (csv_name test_name)); [|discriminate].
    cbv zeta in *.
    pose proof (write_rows_log w (sorted (dict_keys first_record))
                  (first_record :: rest) tt) as Hq.
    destruct (fst (for_each (first_record :: rest)
                     (write_record (sorted (dict_keys first_record))) tt w));
      [|discriminate].
    cbn [snd].
    change (files_opened (Opened (csv_name test_name) :: ?x :: ?l))
      with (csv_name test_name :: files_opened l).
    now rewrite files_opened_app, Hq.
  - intros H. rewrite (main_without_credential w H). reflexivity.
  - intros client tests ts test_name l1 l2 Hsel Hlp Hfind.
    rewrite (main_eq w _ _ _ Hsel), (select_and_export_eq w _ _ _ _ _ Hlp), Hfind.
    reflexivity.
Qed.

Lemma empty_results_exit_zero_witness :
  (exit_code (fst (main Scenario.empty_account)) = 0
   /\ files_opened (snd (main Scenario.empty_account)) = [])
  /\ (exit_code (fst (main Scenario.idle)) = 0
      /\ files_opened (snd (main Scenario.idle)) = []).
Proof.
  split.
  - destruct (proj1 (empty_results_exit_zero Scenario.empty_account)
                "secret" [("tests", JList [])]
                [Called (request (client_of "secret") GET "/tests" None)])
      as (_ & Hcode & Hfiles).
    + reflexivity.
    + discriminate.
    + vm_compute. reflexivity.
    + right. reflexivity.
    + split; assumption.
  - assert (Hreach : exists l,
               reaches_export Scenario.idle Scenario.client "Idle Role"
                 (JDict [("id", JInt 8); ("name", JStr "Idle Role")]) l).
    { eexists. eexists. eexists. eexists. eexists. split; [|split; [|split]].
      - exists "secret". eexists.
        split; [reflexivity|]. split; [discriminate|]. split; [reflexivity|].
        split; [vm_compute; reflexivity|]. split; reflexivity.
      - vm_compute. reflexivity.
      - reflexivity.
      - reflexivity. }
    destruct Hreach as [l Hreach].
    assert (Hs : exists ls,
               sessions_of Scenario.client Scenario.idle
                 (JDict [("id", JInt 8); ("name", JStr "Idle Role")])
                 [JDict [("id", JStr "B")]] ls).
    { eexists. eexists. eexists. eexists.
      split; [reflexivity|]. split; [reflexivity|].
      split; [vm_compute; reflexivity|]. reflexivity. }
    destruct Hs as [ls Hs].
    destruct (proj1 (proj2 (empty_results_exit_zero Scenario.idle))
                _ _ _ _ _ _ Hreach Hs) as (l3 & _ & Hcode & Hfiles).
    + intros sess [<-|[]]. exists (JStr "B"), Scenario.session_B.
      split; [reflexivity|]. discriminate.
    + reflexivity.
    + split; assumption.
Defined.

(** C6.  When the loop has produced at least one record and the file opens,
    the first line written is the header, and the header is the keys of the
    first record, sorted in code-point order: the same keys, each once for
    each time the record has it, and no key that only a later record has. *)
Theorem header_from_first_record (w : World) (client : CodilityAPIClient)
    (test_name : string) (t : json) (l l3 : list Event)
    (first_record : dict) (rest : list dict) :
  reaches_export w client test_name t l ->
  collect_records client t w = (Ok (first_record :: rest), l3) ->
  writable w (csv_name test_name) = true ->
  let header := sorted (dict_keys first_record) in
  hd_error (rows_written (snd (main w))) = Some (map JStr header)
  /\ Sorted str_le header
  /\ Permutation (dict_keys first_record) header
  /\ (forall key, In key header <-> In key (dict_keys first_record))
  /\ (forall later key,
        In later rest ->
        In key (dict_keys later) ->
        ~ In key (dict_keys first_record) ->
        ~ In key header).
Proof.
  intros Hreach Hcollect Hopen header.
  assert (Hin : forall key, In key header <-> In key (dict_keys first_record)).
  { intros key. split; intros H.
    - now apply (Permutation_in _ (Permutation_sym (sorted_perm _))).
    - now apply (Permutation_in _ (sorted_perm _)). }
  split; [|split; [apply sorted_sorted|split; [apply sorted_perm|split; [exact Hin|]]]].
  - destruct (main_reaches_export w _ _ _ _ Hreach) as [-> Hl].
    rewrite (export_matched_eq w _ _ _ _ _ Hcollect). cbn [snd].
    rewrite !rows_written_app.
    destruct (no_file_events_quiet _ Hl) as [_ ->].
    destruct (no_file_events_quiet _ (collect_records_log w _ _ _ _ Hcollect)) as [_ ->].
    cbn [app]. rewrite write_csv_eq, Hopen. cbv zeta.
    destruct (fst (for_each (first_record :: rest)
                     (write_record (sorted (dict_keys first_record))) tt w));
      reflexivity.
  - intros later key _ _ Hnot Hhead. apply Hnot. now apply Hin.
Qed.

Lemma header_from_first_record_witness :
  hd_error (rows_written (snd (main Scenario.backend)))
  = Some [JStr "email"; JStr "first_name"; JStr "last_name"; JStr "session_end_time";
          JStr "session_nested"; JStr "similarity_score"].
Proof.
  assert (Hreach : exists l,
             reaches_export Scenario.backend Scenario.client "Backend Role"
               (JDict [("id", JInt 7); ("title", JStr "Backend Role")]) l).
  { eexists. eexists. eexists. eexists. eexists. split; [|split; [|split]].
    - exists "secret". eexists.
      split; [reflexivity|]. split; [discriminate|]. split; [reflexivity|].
      split; [vm_compute; reflexivity|]. split; reflexivity.
    - vm_compute. reflexivity.
    - reflexivity.
    - reflexivity. }
  destruct Hreach as [l Hreach].
  assert (Hcollect : exists l3,
             collect_records Scenario.client
               (JDict [("id", JInt 7); ("title", JStr "Backend Role")]) Scenario.backend
             = (Ok [promote [("firstName", JStr "Ann"); ("lastName", JStr "Lee");
                             ("email", JStr "a@x.com")]
                            (flatten_data Scenario.session_A Scenario.similarity_A)],
                l3)).
  { eexists. vm_compute. reflexivity. }
  destruct Hcollect as [l3 Hcollect].
  exact (proj1 (header_from_first_record _ _ _ _ _ _ _ _ Hreach Hcollect eq_refl)).
Defined.

(* ================================================================== *)
(** * Further properties of the client *)
(* ================================================================== *)

Section ClientRequests.

Lemma request_of_shape (client : CodilityAPIClient) (op : Operation) :
  (exists path, url (request_of client op) = base_url client ++ String "/" path)
  /\ headers (request_of client op) = session_headers (session client)
  /\ match method (request_of client op) with
     | POST => exists payload, json_body (request_of client op) = Some (JDict payload)
     | _ => json_body (request_of client op) = None
     end.
Proof.
  destruct op; cbn [request_of request url headers method json_body];
    (split; [eexists; reflexivity | split; [reflexivity | try reflexivity; eexists; reflexivity]]).
Qed.

(** Folding [d[k] = v] over the items of a dict: the last write to a key
    wins, untouched keys keep their value. *)
Lemma dict_get_fold_set (k : string) (items acc : dict) :
  NoDup (dict_keys items) ->
  dict_get k (fold_left (fun d kv => dict_set (fst kv) (snd kv) d) items acc)
  = match dict_get k items with
    | Some v => Some v
    | None => dict_get k acc
    end.
Proof.
  revert acc. induction items as [|[k' v'] r IH]; intros acc Hnd; [reflexivity|].
  inversion Hnd as [|? ? Hk Hr]; subst.
  cbn [fold_left fst snd]. rewrite (IH _ Hr), dict_get_cons.
  destruct (String.eqb_spec k' k) as [->|Hne].
  - apply dict_get_none in Hk. rewrite Hk. apply dict_get_set_same.
  - destruct (dict_get k r); [reflexivity|].
    apply dict_get_set_other. now apply not_eq_sym.
Qed.

Lemma fold_set_keys_head (k : string) (v : json) (items acc : dict) :
  exists v' rest,
    fold_left (fun d kv => dict_set (fst kv) (snd kv) d) items ((k, v) :: acc)
    = (k, v') :: rest.
Proof.
  revert v acc. induction items as [|[k' x] r IH]; intros v acc;
    [now exists v, acc|].
  cbn [fold_left fst snd dict_set].
  destruct (String.eqb k k'); apply IH.
Qed.

End ClientRequests.

(** X1.  A client built by [__init__] stores a base URL that does not end
    with '/', and every one of its operations calls the session exactly
    once: with the URL made of the stored base URL and a path that begins
    with '/', on a session whose headers, as the constructor set them, are
    'Authorization: Bearer ' + credential and 'Content-Type:
    application/json', and with a JSON object as payload when the verb is
    POST and no payload otherwise.  This is what the client hands to
    [requests]; whether [requests] accepts it and what it sends for it is
    not the client's doing. *)
Theorem constructed_client_requests (api_key base_url : string) (w : World) :
  exists client,
    __init__ api_key base_url w = (Ok client, [])
    /\ ~ ends_with "/" (api_calls.base_url client)
    /\ forall op w',
         exists r path,
           snd (perform client op w') = [Called r]
           /\ url r = api_calls.base_url client ++ String "/" path
           /\ headers r = [("Authorization", "Bearer " ++ api_key);
                           ("Content-Type", "application/json")]
           /\ match method r with
              | POST => exists payload, json_body r = Some (JDict payload)
              | _ => json_body r = None
              end.
Proof.
  eexists. split; [reflexivity|]. split; [apply str_rstrip_clean|].
  intros op w'.
  destruct (request_of_shape
              {| base_url := str_rstrip "/" base_url;
                 session := {| session_headers :=
                                 [("Authorization", "Bearer " ++ api_key);
                                  ("Content-Type", "application/json")] |} |} op)
    as ([path Hurl] & Hheaders & Hbody).
  eexists. exists path. rewrite perform_exchange. unfold exchange. cbn [snd].
  split; [reflexivity|]. split; [exact Hurl|]. split; [exact Hheaders|exact Hbody].
Qed.

(** X2.  The payload of [create_codelive_session] is the candidate info
    with 'template_id' put first: a 'template_id' inside the candidate info
    replaces the argument, every other key is sent as given, and the call
    sends that one POST request. *)
Theorem codelive_payload_merge (client : CodilityAPIClient) (template_id : json)
    (candidate_info : dict) (w : World) :
  dict_ok candidate_info ->
  exists payload first rest,
    snd (create_codelive_session client template_id candidate_info w)
    = [Called (request client POST "/codelive/sessions" (Some (JDict payload)))]
    /\ payload = ("template_id", first) :: rest
    /\ dict_get "template_id" payload
       = Some (dict_get_default "template_id" template_id candidate_info)
    /\ (forall key,
          key <> "template_id" ->
          dict_get key payload = dict_get key candidate_info).
Proof.
  intros Hok.
  destruct (fold_set_keys_head "template_id" template_id candidate_info [])
    as (first & rest & Hhead).
  eexists. exists first, rest.
  split; [|split; [exact Hhead|split]].
  - assert (E : create_codelive_session client template_id candidate_info w
               = exchange body_json
                   (request_of client (CreateCodeliveSession template_id candidate_info)) w)
      by apply send_then_json.
    rewrite E. reflexivity.
  - rewrite (dict_get_fold_set _ _ _ Hok). unfold dict_get_default.
    now destruct (dict_get "template_id" candidate_info).
  - intros key Hkey. rewrite (dict_get_fold_set _ _ _ Hok).
    destruct (dict_get key candidate_info); [reflexivity|].
    rewrite dict_get_cons. apply not_eq_sym, String.eqb_neq in Hkey.
    now rewrite Hkey.
Qed.

Lemma codelive_payload_merge_witness :
  exists payload first rest,
    snd (create_codelive_session Scenario.client (JStr "T1")
           [("email", JStr "a@x.com"); ("template_id", JStr "T2")] Scenario.backend)
    = [Called (request Scenario.client POST "/codelive/sessions" (Some (JDict payload)))]
    /\ payload = ("template_id", first) :: rest
    /\ dict_get "template_id" payload
       = Some (dict_get_default "template_id" (JStr "T1")
                 [("email", JStr "a@x.com"); ("template_id", JStr "T2")])
    /\ (forall key,
          key <> "template_id" ->
          dict_get key payload
          = dict_get key [("email", JStr "a@x.com"); ("template_id", JStr "T2")]).
Proof.
  apply (codelive_payload_merge Scenario.client (JStr "T1")
           [("email", JStr "a@x.com"); ("template_id", JStr "T2")] Scenario.backend).
  repeat constructor; simpl; intuition discriminate.
Defined.

(* ================================================================== *)
(** * Further properties of the session loop *)
(* ================================================================== *)

(** The requests the loop body sends for [sess]: the detail request and,
    for a completed session, the similarity request. *)
Definition session_requests (client : CodilityAPIClient) (w : World) (sess : json)
  : list Event :=
  match sess with
  | JDict s =>
      let session_id := dict_get_default "id" JNull s in
      Called (request client GET ("/sessions/" ++ py_str session_id) None)
      :: (if completed client w sess
          then [Called (request client GET
                        ("/sessions/" ++ py_str session_id ++ "/similarity") None)]
          else [])
  | _ => []
  end.

Section LoopRequests.

Variable client : CodilityAPIClient.
Variable w : World.

Lemma get_session_data_log (session_id : json) :
  snd (get_session_data client session_id w)
  = [Called (request client GET ("/sessions/" ++ py_str session_id) None)].
Proof. now rewrite get_session_data_eq. Qed.

Lemma build_record_log (session_id : json) (d : dict) :
  snd (build_record client session_id (JDict d) w)
  = [Called (request client GET ("/sessions/" ++ py_str session_id ++ "/similarity") None)].
Proof.
  rewrite build_record_eq.
  pose proof (get_similarity_results_eq w client session_id) as E.
  destruct (get_similarity_results client session_id w) as [[similarity|e] log].
  - unfold exchange in E. injection E as _ ->.
    destruct similarity; try reflexivity.
    destruct (dict_get_default "candidate" (JDict []) d); reflexivity.
  - unfold exchange in E. now injection E as _ ->.
Qed.

(** One pass of the loop body that returns: what it sent and how the
    records grew. *)
Lemma export_session_log (sess : json) (acc acc' : list dict) (l : list Event) :
  export_session client sess acc w = (Ok acc', l) ->
  l = session_requests client w sess
  /\ (List.length l + List.length acc = 1 + List.length acc')%nat.
Proof.
  rewrite export_session_eq. unfold session_requests, completed, fetched_detail.
  destruct sess as [|b|n|x|str|li|s]; try discriminate. cbv zeta.
  pose proof (get_session_data_log (dict_get_default "id" JNull s)) as Hl1.
  pose proof (build_record_log (dict_get_default "id" JNull s)) as Hl2.
  destruct (get_session_data client (dict_get_default "id" JNull s) w) as [[data|e] l1];
    [|discriminate].
  cbn [snd fst] in *. subst l1.
  destruct data as [|b|n|x|str|li|d]; try discriminate.
  rewrite has_completion_marker_truthy. specialize (Hl2 d).
  destruct (py_truthy (dict_get_default "end_time" JNull d)).
  - destruct (build_record client (dict_get_default "id" JNull s) (JDict d) w)
      as [[record|e] l2]; [|discriminate].
    cbn [snd] in Hl2. subst l2. intros [= <- <-]. split; [reflexivity|].
    rewrite length_app. cbn. lia.
  - intros [= <- <-]. split; [reflexivity|]. cbn. lia.
Qed.

Lemma loop_log (sessions : list json) (acc records : list dict) (log : list Event) :
  for_each sessions (export_session client) acc w = (Ok records, log) ->
  log = flat_map (session_requests client w) sessions
  /\ (List.length log + List.length acc
      = List.length sessions + List.length records)%nat.
Proof.
  revert acc log. induction sessions as [|sess rest IH]; intros acc log H.
  - injection H as <- <-. auto.
  - rewrite for_each_cons in H. apply bind_inv_ok in H.
    destruct H as (acc' & l1 & l2 & H1 & H2 & ->).
    apply export_session_log in H1. destruct H1 as [-> Hlen1].
    apply IH in H2. destruct H2 as [-> Hlen2].
    split; [reflexivity|]. rewrite length_app. cbn [List.length]. lia.
Qed.

Lemma for_each_app {A S : Type} (l1 l2 : list A) (body : A -> S -> M S) (acc : S) :
  for_each (l1 ++ l2) body acc w
  = bind (for_each l1 body acc) (fun acc' => for_each l2 body acc') w.
Proof.
  revert acc. induction l1 as [|x r IH]; intros acc.
  - cbn [app for_each]. now rewrite bind_ret.
  - cbn [app]. rewrite !for_each_cons.
    destruct (body x acc w) as [[acc'|e] la] eqn:E.
    + rewrite (bind_ok _ _ _ _ _ E), IH.
      assert (E1 : bind (body x acc) (fun acc'0 => for_each r body acc'0) w
                   = (fst (for_each r body acc' w),
                      (la ++ snd (for_each r body acc' w))%list))
        by exact (bind_ok _ _ _ _ _ E).
      destruct (for_each r body acc' w) as [[acc''|e] lb] eqn:E2; cbn [fst snd] in E1.
      * rewrite (bind_ok _ _ _ _ _ E2), (bind_ok _ _ _ _ _ E1). cbn [fst snd].
        now rewrite app_assoc.
      * rewrite (bind_fail _ _ _ _ _ E2), (bind_fail _ _ _ _ _ E1). reflexivity.
    + rewrite (bind_fail _ _ _ _ _ E).
      assert (E1 : bind (body x acc) (fun acc'0 => for_each r body acc'0) w
                   = (Raise e, la)) by exact (bind_fail _ _ _ _ _ E).
      now rewrite (bind_fail _ _ _ _ _ E1).
Qed.

(** A detail fetch answered with an error status ends the loop body with
    the HTTP failure, after that one request. *)
Lemma export_session_http_error (s : dict) (acc : list dict) (response : Response) :
  session_request w (request client GET
                 ("/sessions/" ++ py_str (dict_get_default "id" JNull s)) None)
  = Answered response ->
  is_error_status (status_code response) = true ->
  export_session client (JDict s) acc w
  = (Raise (HTTPError (status_code response) (content response)),
     [Called (request client GET
              ("/sessions/" ++ py_str (dict_get_default "id" JNull s)) None)]).
Proof.
  intros Ht Herr. rewrite export_session_eq. cbv zeta.
  rewrite get_session_data_eq. unfold exchange. now rewrite Ht, Herr.
Qed.

End LoopRequests.

(** X3.  When the loop over the sessions returns, the requests it has sent
    are, session by session in list order, the detail request and, only
    for a session that passed the completion filter, the similarity
    request: one request per session plus one per record, and one record
    per session that passed the filter. *)
Theorem loop_requests (client : CodilityAPIClient) (w : World)
    (sessions : list json) (records : list dict) (log : list Event) :
  for_each sessions (export_session client) [] w = (Ok records, log) ->
  log = flat_map (session_requests client w) sessions
  /\ List.length log = (List.length sessions + List.length records)%nat
  /\ List.length records = List.length (filter (completed client w) sessions).
Proof.
  intros H. destruct (loop_log client w _ _ _ _ H) as [Hlog Hlen].
  split; [exact Hlog|]. split; [cbn in Hlen; lia|].
  destruct (loop_records client w _ _ _ _ H) as (rows & -> & HF).
  symmetry. exact (Forall2_length HF).
Qed.

Lemma loop_requests_witness :
  List.length
    (snd (for_each [JDict [("id", JStr "A")]; JDict [("id", JStr "B")]]
            (export_session Scenario.client) [] Scenario.backend))
  = 3%nat.
Proof.
  destruct (for_each [JDict [("id", JStr "A")]; JDict [("id", JStr "B")]]
              (export_session Scenario.client) [] Scenario.backend)
    as [r log] eqn:E.
  assert (Hr : r = Ok [promote [("firstName", JStr "Ann"); ("lastName", JStr "Lee");
                                ("email", JStr "a@x.com")]
                               (flatten_data Scenario.session_A Scenario.similarity_A)]).
  { apply (f_equal fst) in E. cbn [fst] in E. rewrite <- E. vm_compute. reflexivity. }
  subst r.
  destruct (loop_requests _ _ _ _ _ E) as (_ & Hlen & _). exact Hlen.
Defined.

(** X4.  A failing fetch is fatal.  When the detail request of a session
    is answered with an error status (400..599), after the sessions before
    it were fetched, [main] ends with that HTTP failure: exit status 1, no
    file opened, and the failed request is the last thing it did; the
    sessions after it are never requested and the records collected so far
    are dropped. *)
Theorem failed_detail_fetch_aborts (w : World) (client : CodilityAPIClient)
    (test_name : string) (t : json) (l ls : list Event)
    (before after : list json) (s : dict) (response : Response) :
  reaches_export w client test_name t l ->
  sessions_of client w t (before ++ JDict s :: after) ls ->
  (forall sess, In sess before -> fetches_ok client w sess) ->
  session_request w (request client GET
                 ("/sessions/" ++ py_str (dict_get_default "id" JNull s)) None)
  = Answered response ->
  is_error_status (status_code response) = true ->
  main w
  = (Raise (HTTPError (status_code response) (content response)),
     (l ++ ls ++ flat_map (session_requests client w) before
      ++ [Called (request client GET
                  ("/sessions/" ++ py_str (dict_get_default "id" JNull s)) None)])%list)
  /\ exit_code (fst (main w)) = 1
  /\ files_opened (snd (main w)) = [].
Proof.
  intros Hreach Hs Hok Ht Herr.
  destruct (main_reaches_export w _ _ _ _ Hreach) as [Hmain Hl].
  destruct (loop_progress client w before [] Hok) as (records & lb & Eb).
  destruct (loop_log client w _ _ _ _ Eb) as [Hlb _].
  assert (Eloop : for_each (before ++ JDict s :: after) (export_session client) [] w
                  = (Raise (HTTPError (status_code response) (content response)),
                     (lb ++ [Called (request client GET
                                     ("/sessions/"
                                      ++ py_str (dict_get_default "id" JNull s)) None)])%list)).
  { rewrite for_each_app, (bind_ok _ _ _ _ _ Eb), for_each_cons.
    rewrite (bind_fail _ _ _ _ _ (export_session_http_error client w s records _ Ht Herr)).
    reflexivity. }
  assert (Ecollect : collect_records client t w
                     = (Raise (HTTPError (status_code response) (content response)),
                        (ls ++ lb
                         ++ [Called (request client GET
                                     ("/sessions/"
                                      ++ py_str (dict_get_default "id" JNull s)) None)])%list)).
  { rewrite (collect_records_eq client w _ _ _ Hs), Eloop. reflexivity. }
  assert (Eexport : export_matched client test_name t w
                    = (Raise (HTTPError (status_code response) (content response)),
                       (ls ++ lb
                        ++ [Called (request client GET
                                    ("/sessions/"
                                     ++ py_str (dict_get_default "id" JNull s)) None)])%list)).
  { unfold export_matched. now rewrite (bind_fail _ _ _ _ _ Ecollect). }
  rewrite Eexport in Hmain. cbn [fst snd] in Hmain. subst lb.
  rewrite Hmain. cbn [fst snd exit_code]. split; [reflexivity|]. split; [reflexivity|].
  rewrite files_opened_app.
  destruct (no_file_events_quiet _ Hl) as [-> _].
  destruct (no_file_events_quiet _ (collect_records_log w _ _ _ _ Ecollect)) as [Hq _].
  exact Hq.
Qed.

(** X5.  A session entry without an 'id' is neither skipped nor refused:
    [sess.get('id')] is [None], and the loop body requests the detail of
    '/sessions/None'. *)
Theorem session_without_id_requests_none (client : CodilityAPIClient) (w : World)
    (s : dict) (completed_records : list dict) :
  dict_get "id" s = None ->
  exists rest,
    snd (export_session client (JDict s) completed_records w)
    = Called (request client GET "/sessions/None" None) :: rest.
Proof.
  intros Hid.
  assert (Hnone : dict_get_default "id" JNull s = JNull)
    by (unfold dict_get_default; now rewrite Hid).
  rewrite export_session_eq. cbv zeta. rewrite Hnone.
  pose proof (get_session_data_log client w JNull) as Hl1.
  destruct (get_session_data client JNull w) as [[data|e] l1]; cbn [snd] in Hl1; subst l1.
  - destruct data; try (eexists; reflexivity).
    destruct (py_truthy (dict_get_default "end_time" JNull d)); [|eexists; reflexivity].
    destruct (build_record client JNull (JDict d) w) as [[record|e] l2];
      eexists; reflexivity.
  - eexists. reflexivity.
Qed.

(** Session A is followed by a session Z whose detail request is answered
    with 404. *)
Definition outage_serve (r : Request) : Reply :=
  if String.eqb (url r) "https://codility.com/api/tests/7/sessions" then
    Answered (Scenario.json_response
                (JDict [("sessions", JList [JDict [("id", JStr "A")];
                                            JDict [("id", JStr "Z")];
                                            JDict [("id", JStr "C")]])]))
  else Scenario.serve r.

Definition outage : World :=
  {| getenv := fun n => if String.eqb n "CODILITY_API_KEY" then Some "secret" else None;
     session_request := outage_serve;
     stdin := Some "Backend Role";
     writable := fun _ => true |}.

Lemma failed_detail_fetch_aborts_witness :
  exit_code (fst (main outage)) = 1 /\ files_opened (snd (main outage)) = [].
Proof.
  assert (Hreach : exists l,
             reaches_export outage Scenario.client "Backend Role"
               (JDict [("id", JInt 7); ("title", JStr "Backend Role")]) l).
  { eexists. eexists. eexists. eexists. eexists. split; [|split; [|split]].
    - exists "secret". eexists.
      split; [reflexivity|]. split; [discriminate|]. split; [reflexivity|].
      split; [vm_compute; reflexivity|]. split; reflexivity.
    - vm_compute. reflexivity.
    - reflexivity.
    - reflexivity. }
  destruct Hreach as [l Hreach].
  assert (Hs : exists ls,
             sessions_of Scenario.client outage
               (JDict [("id", JInt 7); ("title", JStr "Backend Role")])
               ([JDict [("id", JStr "A")]] ++ JDict [("id", JStr "Z")]
                :: [JDict [("id", JStr "C")]]) ls).
  { eexists. eexists. eexists. eexists.
    split; [reflexivity|]. split; [reflexivity|].
    split; [vm_compute; reflexivity|]. reflexivity. }
  destruct Hs as [ls Hs].
  destruct (failed_detail_fetch_aborts outage Scenario.client "Backend Role" _ l ls
              _ _ _ Scenario.not_found Hreach Hs) as (_ & Hcode & Hfiles).
  - intros sess [<-|[]]. exists (JStr "A"), Scenario.session_A.
    split; [reflexivity|]. intros _. eexists. vm_compute. reflexivity.
  - reflexivity.
  - reflexivity.
  - split; assumption.
Defined.

Lemma session_without_id_requests_none_witness :
  exists rest,
    snd (export_session Scenario.client (JDict [("candidate", JNull)]) [] Scenario.backend)
    = Called (request Scenario.client GET "/sessions/None" None) :: rest.
Proof.
  apply (session_without_id_requests_none Scenario.client Scenario.backend
           [("candidate", JNull)] []).
  reflexivity.
Defined.

(* ================================================================== *)
(** * Further properties of the rows *)
(* ================================================================== *)

Section RowValues.

Lemma dict_set_in (k : string) (v : json) (d : dict) (k' : string) (v' : json) :
  In (k', v') (dict_set k v d) -> (k', v') = (k, v) \/ In (k', v') d.
Proof.
  induction d as [|[k0 v0] r IH]; cbn [dict_set].
  - intros [H|[]]. left. now symmetry.
  - destruct (String.eqb_spec k0 k) as [->|Hne].
    + intros [H|H]; [left; now symmetry|right; now right].
    + intros [H|H]; [right; now left|].
      destruct (IH H); [now left|right; now right].
Qed.

Lemma session_fold_scalar (s acc : dict) :
  Forall (fun kv => is_container (snd kv) = false) acc ->
  Forall (fun kv => is_container (snd kv) = false) (fold_left session_step s acc).
Proof.
  revert acc. induction s as [|[k v] r IH]; intros acc Hacc; [assumption|].
  cbn [fold_left]. apply IH. unfold session_step.
  destruct (String.eqb k "candidate"); [assumption|].
  apply Forall_forall. intros [k' v'] Hin. apply dict_set_in in Hin.
  destruct Hin as [[= -> ->]|Hin]; [apply dumps_if_nested_scalar|].
  exact (proj1 (Forall_forall _ _) Hacc _ Hin).
Qed.

Lemma similarity_fold_scalar (m acc : dict) :
  Forall (fun kv => is_container (snd kv) = false) acc ->
  Forall (fun kv => is_container (snd kv) = false) (fold_left similarity_step m acc).
Proof.
  revert acc. induction m as [|[k v] r IH]; intros acc Hacc; [assumption|].
  cbn [fold_left]. apply IH. unfold similarity_step.
  apply Forall_forall. intros [k' v'] Hin. apply dict_set_in in Hin.
  destruct Hin as [[= -> ->]|Hin]; [apply dumps_if_nested_scalar|].
  exact (proj1 (Forall_forall _ _) Hacc _ Hin).
Qed.

Lemma flatten_data_scalar (s m : dict) (key : string) (value : json) :
  In (key, value) (flatten_data s m) -> is_container value = false.
Proof.
  intros Hin. rewrite flatten_data_fold in Hin.
  assert (H : Forall (fun kv => is_container (snd kv) = false)
                     (fold_left similarity_step m (fold_left session_step s [])))
    by (apply similarity_fold_scalar, session_fold_scalar; constructor).
  exact (proj1 (Forall_forall _ _) H _ Hin).
Qed.

End RowValues.

(** X6.  In a row the loop builds, whatever the two fetched mappings hold,
    a dict or list value can only sit in 'first_name', 'last_name' or
    'email': every flattened field is a scalar or JSON text, while the
    three candidate fields are copied as they are, nested or not. *)
Theorem row_nested_only_in_candidate_columns (client : CodilityAPIClient)
    (session_id data : json) (w : World) (record : dict) :
  fst (build_record client session_id data w) = Ok record ->
  (forall key value,
      In (key, value) record ->
      is_container value = true ->
      In key ["first_name"; "last_name"; "email"])
  /\ exists d candidate,
       data = JDict d
       /\ dict_get_default "candidate" (JDict []) d = JDict candidate
       /\ (forall value, dict_get "firstName" candidate = Some value ->
                         dict_get "first_name" record = Some value)
       /\ (forall value, dict_get "lastName" candidate = Some value ->
                         dict_get "last_name" record = Some value)
       /\ (forall value, dict_get "email" candidate = Some value ->
                         dict_get "email" record = Some value).
Proof.
  intros H. apply build_record_dict in H.
  destruct H as (d & sim & candidate & -> & _ & Hcand & ->). split.
  - intros key value Hin Hnested. rewrite promote_appends in Hin.
    apply in_app_or in Hin. destruct Hin as [Hin|Hin].
    + apply flatten_data_scalar in Hin. congruence.
    + cbn in Hin. cbn.
      destruct Hin as [[= <- _]|[[= <- _]|[[= <- _]|[]]]]; auto.
  - exists d, candidate. split; [reflexivity|]. split; [exact Hcand|].
    destruct (dict_get_promote candidate (flatten_data d sim)) as (H1 & H2 & H3).
    rewrite H1, H2, H3. unfold dict_get_default.
    repeat split; intros value ->; reflexivity.
Qed.

Lemma row_nested_only_in_candidate_columns_witness :
  dict_get "first_name"
    (promote [("firstName", JList [JStr "Ann"; JStr "B."])]
       (flatten_data
          [("end_time", JStr "2024-05-05");
           ("candidate", JDict [("firstName", JList [JStr "Ann"; JStr "B."])])]
          []))
  = Some (JList [JStr "Ann"; JStr "B."]).
Proof.
  destruct (row_nested_only_in_candidate_columns Scenario.client (JStr "C")
              (JDict [("end_time", JStr "2024-05-05");
                      ("candidate", JDict [("firstName", JList [JStr "Ann"; JStr "B."])])])
              Scenario.backend
              (promote [("firstName", JList [JStr "Ann"; JStr "B."])]
                 (flatten_data
                    [("end_time", JStr "2024-05-05");
                     ("candidate",
                      JDict [("firstName", JList [JStr "Ann"; JStr "B."])])]
                    []))
              eq_refl)
    as (_ & d & candidate & Hd & Hc & Hfirst & _).
  injection Hd as <-. apply Hfirst.
  cbv in Hc. injection Hc as <-. reflexivity.
Defined.

(* ================================================================== *)
(** * Further properties of the listing *)
(* ================================================================== *)

(** [t.get('title') or t.get('name') or '<unnamed>']. *)
Definition display_name (d : dict) : json :=
  py_or (dict_get_default "title" JNull d)
        (py_or (dict_get_default "name" JNull d) (JStr "<unnamed>")).

(** The line the listing prints for a test. *)
Definition listing_line (t : json) : string :=
  match t with
  | JDict d =>
      "  " ++ py_str (dict_get_default "id" JNull d) ++ ": " ++ py_str (display_name d)
  | _ => ""
  end.

Definition name_prompt : string :=
  String "010" "Enter the exact name of the test to export: ".

Section Listing.

Variable w : World.

Lemma print_test_eq (d : dict) (u : unit) :
  print_test (JDict d) u w =
  match dict_get "id" d with
  | Some _ => (Ok tt, [Printed (listing_line (JDict d))])
  | None => (Raise (KeyError "id"), [])
  end.
Proof.
  unfold print_test. cbn [py_get]. rewrite bind_ret.
  assert (Hname : (if py_truthy (dict_get_default "title" JNull d)
                   then ret (dict_get_default "title" JNull d)
                   else name <- ret (dict_get_default "name" JNull d) ;;
                        ret (py_or name (JStr "<unnamed>"))) w
                  = (Ok (display_name d), [])).
  { destruct (py_truthy (dict_get_default "title" JNull d)) eqn:E;
      unfold display_name, py_or; rewrite E; reflexivity. }
  rewrite (bind_ok _ _ _ _ _ Hname). cbn [py_getitem listing_line].
  destruct (dict_get "id" d) as [id|] eqn:Hid; [|now rewrite bind_raise].
  rewrite bind_ret. unfold dict_get_default at 1. now rewrite Hid.
Qed.

Lemma print_loop_eq (ts : list json) (u : unit) :
  Forall listed_test ts ->
  for_each ts print_test u w = (Ok tt, map (fun t => Printed (listing_line t)) ts).
Proof.
  intros H. revert u. induction H as [|t r (d & id & -> & Hid) _ IH]; intros u.
  - now destruct u.
  - rewrite for_each_cons.
    assert (E : print_test (JDict d) u w = (Ok tt, [Printed (listing_line (JDict d))]))
      by (rewrite print_test_eq; now rewrite Hid).
    rewrite (bind_ok _ _ _ _ _ E), IH. reflexivity.
Qed.

Lemma print_loop_missing_id (before after : list json) (d : dict) (u : unit) :
  Forall listed_test before ->
  dict_get "id" d = None ->
  for_each (before ++ JDict d :: after) print_test u w
  = (Raise (KeyError "id"), map (fun t => Printed (listing_line t)) before).
Proof.
  intros Hb Hid. rewrite for_each_app, (bind_ok _ _ _ _ _ (print_loop_eq before u Hb)).
  rewrite for_each_cons.
  assert (E : print_test (JDict d) tt w = (Raise (KeyError "id"), []))
    by (rewrite print_test_eq; now rewrite Hid).
  rewrite (bind_fail _ _ _ _ _ E). cbn [fst snd]. now rewrite app_nil_r.
Qed.

End Listing.

(** X7.  For tests that each are a dict with an 'id', the listing prints
    "Available tests:" and then, in list order, one line "  <id>: <name>"
    per test, where <name> is the title if it is truthy, else the name if
    it is truthy, else '<unnamed>'; then it prompts.  With a line to read
    it returns the tests and the line stripped; at end of input it raises
    EOFError after the prompt. *)
Theorem listing_and_prompt (ts : list json) (w : World) :
  Forall listed_test ts ->
  list_and_prompt (JList ts) w
  = (match stdin w with
     | Some line => Ok (ts, str_strip line)
     | None => Raise EOFError
     end,
     (Printed "Available tests:"
      :: map (fun t => Printed (listing_line t)) ts ++ [Prompted name_prompt])%list)
  /\ (forall d,
        (py_truthy (dict_get_default "title" JNull d) = true ->
         display_name d = dict_get_default "title" JNull d)
        /\ (py_truthy (dict_get_default "title" JNull d) = false ->
            py_truthy (dict_get_default "name" JNull d) = true ->
            display_name d = dict_get_default "name" JNull d)
        /\ (py_truthy (dict_get_default "title" JNull d) = false ->
            py_truthy (dict_get_default "name" JNull d) = false ->
            display_name d = JStr "<unnamed>")).
Proof.
  intros H. split.
  - unfold list_and_prompt.
    assert (E0 : print "Available tests:" w = (Ok tt, [Printed "Available tests:"]))
      by reflexivity.
    rewrite (bind_ok _ _ _ _ _ E0). cbn [py_iter]. rewrite bind_ret.
    rewrite (bind_ok _ _ _ _ _ (print_loop_eq w ts tt H)).
    unfold bind, input, ret, name_prompt. cbn [fst snd].
    destruct (stdin w); cbn [fst snd app]; reflexivity.
  - intros d. unfold display_name, py_or. repeat split.
    + now intros ->.
    + now intros -> ->.
    + now intros -> ->.
Qed.

Lemma listing_and_prompt_witness :
  snd (list_and_prompt
         (JList [JDict [("id", JInt 7); ("title", JStr ""); ("name", JStr "Backend")];
                 JDict [("id", JStr "t8")]])
         Scenario.backend)
  = [Printed "Available tests:"; Printed "  7: Backend"; Printed "  t8: <unnamed>";
     Prompted name_prompt].
Proof.
  rewrite (proj1 (listing_and_prompt
                    [JDict [("id", JInt 7); ("title", JStr ""); ("name", JStr "Backend")];
                     JDict [("id", JStr "t8")]]
                    Scenario.backend
                    ltac:(repeat constructor; eexists; eexists; split; reflexivity))).
  reflexivity.
Defined.

(** X8.  A test without an 'id' stops the run in the listing: the tests
    before it are printed, then [main] ends with KeyError 'id', exit status
    1, before the operator is prompted and without opening a file. *)
Theorem listing_missing_id_aborts (w : World) (client : CodilityAPIClient)
    (before after : list json) (d : dict) (l1 : list Event) :
  reaches_selection w client (JList (before ++ JDict d :: after)) l1 ->
  Forall listed_test before ->
  dict_get "id" d = None ->
  main w
  = (Raise (KeyError "id"),
     (l1 ++ Printed "Available tests:"
         :: map (fun t => Printed (listing_line t)) before)%list)
  /\ exit_code (fst (main w)) = 1
  /\ files_opened (snd (main w)) = []
  /\ ~ In (Prompted name_prompt) (snd (main w)).
Proof.
  intros Hsel Hb Hid.
  assert (E : list_and_prompt (JList (before ++ JDict d :: after)) w
              = (Raise (KeyError "id"),
                 Printed "Available tests:"
                 :: map (fun t => Printed (listing_line t)) before)).
  { unfold list_and_prompt.
    assert (E0 : print "Available tests:" w = (Ok tt, [Printed "Available tests:"]))
      by reflexivity.
    rewrite (bind_ok _ _ _ _ _ E0). cbn [py_iter]. rewrite bind_ret.
    rewrite (bind_fail _ _ _ _ _ (print_loop_missing_id w before after d tt Hb Hid)).
    reflexivity. }
  assert (Hmain : main w
                  = (Raise (KeyError "id"),
                     (l1 ++ Printed "Available tests:"
                         :: map (fun t => Printed (listing_line t)) before)%list)).
  { rewrite (main_eq w _ _ _ Hsel). unfold select_and_export.
    now rewrite (bind_fail _ _ _ _ _ E). }
  rewrite Hmain. cbn [fst snd exit_code].
  destruct Hsel as (api_key & resp & _ & _ & _ & Hlist & _).
  pose proof (list_tests_log w _ _ _ Hlist) as Hq1.
  pose proof (list_and_prompt_log w _ _ _ E) as Hq2.
  repeat split.
  - rewrite files_opened_app.
    destruct (no_file_events_quiet _ Hq1) as [-> _].
    destruct (no_file_events_quiet _ Hq2) as [-> _]. reflexivity.
  - intros Hin. apply in_app_or in Hin. destruct Hin as [Hin|Hin].
    + rewrite list_tests_eq in Hlist. unfold exchange in Hlist.
      injection Hlist as _ <-. destruct Hin as [Hin|[]]. discriminate.
    + destruct Hin as [Hin|Hin]; [discriminate|].
      apply in_map_iff in Hin. destruct Hin as (t & Ht & _). discriminate.
Qed.

(** An account whose second test has no 'id'. *)
Definition no_id_account : World :=
  {| getenv := fun n => if String.eqb n "CODILITY_API_KEY" then Some "secret" else None;
     session_request := fun _ =>
       Answered (Scenario.json_response
                   (JDict [("tests", JList [JDict [("id", JInt 1); ("title", JStr "A")];
                                            JDict [("title", JStr "B")]])]));
     stdin := Some "B";
     writable := fun _ => true |}.

Lemma listing_missing_id_aborts_witness :
  main no_id_account
  = (Raise (KeyError "id"),
     [Called (request Scenario.client GET "/tests" None);
      Printed "Available tests:"; Printed "  1: A"]).
Proof.
  assert (Hsel : exists l1,
             reaches_selection no_id_account Scenario.client
               (JList ([JDict [("id", JInt 1); ("title", JStr "A")]]
                       ++ JDict [("title", JStr "B")] :: [])) l1
             /\ l1 = [Called (request Scenario.client GET "/tests" None)]).
  { eexists. split; [|reflexivity]. exists "secret". eexists.
    split; [reflexivity|]. split; [discriminate|]. split; [reflexivity|].
    split; [vm_compute; reflexivity|]. split; reflexivity. }
  destruct Hsel as (l1 & Hsel & ->).
  destruct (listing_missing_id_aborts _ _ _ _ _ _ Hsel) as (Hmain & _).
  - repeat constructor. eexists. eexists. split; reflexivity.
  - reflexivity.
  - exact Hmain.
Defined.

(* ================================================================== *)
(** * Further properties of the CSV file *)
(* ================================================================== *)

(** The cells of a record under the header: the value of each column, ''
    where the record has no such key. *)
Definition row_cells (fieldnames : list string) (rowdict : dict) : list json :=
  map (fun key => dict_get_default key (JStr "") rowdict) fieldnames.

(** Every key of the record is a column. *)
Definition fits (fieldnames : list string) (rowdict : dict) : Prop :=
  forall key, In key (dict_keys rowdict) -> In key fieldnames.

Definition exported_message (n : nat) (filename : string) : string :=
  "Exported " ++ int_repr (Z.of_nat n) ++ " records to '" ++ filename ++ "'".

Section CsvRows.

Variable w : World.

Lemma dict_to_list_fits (fieldnames : list string) (rowdict : dict) :
  fits fieldnames rowdict ->
  dict_to_list fieldnames rowdict w = (Ok (row_cells fieldnames rowdict), []).
Proof.
  intros H. unfold dict_to_list.
  assert (E : forallb (fun k => existsb (String.eqb k) fieldnames) (dict_keys rowdict)
              = true).
  { apply forallb_forall. intros k Hk. apply existsb_exists.
    exists k. split; [now apply H|apply String.eqb_refl]. }
  now rewrite E.
Qed.

Lemma dict_to_list_extra (fieldnames : list string) (rowdict : dict) (key : string) :
  In key (dict_keys rowdict) -> ~ In key fieldnames ->
  dict_to_list fieldnames rowdict w = (Raise ValueError, []).
Proof.
  intros Hin Hnot. unfold dict_to_list.
  destruct (forallb _ _) eqn:E; [|reflexivity].
  exfalso. apply Hnot.
  pose proof (proj1 (forallb_forall _ _) E key Hin) as H.
  apply existsb_exists in H. destruct H as (k' & Hk' & Heq).
  apply String.eqb_eq in Heq. now subst k'.
Qed.

Lemma write_rows_fit (fieldnames : list string) (records : list dict) (u : unit) :
  (forall r, In r records -> fits fieldnames r) ->
  for_each records (write_record fieldnames) u w
  = (Ok tt, map (fun r => WroteRow (row_cells fieldnames r)) records).
Proof.
  revert u. induction records as [|r rs IH]; intros u H.
  - now destruct u.
  - rewrite for_each_cons.
    assert (E : write_record fieldnames r u w
                = (Ok tt, [WroteRow (row_cells fieldnames r)])).
    { unfold write_record.
      now rewrite (bind_ok _ _ _ _ _ (dict_to_list_fits _ _ (H r (or_introl eq_refl)))). }
    rewrite (bind_ok _ _ _ _ _ E), IH; [reflexivity|].
    intros r' Hr'. apply H. now right.
Qed.

Lemma write_rows_extra (fieldnames : list string) (before after : list dict)
    (bad : dict) (key : string) (u : unit) :
  (forall r, In r before -> fits fieldnames r) ->
  In key (dict_keys bad) -> ~ In key fieldnames ->
  for_each (before ++ bad :: after) (write_record fieldnames) u w
  = (Raise ValueError, map (fun r => WroteRow (row_cells fieldnames r)) before).
Proof.
  intros Hb Hin Hnot.
  rewrite for_each_app, (bind_ok _ _ _ _ _ (write_rows_fit fieldnames before u Hb)).
  rewrite for_each_cons.
  assert (E : write_record fieldnames bad tt w = (Raise ValueError, [])).
  { unfold write_record.
    now rewrite (bind_fail _ _ _ _ _ (dict_to_list_extra _ _ _ Hin Hnot)). }
  rewrite (bind_fail _ _ _ _ _ E). cbn [fst snd]. now rewrite app_nil_r.
Qed.

Lemma sorted_in (l : list string) (key : string) : In key (sorted l) <-> In key l.
Proof.
  split; intros H.
  - now apply (Permutation_in _ (Permutation_sym (sorted_perm _))).
  - now apply (Permutation_in _ (sorted_perm _)).
Qed.

End CsvRows.

(** X9.  When the file opens and no record has a key the first record
    lacks, [write_csv] opens the file named after the test, writes the
    header and then one row per record in order, each row giving for every
    header column the record's value or '' where the record has no such
    key, and ends by printing the number of records exported. *)
Theorem csv_rows_follow_header (test_name : string) (first_record : dict)
    (records : list dict) (w : World) :
  writable w (csv_name test_name) = true ->
  (forall r key, In r records -> In key (dict_keys r) -> In key (dict_keys first_record)) ->
  let header := sorted (dict_keys first_record) in
  write_csv test_name first_record records w
  = (Ok tt,
     (Opened (csv_name test_name)
      :: WroteRow (map JStr header)
      :: map (fun r => WroteRow (map (fun key => dict_get_default key (JStr "") r) header))
             records
      ++ [Printed (exported_message (List.length records) (csv_name test_name))])%list)
  /\ (forall r, List.length (map (fun key => dict_get_default key (JStr "") r) header)
                = List.length header).
Proof.
  intros Hopen Hfit header. split; [|intros r; apply length_map].
  rewrite write_csv_eq, Hopen. cbv zeta.
  rewrite (write_rows_fit w (sorted (dict_keys first_record)) records tt).
  - reflexivity.
  - intros r Hr key Hkey. apply sorted_in. exact (Hfit r key Hr Hkey).
Qed.

Lemma csv_rows_follow_header_witness :
  write_csv "Backend Role" [("b", JInt 1); ("a", JNull)]
    [[("b", JInt 1); ("a", JNull)]; [("a", JStr "x")]] Scenario.backend
  = (Ok tt,
     [Opened "Backend_Role_completed_sessions.csv";
      WroteRow [JStr "a"; JStr "b"];
      WroteRow [JNull; JInt 1];
      WroteRow [JStr "x"; JStr ""];
      Printed "Exported 2 records to 'Backend_Role_completed_sessions.csv'"]).
Proof.
  refine (proj1 (csv_rows_follow_header "Backend Role" [("b", JInt 1); ("a", JNull)]
                   [[("b", JInt 1); ("a", JNull)]; [("a", JStr "x")]] Scenario.backend
                   eq_refl _)).
  intros r key [<-|[<-|[]]] Hkey; simpl in Hkey |- *; tauto.
Defined.

(** X10.  A record with a key the first record lacks makes the writer raise
    ValueError: the file has been opened and holds the header and the rows
    of the records before that one, nothing is written for it or after it,
    and no export message is printed. *)
Theorem csv_extra_key_raises (test_name : string) (first_record : dict)
    (before after : list dict) (bad : dict) (key : string) (w : World) :
  writable w (csv_name test_name) = true ->
  (forall r k, In r before -> In k (dict_keys r) -> In k (dict_keys first_record)) ->
  In key (dict_keys bad) ->
  ~ In key (dict_keys first_record) ->
  let header := sorted (dict_keys first_record) in
  write_csv test_name first_record (before ++ bad :: after) w
  = (Raise ValueError,
     Opened (csv_name test_name)
     :: WroteRow (map JStr header)
     :: map (fun r => WroteRow (map (fun k => dict_get_default k (JStr "") r) header))
            before).
Proof.
  intros Hopen Hfit Hin Hnot header.
  rewrite write_csv_eq, Hopen. cbv zeta.
  rewrite (write_rows_extra w (sorted (dict_keys first_record)) before after bad key tt).
  - reflexivity.
  - intros r Hr k Hk. apply sorted_in. exact (Hfit r k Hr Hk).
  - exact Hin.
  - intros H. apply Hnot. now apply sorted_in.
Qed.

Lemma csv_extra_key_raises_witness :
  write_csv "T" [("a", JInt 1)]
    ([[("a", JInt 1)]] ++ [("a", JInt 2); ("extra", JInt 3)] :: [[("a", JInt 4)]])
    Scenario.backend
  = (Raise ValueError,
     [Opened "T_completed_sessions.csv"; WroteRow [JStr "a"]; WroteRow [JInt 1]]).
Proof.
  refine (csv_extra_key_raises "T" [("a", JInt 1)] [[("a", JInt 1)]] [[("a", JInt 4)]]
            [("a", JInt 2); ("extra", JInt 3)] "extra" Scenario.backend eq_refl _ _ _).
  - intros r k [<-|[]] Hk. exact Hk.
  - simpl. tauto.
  - simpl. intros [H|[]]. discriminate.
Defined.

Section FileName.

Lemma str_contains_append (c : ascii) (a b : string) :
  str_contains c (a ++ b) = str_contains c a || str_contains c b.
Proof.
  induction a as [|x r IH]; [reflexivity|]. cbn. now rewrite IH, orb_assoc.
Qed.

Lemma str_replace_clean (a b : ascii) (s : string) :
  a <> b -> str_contains a (str_replace a b s) = false.
Proof.
  intros Hab. induction s as [|x r IH]; [reflexivity|]. cbn. rewrite IH, orb_false_r.
  destruct (Ascii.eqb_spec x a) as [->|Hx].
  - apply Ascii.eqb_neq. now apply not_eq_sym.
  - now apply Ascii.eqb_neq.
Qed.

Lemma str_length_append (a b : string) :
  String.length (a ++ b) = (String.length a + String.length b)%nat.
Proof. induction a as [|x r IH]; [reflexivity|]. cbn. now rewrite IH. Qed.

Lemma str_replace_length (a b : ascii) (s : string) :
  String.length (str_replace a b s) = String.length s.
Proof. induction s as [|x r IH]; [reflexivity|]. cbn. now rewrite IH. Qed.

Lemma get_replace_append (a b : ascii) (s t : string) (i : nat) (c : ascii) :
  String.get i s = Some c ->
  String.get i (str_replace a b s ++ t) = Some (if Ascii.eqb c a then b else c).
Proof.
  revert i. induction s as [|x r IH]; intros i H; [discriminate|].
  destruct i as [|i]; cbn in *.
  - now injection H as ->.
  - now apply IH.
Qed.

End FileName.

(* ================================================================== *)
(** * Further properties of the run *)
(* ================================================================== *)

Section TestListFailure.

Variable w : World.

Lemma main_list_tests (api_key : string) :
  getenv w "CODILITY_API_KEY" = Some api_key ->
  api_key <> "" ->
  main w
  = bind (list_tests (client_of api_key))
         (fun tests_resp =>
            tests <- py_get tests_resp "tests" (JList []) ;;
            if negb (py_truthy tests)
            then print "No tests found in your account." ;; sys_exit 0
            else select_and_export (client_of api_key) tests) w.
Proof.
  intros Hkey Hne.
  assert (E0 : os_getenv "CODILITY_API_KEY" w = (Ok (Some api_key), []))
    by (unfold os_getenv; now rewrite Hkey).
  unfold main. rewrite (bind_ok _ _ _ _ _ E0). cbn [app].
  rewrite <- surjective_pairing.
  destruct api_key as [|c s]; [contradiction|].
  change (__init__ (String c s) default_base_url)
    with (@ret CodilityAPIClient (client_of (String c s))).
  now rewrite bind_ret.
Qed.

End TestListFailure.

(** X12.  With the credential set, a test-list call that does not yield a
    JSON object ends [main] at once.  When the call raises, [main] ends
    with that exception.  When the call hands back a response, [main] ends
    with the HTTP failure if the status of that response is in 400..599,
    with the decode error if the status is another one and the body is not
    JSON, and with AttributeError if the body is JSON that is not an
    object.  In each case that one call is all the run did: nothing is
    printed, nobody is prompted, no file is opened. *)
Theorem test_list_failure_aborts (w : World) (api_key : string) :
  getenv w "CODILITY_API_KEY" = Some api_key ->
  api_key <> "" ->
  let req := request (client_of api_key) GET "/tests" None in
  (forall what,
      session_request w req = Failed what ->
      main w = (Raise (SessionError what), [Called req]))
  /\ (forall response,
        session_request w req = Answered response ->
        (is_error_status (status_code response) = true ->
         main w
         = (Raise (HTTPError (status_code response) (content response)), [Called req]))
        /\ (is_error_status (status_code response) = false ->
            parsed response = None ->
            main w = (Raise JSONDecodeError, [Called req]))
        /\ (forall v,
              is_error_status (status_code response) = false ->
              parsed response = Some v ->
              (forall d, v <> JDict d) ->
              main w = (Raise AttributeError, [Called req]))).
Proof.
  intros Hkey Hne req.
  pose proof (main_list_tests w api_key Hkey Hne) as Hmain.
  pose proof (list_tests_eq w (client_of api_key)) as Hlist.
  fold req in Hlist. unfold exchange in Hlist.
  split.
  - intros what Ht. rewrite Ht in Hlist. now rewrite Hmain, (bind_fail _ _ _ _ _ Hlist).
  - intros response Ht. rewrite Ht in Hlist. split; [|split].
    + intros Herr. rewrite Herr in Hlist. now rewrite Hmain, (bind_fail _ _ _ _ _ Hlist).
    + intros Herr Hp. rewrite Herr in Hlist. unfold body_json in Hlist. rewrite Hp in Hlist.
      now rewrite Hmain, (bind_fail _ _ _ _ _ Hlist).
    + intros v Herr Hp Hnd. rewrite Herr in Hlist. unfold body_json in Hlist.
      rewrite Hp in Hlist. rewrite Hmain, (bind_ok _ _ _ _ _ Hlist).
      destruct v; cbn [py_get]; rewrite ?bind_raise; try reflexivity.
      exfalso. now apply (Hnd d).
Qed.

(** Every call is answered with status 503. *)
Definition unavailable : World :=
  {| getenv := fun n => if String.eqb n "CODILITY_API_KEY" then Some "secret" else None;
     session_request := fun _ =>
       Answered {| status_code := 503; content := "Service Unavailable";
                   parsed := None |};
     stdin := None;
     writable := fun _ => true |}.

Lemma test_list_failure_aborts_witness :
  main unavailable
  = (Raise (HTTPError 503 "Service Unavailable"),
     [Called (request (client_of "secret") GET "/tests" None)]).
Proof.
  refine (proj1 (proj2 (test_list_failure_aborts unavailable "secret" eq_refl _)
                   {| status_code := 503; content := "Service Unavailable";
                      parsed := None |} eq_refl) eq_refl).
  discriminate.
Defined.

(** A computation that opens no file and never ends through [sys.exit]. *)
Definition plain {A : Type} (w : World) (m : M A) : Prop :=
  no_file_events (snd (m w)) /\ forall code, fst (m w) <> Raise (SystemExit code).

(** What every part of [main] keeps: an exit through [sys.exit] has code 0
    or 1 and has opened no file, and at most one file is opened, the CSV
    file of some test name. *)
Definition tidy {A : Type} (w : World) (m : M A) : Prop :=
  (forall code,
      fst (m w) = Raise (SystemExit code) ->
      (code = 0 \/ code = 1) /\ files_opened (snd (m w)) = [])
  /\ (files_opened (snd (m w)) = []
      \/ exists test_name, files_opened (snd (m w)) = [csv_name test_name]).

Section ExitStatus.

Variable w : World.

Lemma plain_bind {A B : Type} (m : M A) (f : A -> M B) :
  plain w m -> (forall a, plain w (f a)) -> plain w (bind m f).
Proof.
  unfold plain, bind. intros [Hm1 Hm2] Hf.
  destruct (m w) as [[a|e] l1]; cbn [fst snd] in *;
    [|split; [assumption|intros code [= ->]; now apply (Hm2 code)]].
  destruct (Hf a) as [Hf1 Hf2]. destruct (f a w) as [r l2]. cbn [fst snd] in *.
  split; [now apply no_file_events_app|assumption].
Qed.

Lemma plain_ret {A : Type} (a : A) : plain w (ret a).
Proof. split; [constructor|discriminate]. Qed.

Lemma plain_print (line : string) : plain w (print line).
Proof. split; [repeat constructor|discriminate]. Qed.

Lemma plain_input (prompt : string) : plain w (input prompt).
Proof.
  unfold plain, input. destruct (stdin w); (split; [repeat constructor|discriminate]).
Qed.

Lemma plain_py_get (v : json) (k : string) (default : json) : plain w (py_get v k default).
Proof. destruct v; (split; [constructor|discriminate]). Qed.

Lemma plain_py_getitem (v : json) (k : string) : plain w (py_getitem v k).
Proof.
  destruct v; try (split; [constructor|discriminate]).
  unfold plain. cbn [py_getitem].
  destruct (dict_get k d); (split; [constructor|discriminate]).
Qed.

Lemma plain_py_items (v : json) : plain w (py_items v).
Proof. destruct v; (split; [constructor|discriminate]). Qed.

Lemma plain_py_iter (v : json) : plain w (py_iter v).
Proof. destruct v; (split; [constructor|discriminate]). Qed.

Lemma plain_exchange (m : M json) (req : Request) :
  m w = exchange body_json req w -> plain w m.
Proof.
  unfold plain. intros ->. unfold exchange. cbn [fst snd].
  split; [repeat constructor|]. intros code.
  destruct (session_request w req) as [response|what]; [|discriminate].
  destruct (is_error_status (status_code response)); [discriminate|].
  unfold body_json. destruct (parsed response); discriminate.
Qed.

Lemma plain_for_each {A S : Type} (l : list A) (body : A -> S -> M S) (acc : S) :
  (forall x acc, plain w (body x acc)) -> plain w (for_each l body acc).
Proof.
  intros Hbody. revert acc. induction l as [|x r IH]; intros acc.
  - apply plain_ret.
  - cbn [for_each]. apply plain_bind; auto.
Qed.

Lemma plain_build_record (client : CodilityAPIClient) (session_id data : json) :
  plain w (build_record client session_id data).
Proof.
  unfold build_record.
  apply plain_bind; [exact (plain_exchange _ _ (get_similarity_results_eq w _ _))|].
  intros similarity. apply plain_bind; [apply plain_py_get|]. intros candidate.
  apply plain_bind; [apply plain_py_items|]. intros session_data.
  apply plain_bind; [apply plain_py_items|]. intros similarity_data.
  apply plain_bind; [apply plain_py_get|]. intros first_name.
  apply plain_bind; [apply plain_py_get|]. intros last_name.
  apply plain_bind; [apply plain_py_get|]. intros email.
  apply plain_ret.
Qed.

Lemma plain_export_session (client : CodilityAPIClient) (sess : json) (acc : list dict) :
  plain w (export_session client sess acc).
Proof.
  unfold export_session.
  apply plain_bind; [apply plain_py_get|]. intros session_id.
  apply plain_bind; [exact (plain_exchange _ _ (get_session_data_eq w _ _))|].
  intros data. apply plain_bind; [apply plain_py_get|]. intros end_time.
  destruct (negb (py_truthy end_time)); [apply plain_ret|].
  apply plain_bind; [apply plain_build_record|]. intros record. apply plain_ret.
Qed.

Lemma plain_collect_records (client : CodilityAPIClient) (first_match : json) :
  plain w (collect_records client first_match).
Proof.
  unfold collect_records.
  apply plain_bind; [apply plain_py_getitem|]. intros test_id.
  apply plain_bind; [exact (plain_exchange _ _ (list_test_sessions_eq w _ _))|].
  intros sessions_resp. apply plain_bind; [apply plain_py_get|]. intros sessions.
  apply plain_bind; [apply plain_py_iter|]. intros sessions'.
  apply plain_for_each. intros. apply plain_export_session.
Qed.

Lemma plain_print_test (t : json) (u : unit) : plain w (print_test t u).
Proof.
  unfold print_test.
  apply plain_bind; [apply plain_py_get|]. intros title.
  apply plain_bind.
  - destruct (py_truthy title); [apply plain_ret|].
    apply plain_bind; [apply plain_py_get|]. intros name. apply plain_ret.
  - intros name. apply plain_bind; [apply plain_py_getitem|]. intros id.
    apply plain_print.
Qed.

Lemma plain_list_and_prompt (tests : json) : plain w (list_and_prompt tests).
Proof.
  unfold list_and_prompt.
  apply plain_bind; [apply plain_print|]. intros _.
  apply plain_bind; [apply plain_py_iter|]. intros ts.
  apply plain_bind; [apply plain_for_each; intros; apply plain_print_test|]. intros _.
  apply plain_bind; [apply plain_input|]. intros line. apply plain_ret.
Qed.

Lemma plain_select_match (test_name : string) (t : json) (matches : list json) :
  plain w (select_match test_name t matches).
Proof.
  unfold select_match, name_matches.
  apply plain_bind; [|intros b; apply plain_ret].
  apply plain_bind; [apply plain_py_get|]. intros title.
  destruct (eq_str title test_name); [apply plain_ret|].
  apply plain_bind; [apply plain_py_get|]. intros name. apply plain_ret.
Qed.

(** ** What the parts of [main] keep *)

Lemma tidy_bind {A B : Type} (m : M A) (f : A -> M B) :
  plain w m -> (forall a, tidy w (f a)) -> tidy w (bind m f).
Proof.
  unfold plain, tidy, bind. intros [Hm1 Hm2] Hf.
  destruct (no_file_events_quiet _ Hm1) as [Hq _].
  destruct (m w) as [[a|e] l1]; cbn [fst snd] in *.
  - destruct (Hf a) as [Hf1 Hf2]. destruct (f a w) as [r l2]. cbn [fst snd] in *.
    rewrite files_opened_app, Hq. cbn [app]. split; assumption.
  - split; [|now left]. intros code [= ->]. exfalso. now apply (Hm2 code).
Qed.

Lemma tidy_exit (line : string) (code : Z) :
  code = 0 \/ code = 1 -> tidy w (print line ;; @sys_exit unit code).
Proof.
  intros Hcode. split; [|now left]. intros c H. cbn in H. injection H as <-.
  split; [exact Hcode|reflexivity].
Qed.

Lemma write_rows_raise (fieldnames : list string) (records : list dict) (u : unit)
    (e : exn) (l : list Event) :
  for_each records (write_record fieldnames) u w = (Raise e, l) -> e = ValueError.
Proof.
  revert u l. induction records as [|r rs IH]; intros u l H; [discriminate|].
  rewrite for_each_cons in H.
  destruct (write_record fieldnames r u w) as [[u'|e'] l1] eqn:E.
  - rewrite (bind_ok _ _ _ _ _ E) in H.
    destruct (for_each rs (write_record fieldnames) u' w) as [r2 l2] eqn:E2.
    cbn [fst snd] in H. injection H as -> _. exact (IH _ _ E2).
  - rewrite (bind_fail _ _ _ _ _ E) in H. injection H as <- _.
    unfold write_record, bind, dict_to_list, ret, raise, emit in E.
    destruct (forallb _ _); [discriminate|]. now injection E as <- _.
Qed.

Lemma tidy_write_csv (test_name : string) (first_record : dict) (records : list dict) :
  tidy w (write_csv test_name first_record records).
Proof.
  unfold tidy. rewrite write_csv_eq.
  destruct (writable w (csv_name test_name)); [|split; [discriminate|now left]].
  cbv zeta.
  pose proof (write_rows_log w (sorted (dict_keys first_record)) records tt) as Hq.
  destruct (for_each records (write_record (sorted (dict_keys first_record))) tt w)
    as [[u|e] l] eqn:E; cbn [fst snd] in *.
  - split; [discriminate|]. right. exists test_name.
    change (files_opened (Opened (csv_name test_name) :: ?x :: ?l))
      with (csv_name test_name :: files_opened l).
    now rewrite files_opened_app, Hq.
  - split.
    + intros code [= ->]. apply write_rows_raise in E. discriminate.
    + right. exists test_name.
      change (files_opened (Opened (csv_name test_name) :: ?x :: ?l))
        with (csv_name test_name :: files_opened l).
      now rewrite Hq.
Qed.

Lemma tidy_export_matched (client : CodilityAPIClient) (test_name : string)
    (first_match : json) :
  tidy w (export_matched client test_name first_match).
Proof.
  unfold export_matched. apply tidy_bind; [apply plain_collect_records|].
  intros [|first_record rest]; [apply tidy_exit; now left|apply tidy_write_csv].
Qed.

Lemma tidy_select_and_export (client : CodilityAPIClient) (tests : json) :
  tidy w (select_and_export client tests).
Proof.
  unfold select_and_export. apply tidy_bind; [apply plain_list_and_prompt|].
  intros [ts test_name].
  apply tidy_bind; [apply plain_for_each; intros; apply plain_select_match|].
  intros [|first_match rest]; [apply tidy_exit; now right|apply tidy_export_matched].
Qed.

Lemma tidy_main : tidy w main.
Proof.
  unfold main. apply tidy_bind.
  - split; [constructor|discriminate].
  - intros [[|c s]|]; try (apply tidy_exit; now right).
    apply tidy_bind; [apply plain_ret|]. intros client.
    apply tidy_bind; [exact (plain_exchange _ _ (list_tests_eq w client))|].
    intros tests_resp. apply tidy_bind; [apply plain_py_get|]. intros tests.
    destruct (negb (py_truthy tests)); [apply tidy_exit; now left|].
    apply tidy_select_and_export.
Qed.

End ExitStatus.

(** X13.  In every run of [main], an exit through [sys.exit] has code 0
    or 1 and comes before any file is opened, and no run opens more than one
    file. *)
Theorem sys_exit_precedes_file (w : World) :
  (forall code,
      fst (main w) = Raise (SystemExit code) ->
      (code = 0 \/ code = 1) /\ files_opened (snd (main w)) = [])
  /\ (List.length (files_opened (snd (main w))) <= 1)%nat.
Proof.
  destruct (tidy_main w) as [Hexit Hfiles]. split; [exact Hexit|].
  destruct Hfiles as [->|[test_name ->]]; cbn [List.length]; lia.
Qed.

Section FileOpened.

Variable w : World.

Lemma opened_in_files (filename : string) (l : list Event) :
  In (Opened filename) l -> In filename (files_opened l).
Proof.
  intros H. apply in_flat_map. exists (Opened filename). split; [exact H|now left].
Qed.

(** A file opened after a part that opens none is opened by what follows
    that part, which therefore returned. *)
Lemma opened_bind {A B : Type} (m : M A) (f : A -> M B) (filename : string) :
  plain w m ->
  In filename (files_opened (snd (bind m f w))) ->
  exists a l, m w = (Ok a, l) /\ In filename (files_opened (snd (f a w))).
Proof.
  unfold plain, bind. intros [Hm _] H.
  destruct (no_file_events_quiet _ Hm) as [Hq _].
  destruct (m w) as [[a|e] l1]; cbn [fst snd] in *.
  - exists a, l1. split; [reflexivity|].
    destruct (f a w) as [r l2]. cbn [snd] in *.
    now rewrite files_opened_app, Hq in H.
  - rewrite Hq in H. contradiction.
Qed.

Lemma exit_opens_nothing (line : string) (code : Z) (filename : string) :
  ~ In filename (files_opened (snd ((print line ;; @sys_exit unit code) w))).
Proof. intros H. exact H. Qed.

Lemma write_csv_opens (test_name : string) (first_record : dict) (records : list dict)
    (filename : string) :
  In filename (files_opened (snd (write_csv test_name first_record records w))) ->
  filename = str_replace " " "_" test_name ++ "_completed_sessions.csv".
Proof.
  rewrite write_csv_eq.
  destruct (writable w (csv_name test_name)); [|intros []].
  cbv zeta.
  pose proof (write_rows_log w (sorted (dict_keys first_record)) records tt) as Hq.
  destruct (for_each records (write_record (sorted (dict_keys first_record))) tt w)
    as [[u|e] l] eqn:E; cbn [fst snd] in *;
    change (files_opened (Opened (csv_name test_name) :: ?x :: ?l))
      with (csv_name test_name :: files_opened l);
    rewrite ?files_opened_app, Hq; intros [<-|[]]; reflexivity.
Qed.

Lemma main_opens (filename : string) :
  In filename (files_opened (snd (main w))) ->
  exists line,
    stdin w = Some line
    /\ filename = str_replace " " "_" (str_strip line) ++ "_completed_sessions.csv".
Proof.
  unfold main. intros H.
  apply opened_bind in H; [|split; [constructor|discriminate]].
  destruct H as (api_key & l0 & _ & H).
  destruct api_key as [[|c s]|]; try (now apply exit_opens_nothing in H).
  apply opened_bind in H; [|apply plain_ret].
  destruct H as (client & l1 & _ & H).
  apply opened_bind in H; [|exact (plain_exchange w _ _ (list_tests_eq w client))].
  destruct H as (tests_resp & l2 & _ & H).
  apply opened_bind in H; [|apply plain_py_get].
  destruct H as (tests & l3 & _ & H).
  destruct (negb (py_truthy tests)); [now apply exit_opens_nothing in H|].
  unfold select_and_export in H.
  apply opened_bind in H; [|apply plain_list_and_prompt].
  destruct H as ([ts test_name] & l4 & Hlp & H).
  destruct (list_and_prompt_ok w _ _ _ _ Hlp) as (_ & _ & line & Hline & ->).
  exists line. split; [exact Hline|].
  apply opened_bind in H; [|apply plain_for_each; intros; apply plain_select_match].
  destruct H as (matches & l5 & _ & H).
  destruct matches as [|first_match rest]; [now apply exit_opens_nothing in H|].
  unfold export_matched in H.
  apply opened_bind in H; [|apply plain_collect_records].
  destruct H as (records & l6 & _ & H).
  destruct records as [|first_record more]; [now apply exit_opens_nothing in H|].
  exact (write_csv_opens _ _ _ _ H).
Qed.

End FileOpened.

(** X11.  A file [main] opens is named after the operator's line: the line
    without surrounding whitespace, every space in it turned into an
    underscore, character for character, followed by
    '_completed_sessions.csv'.  So the name of the file never contains a
    space and is 23 characters longer than the stripped line. *)
Theorem export_file_name (w : World) (filename : string) :
  In (Opened filename) (snd (main w)) ->
  exists line,
    stdin w = Some line
    /\ filename = str_replace " " "_" (str_strip line) ++ "_completed_sessions.csv"
    /\ str_contains " " filename = false
    /\ String.length filename = (String.length (str_strip line) + 23)%nat
    /\ (forall i c,
          String.get i (str_strip line) = Some c ->
          String.get i filename = Some (if Ascii.eqb c " " then "_"%char else c)).
Proof.
  intros H. apply opened_in_files, main_opens in H.
  destruct H as (line & Hline & ->). exists line.
  split; [exact Hline|]. split; [reflexivity|]. split; [|split].
  - rewrite str_contains_append, str_replace_clean by discriminate. reflexivity.
  - now rewrite str_length_append, str_replace_length.
  - intros i c. apply get_replace_append.
Qed.

Lemma export_file_name_witness :
  exists line,
    stdin Scenario.backend = Some line
    /\ "Backend_Role_completed_sessions.csv"
       = str_replace " " "_" (str_strip line) ++ "_completed_sessions.csv"
    /\ str_contains " " "Backend_Role_completed_sessions.csv" = false
    /\ String.length "Backend_Role_completed_sessions.csv"
       = (String.length (str_strip line) + 23)%nat
    /\ (forall i c,
          String.get i (str_strip line) = Some c ->
          String.get i "Backend_Role_completed_sessions.csv"
          = Some (if Ascii.eqb c " " then "_"%char else c)).
Proof.
  apply (export_file_name Scenario.backend "Backend_Role_completed_sessions.csv").
  vm_compute. repeat (first [left; reflexivity | right]).
Defined.

(* ================================================================== *)
(** * Further edge behaviour *)
(* ================================================================== *)

(** [s] begins with a whitespace character, or ends with one. *)
Definition padded (s : string) : Prop :=
  (exists c r, s = String c r /\ is_space c = true)
  \/ (exists r c, s = r ++ String c "" /\ is_space c = true).

Section Edges.

Lemma lstrip_by_first (p : ascii -> bool) (s r : string) (c : ascii) :
  lstrip_by p s = String c r -> p c = false.
Proof.
  induction s as [|x t IH]; cbn [lstrip_by]; [discriminate|].
  destruct (p x) eqn:Hx; [exact IH|]. now intros [= <- _].
Qed.

Lemma rstrip_by_first (p : ascii -> bool) (s r : string) (c : ascii) :
  (forall x t, s = String x t -> p x = false) ->
  rstrip_by p s = String c r -> p c = false.
Proof.
  intros Hs. destruct s as [|x t]; [discriminate|].
  specialize (Hs x t eq_refl). cbn [rstrip_by].
  destruct (rstrip_by p t); [rewrite Hs|]; now intros [= <- _].
Qed.

Lemma str_strip_not_padded (line : string) : ~ padded (str_strip line).
Proof.
  unfold str_strip. intros [(c & r & H & Hc)|(r & c & H & Hc)].
  - apply rstrip_by_first in H; [congruence|].
    intros x t Hx. exact (lstrip_by_first _ _ _ _ Hx).
  - apply rstrip_by_last in H. congruence.
Qed.

Lemma str_repeat_snoc (c : ascii) (n : nat) :
  str_repeat c (S n) = str_repeat c n ++ String c "".
Proof. induction n as [|n IH]; [reflexivity|]. cbn in *. now rewrite <- IH. Qed.

Lemma str_append_assoc (a b c : string) : (a ++ b) ++ c = a ++ (b ++ c).
Proof. induction a as [|x r IH]; [reflexivity|]. cbn. now rewrite IH. Qed.

Lemma str_append_nil (a : string) : a ++ "" = a.
Proof. induction a as [|x r IH]; [reflexivity|]. cbn. now rewrite IH. Qed.

Lemma str_rstrip_fixed (c : ascii) (s : string) :
  ~ ends_with c s -> str_rstrip c s = s.
Proof.
  intros H. destruct (str_rstrip_suffix c s) as [[|n] E].
  - cbn in E. now rewrite str_append_nil in E.
  - exfalso. apply H. exists (str_rstrip c s ++ str_repeat c n).
    now rewrite str_append_assoc, <- str_repeat_snoc.
Qed.

End Edges.

(** X14.  The name compared is the operator's line stripped, so it neither
    begins nor ends with whitespace: a test whose title and name each are
    missing, not a string, or a string with leading or trailing whitespace
    is matched by no input. *)
Theorem padded_names_never_match (tests : json) (w : World) (ts : list json)
    (test_name : string) (l : list Event) :
  list_and_prompt tests w = (Ok (ts, test_name), l) ->
  ~ padded test_name
  /\ (forall d,
        (forall title, dict_get "title" d = Some (JStr title) -> padded title) ->
        (forall name, dict_get "name" d = Some (JStr name) -> padded name) ->
        name_is test_name (JDict d) = false).
Proof.
  intros H. destruct (list_and_prompt_ok w _ _ _ _ H) as (_ & _ & line & _ & ->).
  pose proof (str_strip_not_padded line) as Hclean. split; [exact Hclean|].
  intros d Htitle Hname. apply not_true_is_false. intros Hm.
  apply name_is_spec in Hm. destruct Hm as [Hm|Hm].
  - apply Hclean. exact (Htitle _ Hm).
  - apply Hclean. exact (Hname _ Hm).
Qed.

Lemma padded_names_never_match_witness :
  name_is "Backend Role" (JDict [("id", JInt 9); ("title", JStr " Backend Role")]) = false.
Proof.
  assert (Hlp : exists l,
             list_and_prompt
               (JList [JDict [("id", JInt 9); ("title", JStr " Backend Role")]])
               Scenario.backend
             = (Ok ([JDict [("id", JInt 9); ("title", JStr " Backend Role")]],
                    "Backend Role"), l)).
  { eexists. vm_compute. reflexivity. }
  destruct Hlp as [l Hlp].
  apply (proj2 (padded_names_never_match _ _ _ _ _ Hlp)).
  - intros title [= <-]. left. exists " "%char, "Backend Role". split; reflexivity.
  - intros name [=].
Defined.

(** X15.  A base URL that does not end with '/' is stored as given, and
    normalizing is idempotent: constructing a client from a client's stored
    base URL stores the same URL. *)
Theorem base_url_normalization_idempotent (api_key base_url : string) (w : World) :
  (~ ends_with "/" base_url ->
   exists client,
     __init__ api_key base_url w = (Ok client, [])
     /\ api_calls.base_url client = base_url)
  /\ (forall client client',
        fst (__init__ api_key base_url w) = Ok client ->
        fst (__init__ api_key (api_calls.base_url client) w) = Ok client' ->
        client' = client).
Proof.
  split.
  - intros H. eexists. split; [reflexivity|]. cbn. now apply str_rstrip_fixed.
  - intros client client' [= <-] [= <-]. cbn [api_calls.base_url].
    rewrite (str_rstrip_fixed "/" (str_rstrip "/" base_url)); [reflexivity|].
    apply str_rstrip_clean.
Qed.

Lemma base_url_normalization_idempotent_witness :
  exists client,
    __init__ "secret" "https://codility.com/api" Scenario.backend = (Ok client, [])
    /\ api_calls.base_url client = "https://codility.com/api".
Proof.
  apply (proj1 (base_url_normalization_idempotent
                  "secret" "https://codility.com/api" Scenario.backend)).
  exact (str_rstrip_clean "/" "https://codility.com/api").
Defined.

(** X16.  Values of the wrong shape are not skipped, they end the loop
    body with AttributeError: a detail record that is not a JSON object;
    and, for a session that passed the completion filter, a similarity
    record that is not a JSON object, or a 'candidate' that is present but
    not an object (null included). *)
Theorem wrong_shape_raises_attribute_error (client : CodilityAPIClient) (w : World)
    (s : dict) (completed_records : list dict) :
  let session_id := dict_get_default "id" JNull s in
  (forall data,
      fst (get_session_data client session_id w) = Ok data ->
      (forall d, data <> JDict d) ->
      fst (export_session client (JDict s) completed_records w) = Raise AttributeError)
  /\ (forall d similarity,
        included client w (JDict s) session_id d ->
        fst (get_similarity_results client session_id w) = Ok similarity ->
        (forall sim, similarity <> JDict sim) ->
        fst (export_session client (JDict s) completed_records w) = Raise AttributeError)
  /\ (forall d sim candidate,
        included client w (JDict s) session_id d ->
        fst (get_similarity_results client session_id w) = Ok (JDict sim) ->
        dict_get "candidate" d = Some candidate ->
        (forall c, candidate <> JDict c) ->
        fst (export_session client (JDict s) completed_records w) = Raise AttributeError).
Proof.
  intros session_id. subst session_id. split; [|split].
  - intros data Hdata Hnd. rewrite export_session_eq. cbv zeta.
    destruct (get_session_data client (dict_get_default "id" JNull s) w) as [r1 l1].
    cbn [fst] in Hdata. subst r1.
    destruct data; try reflexivity. exfalso. now apply (Hnd d).
  - intros d similarity (s' & [= <-] & _ & Hdata & Hend) Hsim Hnd.
    rewrite has_completion_marker_truthy in Hend.
    rewrite export_session_eq. cbv zeta.
    destruct (get_session_data client (dict_get_default "id" JNull s) w) as [r1 l1].
    cbn [fst] in Hdata. subst r1. rewrite Hend, build_record_eq.
    destruct (get_similarity_results client (dict_get_default "id" JNull s) w)
      as [r2 l2]. cbn [fst] in Hsim. subst r2.
    destruct similarity; try reflexivity. exfalso. now apply (Hnd d0).
  - intros d sim candidate (s' & [= <-] & _ & Hdata & Hend) Hsim Hcand Hnd.
    rewrite has_completion_marker_truthy in Hend.
    rewrite export_session_eq. cbv zeta.
    destruct (get_session_data client (dict_get_default "id" JNull s) w) as [r1 l1].
    cbn [fst] in Hdata. subst r1. rewrite Hend, build_record_eq.
    destruct (get_similarity_results client (dict_get_default "id" JNull s) w)
      as [r2 l2]. cbn [fst] in Hsim. subst r2.
    unfold dict_get_default at 1. rewrite Hcand.
    destruct candidate; try reflexivity. exfalso. now apply (Hnd d0).
Qed.

(** Session N is completed and its 'candidate' is null. *)
Definition null_candidate_serve (r : Request) : Reply :=
  if String.eqb (url r) "https://codility.com/api/sessions/N" then
    Answered (Scenario.json_response
                (JDict [("end_time", JStr "2024-06-06"); ("candidate", JNull)]))
  else if String.eqb (url r) "https://codility.com/api/sessions/N/similarity" then
    Answered (Scenario.json_response (JDict []))
  else Scenario.serve r.

Definition null_candidate : World :=
  {| getenv := fun n => if String.eqb n "CODILITY_API_KEY" then Some "secret" else None;
     session_request := null_candidate_serve;
     stdin := Some "Backend Role";
     writable := fun _ => true |}.

Lemma wrong_shape_raises_attribute_error_witness :
  fst (export_session Scenario.client (JDict [("id", JStr "N")]) [] null_candidate)
  = Raise AttributeError.
Proof.
  refine (proj2 (proj2 (wrong_shape_raises_attribute_error Scenario.client null_candidate
                          [("id", JStr "N")] []))
            [("end_time", JStr "2024-06-06"); ("candidate", JNull)] [] JNull _ _ _ _).
  - exists [("id", JStr "N")]. repeat split; reflexivity.
  - reflexivity.
  - reflexivity.
  - discriminate.
Defined.
